(** * SoundFlow native FFmpeg codec: decoder and encoder pipelines

    A shallow embedding of [src/Native/ffmpeg-codec/soundflow-ffmpeg.c]
    (with the enumerations of [soundflow-ffmpeg.h]).  The pipelines drive
    FFmpeg, which is an external library: its API is an interface here
    ([FFmpeg]), a deterministic handler from calls to return codes over an
    abstract engine state, and the pipeline code is written over any such
    handler.  Small concrete engines ([RefDec], [RefEnc], [RefSeek],
    [Scarce]) give runnable instances. *)

From Stdlib Require Import ZArith List Bool Lia String.
Import ListNotations.
Local Open Scope Z_scope.

(** ** Machine integers

    C integers are modelled in [Z]; a conversion to a [w]-bit signed type is
    the two's-complement wrap-around every mainstream ABI implements. *)

Definition wrap (w z : Z) : Z := (z + 2 ^ (w - 1)) mod 2 ^ w - 2 ^ (w - 1).

(** [(int)z]. *)
Definition to_int (z : Z) : Z := wrap 32 z.
(** [(int64_t)z]. *)
Definition to_int64 (z : Z) : Z := wrap 64 z.
(** [(size_t)z] on a 64-bit target. *)
Definition to_size_t (z : Z) : Z := z mod 2 ^ 64.
(** [(uint32_t)z]. *)
Definition to_uint32 (z : Z) : Z := z mod 2 ^ 32.

Definition INT_MAX : Z := 2147483647.
Definition INT64_MAX : Z := 9223372036854775807.
Definition INT64_MIN : Z := -9223372036854775808.

(** ** Constants of the FFmpeg and libc headers

    The [errno] values are those of Linux; the pipelines only compare the
    codes with one another. *)

Definition IO_BUFFER_SIZE : Z := 32768.
Definition EIO : Z := 5.
Definition EAGAIN : Z := 11.
Definition EINVAL : Z := 22.
Definition AVERROR (e : Z) : Z := - e.
Arguments AVERROR : simpl never.
(** [FFERRTAG('E','O','F',' ')]. *)
Definition AVERROR_EOF : Z := -541478725.
Definition AV_NOPTS_VALUE : Z := INT64_MIN.
Definition AV_TIME_BASE : Z := 1000000.

(** ** Enumerations of soundflow-ffmpeg.h *)

Inductive SFSampleFormat : Set :=
| SF_SAMPLE_FORMAT_UNKNOWN
| SF_SAMPLE_FORMAT_U8
| SF_SAMPLE_FORMAT_S16
| SF_SAMPLE_FORMAT_S24
| SF_SAMPLE_FORMAT_S32
| SF_SAMPLE_FORMAT_F32.

Inductive SF_Result : Set :=
| SF_RESULT_SUCCESS
| SF_RESULT_ERROR_INVALID_ARGS
| SF_RESULT_ERROR_ALLOCATION_FAILED
| SF_RESULT_DECODER_ERROR_OPEN_INPUT
| SF_RESULT_DECODER_ERROR_FIND_STREAM_INFO
| SF_RESULT_DECODER_ERROR_NO_AUDIO_STREAM
| SF_RESULT_DECODER_ERROR_CODEC_NOT_FOUND
| SF_RESULT_DECODER_ERROR_CODEC_CONTEXT_ALLOC
| SF_RESULT_DECODER_ERROR_CODEC_OPEN_FAILED
| SF_RESULT_DECODER_ERROR_INVALID_TARGET_FORMAT
| SF_RESULT_DECODER_ERROR_RESAMPLER_INIT_FAILED
| SF_RESULT_DECODER_ERROR_PACKET_FRAME_ALLOC
| SF_RESULT_DECODER_ERROR_SEEK_FAILED
| SF_RESULT_DECODER_ERROR_DECODING_FAILED
| SF_RESULT_ENCODER_ERROR_FORMAT_NOT_FOUND
| SF_RESULT_ENCODER_ERROR_CODEC_NOT_FOUND
| SF_RESULT_ENCODER_ERROR_STREAM_ALLOC
| SF_RESULT_ENCODER_ERROR_CODEC_CONTEXT_ALLOC
| SF_RESULT_ENCODER_ERROR_CODEC_OPEN_FAILED
| SF_RESULT_ENCODER_ERROR_CONTEXT_PARAMS
| SF_RESULT_ENCODER_ERROR_WRITE_HEADER
| SF_RESULT_ENCODER_ERROR_INVALID_INPUT_FORMAT
| SF_RESULT_ENCODER_ERROR_RESAMPLER_INIT_FAILED
| SF_RESULT_ENCODER_ERROR_PACKET_FRAME_ALLOC
| SF_RESULT_ENCODER_ERROR_ENCODING_FAILED
| SF_RESULT_ENCODER_ERROR_WRITE_FAILED.

(** The numeric value of each enumerator. *)
Definition SF_Result_value (r : SF_Result) : Z :=
  match r with
  | SF_RESULT_SUCCESS => 0
  | SF_RESULT_ERROR_INVALID_ARGS => -1
  | SF_RESULT_ERROR_ALLOCATION_FAILED => -2
  | SF_RESULT_DECODER_ERROR_OPEN_INPUT => -10
  | SF_RESULT_DECODER_ERROR_FIND_STREAM_INFO => -11
  | SF_RESULT_DECODER_ERROR_NO_AUDIO_STREAM => -12
  | SF_RESULT_DECODER_ERROR_CODEC_NOT_FOUND => -13
  | SF_RESULT_DECODER_ERROR_CODEC_CONTEXT_ALLOC => -14
  | SF_RESULT_DECODER_ERROR_CODEC_OPEN_FAILED => -15
  | SF_RESULT_DECODER_ERROR_INVALID_TARGET_FORMAT => -16
  | SF_RESULT_DECODER_ERROR_RESAMPLER_INIT_FAILED => -17
  | SF_RESULT_DECODER_ERROR_PACKET_FRAME_ALLOC => -18
  | SF_RESULT_DECODER_ERROR_SEEK_FAILED => -19
  | SF_RESULT_DECODER_ERROR_DECODING_FAILED => -20
  | SF_RESULT_ENCODER_ERROR_FORMAT_NOT_FOUND => -30
  | SF_RESULT_ENCODER_ERROR_CODEC_NOT_FOUND => -31
  | SF_RESULT_ENCODER_ERROR_STREAM_ALLOC => -32
  | SF_RESULT_ENCODER_ERROR_CODEC_CONTEXT_ALLOC => -33
  | SF_RESULT_ENCODER_ERROR_CODEC_OPEN_FAILED => -34
  | SF_RESULT_ENCODER_ERROR_CONTEXT_PARAMS => -35
  | SF_RESULT_ENCODER_ERROR_WRITE_HEADER => -36
  | SF_RESULT_ENCODER_ERROR_INVALID_INPUT_FORMAT => -37
  | SF_RESULT_ENCODER_ERROR_RESAMPLER_INIT_FAILED => -38
  | SF_RESULT_ENCODER_ERROR_PACKET_FRAME_ALLOC => -39
  | SF_RESULT_ENCODER_ERROR_ENCODING_FAILED => -40
  | SF_RESULT_ENCODER_ERROR_WRITE_FAILED => -41
  end.

(** ** FFmpeg's sample formats (libavutil/samplefmt.h) *)

Inductive AVSampleFormat : Set :=
| AV_SAMPLE_FMT_NONE
| AV_SAMPLE_FMT_U8
| AV_SAMPLE_FMT_S16
| AV_SAMPLE_FMT_S32
| AV_SAMPLE_FMT_FLT
| AV_SAMPLE_FMT_DBL
| AV_SAMPLE_FMT_U8P
| AV_SAMPLE_FMT_S16P
| AV_SAMPLE_FMT_S32P
| AV_SAMPLE_FMT_FLTP
| AV_SAMPLE_FMT_DBLP
| AV_SAMPLE_FMT_S64
| AV_SAMPLE_FMT_S64P.

(** [av_get_bytes_per_sample], as documented by FFmpeg. *)
Definition av_get_bytes_per_sample (f : AVSampleFormat) : Z :=
  match f with
  | AV_SAMPLE_FMT_NONE => 0
  | AV_SAMPLE_FMT_U8 | AV_SAMPLE_FMT_U8P => 1
  | AV_SAMPLE_FMT_S16 | AV_SAMPLE_FMT_S16P => 2
  | AV_SAMPLE_FMT_S32 | AV_SAMPLE_FMT_S32P => 4
  | AV_SAMPLE_FMT_FLT | AV_SAMPLE_FMT_FLTP => 4
  | AV_SAMPLE_FMT_DBL | AV_SAMPLE_FMT_DBLP => 8
  | AV_SAMPLE_FMT_S64 | AV_SAMPLE_FMT_S64P => 8
  end.

(** ** Helper functions of soundflow-ffmpeg.c *)

Definition to_ffmpeg_sample_format (format : SFSampleFormat) : AVSampleFormat :=
  match format with
  | SF_SAMPLE_FORMAT_U8 => AV_SAMPLE_FMT_U8
  | SF_SAMPLE_FORMAT_S16 => AV_SAMPLE_FMT_S16
  | SF_SAMPLE_FORMAT_S24 => AV_SAMPLE_FMT_S32
  | SF_SAMPLE_FORMAT_S32 => AV_SAMPLE_FMT_S32
  | SF_SAMPLE_FORMAT_F32 => AV_SAMPLE_FMT_FLT
  | _ => AV_SAMPLE_FMT_NONE
  end.

Definition from_ffmpeg_sample_format (format : AVSampleFormat) : SFSampleFormat :=
  match format with
  | AV_SAMPLE_FMT_U8 | AV_SAMPLE_FMT_U8P => SF_SAMPLE_FORMAT_U8
  | AV_SAMPLE_FMT_S16 | AV_SAMPLE_FMT_S16P => SF_SAMPLE_FORMAT_S16
  | AV_SAMPLE_FMT_S32 | AV_SAMPLE_FMT_S32P => SF_SAMPLE_FORMAT_S32
  | AV_SAMPLE_FMT_FLT | AV_SAMPLE_FMT_FLTP => SF_SAMPLE_FORMAT_F32
  | _ => SF_SAMPLE_FORMAT_UNKNOWN
  end.

(** ** Rational rescaling (libavutil/mathematics.h)

    [av_rescale a b c] is [a * b / c] rounded to nearest, halves away from
    zero, computed without intermediate overflow.  It returns an [int64_t]:
    [INT64_MIN] when [c <= 0] or [b < 0], and when the result is not
    representable.  For a negative [a] it rescales the magnitude of
    [max(a, -INT64_MAX)] and negates. *)

Definition av_rescale (a b c : Z) : Z :=
  if (c <=? 0) || (b <? 0) then INT64_MIN
  else
    let q := (Z.abs (Z.max a (- INT64_MAX)) * b + c / 2) / c in
    if INT64_MAX <? q then INT64_MIN
    else if a <? 0 then - q else q.

Record AVRational : Set := { num : Z; den : Z }.

(** [av_rescale_q a bq cq] is [a * bq / cq]. *)
Definition av_rescale_q (a : Z) (bq cq : AVRational) : Z :=
  av_rescale a (num bq * den cq) (num cq * den bq).

(** The fields of an [AVStream] the pipelines read. *)
Record AVStream : Set := {
  duration : Z;
  time_base : AVRational;
  codecpar_sample_rate : Z
}.

(** ** The FFmpeg interface

    [U] is the state behind the caller's [pUserData]; the caller's write
    callback maps it and the number of bytes offered to the number of bytes
    it took and the new state. *)

Section Pipeline.

Variable U : Type.

Definition sf_write_callback : Type := U -> Z -> Z * U.

(** [write_packet_callback]: the adapter registered with the engine's I/O
    context.  [bytes_written < buf_size] compares a [size_t] with an [int]
    converted to [size_t]. *)
Definition write_packet_callback (onWrite : sf_write_callback)
    (buf_size : Z) (u : U) : Z * U :=
  let (bytes_written, u') := onWrite u (to_size_t buf_size) in
  if bytes_written <? to_size_t buf_size then (AVERROR EIO, u')
  else (to_int bytes_written, u').

(** A frame handed to the encoder: its timestamp and its sample count. *)
Record AVFrame : Set := { pts : Z; nb_samples : Z }.

(** The FFmpeg functions the pipelines call.  A pointer result is reported as
    a non-zero code, [NULL] as [0]; for [swr_alloc_set_opts2] the code tells
    whether the resampler context was set.  [swr_convert out_count None] is
    the call with a [NULL] input, [avcodec_send_packet false] the one with a
    [NULL] packet, [avcodec_send_frame None] the one with a [NULL] frame. *)
Inductive Call : Type :=
| av_log_set_level
| av_dict_set (key value : string)
| avformat_alloc_context
| av_malloc (size : Z)
| avio_alloc_context (write_flag : Z) (write_packet : option (Z -> U -> Z * U))
| avformat_open_input
| avformat_find_stream_info
| av_find_best_stream
| set_discard_all (i : Z)
| avcodec_find_decoder
| avcodec_alloc_context3
| avcodec_parameters_to_context
| avcodec_open2
| swr_alloc_set_opts2 (out_fmt in_fmt : AVSampleFormat)
| swr_init
| av_packet_alloc
| av_frame_alloc
| avcodec_receive_frame
| swr_convert (out_count : Z) (in_count : option Z)
| av_frame_unref
| av_packet_unref
| av_read_frame
| avcodec_send_packet (packet : bool)
| av_guess_format (format_name : string)
| avformat_alloc_output_context2
| avcodec_find_encoder
| avformat_new_stream
| set_codec_parameters (channels sampleRate : Z)
| set_codec_sample_fmt (fmt : AVSampleFormat)
| set_global_header
| avcodec_parameters_from_context
| avformat_write_header
| av_frame_get_buffer (nb : Z)
| avcodec_send_frame (frame : option AVFrame)
| avcodec_receive_packet
| av_packet_rescale_ts
| set_packet_stream_index
| av_interleaved_write_frame
| av_frame_free
| av_write_trailer
| avcodec_free_context
| avio_flush
| av_freep_buffer
| avio_context_free
| avformat_free_context
| av_free_io_buffer
| av_packet_free
| swr_free.

(** An engine: a handler for the calls, and the fields of FFmpeg's
    structures that the pipelines read directly. *)
Record FFmpeg (E : Type) : Type := {
  call : Call -> E -> Z * E;
  frame_nb_samples : E -> Z;
  packet_stream_index : E -> Z;
  codec_nb_channels : E -> Z;
  codec_sample_rate : E -> Z;
  codec_sample_fmt : E -> AVSampleFormat;
  codec_sample_fmts : E -> option AVSampleFormat;
  oformat_globalheader : E -> bool;
  streams : E -> list AVStream;
  format_duration : E -> Z;
  format_pb : E -> bool
}.

Arguments call {E} _ _ _.
Arguments frame_nb_samples {E} _ _.
Arguments packet_stream_index {E} _ _.
Arguments codec_nb_channels {E} _ _.
Arguments codec_sample_rate {E} _ _.
Arguments codec_sample_fmt {E} _ _.
Arguments codec_sample_fmts {E} _ _.
Arguments oformat_globalheader {E} _ _.
Arguments streams {E} _ _.
Arguments format_duration {E} _ _.
Arguments format_pb {E} _ _.

(** ** The structures of soundflow-ffmpeg.c

    The FFmpeg objects a structure points to live in the engine state; the
    structure keeps its own scalar fields, and for a pointer tested against
    [NULL] whether it is set. *)

Record SF_Decoder : Set := {
  format_ctx : bool;
  stream_index : Z;
  target_bytes_per_sample : Z;
  target_channels : Z
}.

Record SF_Encoder : Type := {
  enc_format_ctx : bool;
  onWrite : option sf_write_callback;
  next_pts : Z;
  input_format : SFSampleFormat
}.

(** [calloc]: every field zero. *)
Definition sf_decoder_create : SF_Decoder :=
  {| format_ctx := false; stream_index := 0;
     target_bytes_per_sample := 0; target_channels := 0 |}.

Definition sf_encoder_create : SF_Encoder :=
  {| enc_format_ctx := false; onWrite := None; next_pts := 0;
     input_format := SF_SAMPLE_FORMAT_UNKNOWN |}.

(** What [sf_decoder_init] stores through its three out-pointers. *)
Record DecoderInfo : Set := {
  out_native_format : SFSampleFormat;
  out_channels : Z;
  out_samplerate : Z
}.

Section Engine.

Variable E : Type.
Variable F : FFmpeg E.

(** ** Initialisation stages

    An initialiser is a sequence of engine calls, each followed by a test
    that may return early.  [Stage S A] threads the structure under
    construction ([S]) and the engine state; [inl r] is [return r;]. *)

Definition Stage (S A : Type) : Type := S * E -> (SF_Result + A) * (S * E).

Definition stage_ret {S A} (a : A) : Stage S A := fun w => (inr a, w).

Definition stage_bind {S A B} (m : Stage S A) (k : A -> Stage S B) : Stage S B :=
  fun w => match m w with
           | (inl r, w') => (inl r, w')
           | (inr a, w') => k a w'
           end.

Definition ffcall {S} (c : Call) : Stage S Z :=
  fun w => let (r, e') := call F c (snd w) in (inr r, (fst w, e')).

Definition peek {S A} (f : E -> A) : Stage S A := fun w => (inr (f (snd w)), w).

Definition update {S} (f : S -> S) : Stage S unit :=
  fun w => (inr tt, (f (fst w), snd w)).

Definition return_ {S A} (r : SF_Result) : Stage S A := fun w => (inl r, w).

Definition unless {S} (failed : bool) (r : SF_Result) : Stage S unit :=
  if failed then return_ r else stage_ret tt.

Notation "x <- m ;; k" := (stage_bind m (fun x => k))
  (at level 61, m at next level, right associativity).
Notation "m ;;; k" := (stage_bind m (fun _ => k))
  (at level 61, right associativity).

(** ** Decoder *)

Definition discard_other_streams (stream_index : Z) (e : E) : E :=
  fold_left
    (fun e i => if Z.of_nat i =? stream_index then e
                else snd (call F (set_discard_all (Z.of_nat i)) e))
    (seq 0 (List.length (streams F e))) e.

(** The body of [sf_decoder_init].  [avio_alloc_context 0 None] is the call
    that registers the read and seek adapters, which are not modelled; the
    assignment of the I/O context to [format_ctx->pb] is part of it.
    [avformat_open_input] is given the address of [decoder->format_ctx]: when
    it fails it has freed the context and stored [NULL] there. *)
Definition decoder_stages (target_format : SFSampleFormat)
  : Stage (SF_Decoder * option DecoderInfo) unit :=
  ffcall av_log_set_level ;;;
  fc <- ffcall avformat_alloc_context ;;
  update (fun s => ({| format_ctx := negb (fc =? 0);
                       stream_index := stream_index (fst s);
                       target_bytes_per_sample := target_bytes_per_sample (fst s);
                       target_channels := target_channels (fst s) |}, snd s)) ;;;
  unless (fc =? 0) SF_RESULT_ERROR_ALLOCATION_FAILED ;;;
  io_buffer <- ffcall (av_malloc IO_BUFFER_SIZE) ;;
  (if io_buffer =? 0
   then ffcall avformat_free_context ;;; return_ SF_RESULT_ERROR_ALLOCATION_FAILED
   else stage_ret tt) ;;;
  avio_ctx <- ffcall (avio_alloc_context 0 None) ;;
  (if avio_ctx =? 0
   then ffcall av_free_io_buffer ;;; ffcall avformat_free_context ;;;
        return_ SF_RESULT_ERROR_ALLOCATION_FAILED
   else stage_ret tt) ;;;
  ffcall (av_dict_set "scan_all_pmts" "0") ;;;
  ffcall (av_dict_set "probesize" "5000000") ;;;
  ffcall (av_dict_set "analyzeduration" "10000000") ;;;
  opened <- ffcall avformat_open_input ;;
  (if negb (opened =? 0)
   then update (fun s => ({| format_ctx := false;
                             stream_index := stream_index (fst s);
                             target_bytes_per_sample := target_bytes_per_sample (fst s);
                             target_channels := target_channels (fst s) |}, snd s)) ;;;
        return_ SF_RESULT_DECODER_ERROR_OPEN_INPUT
   else stage_ret tt) ;;;
  info <- ffcall avformat_find_stream_info ;;
  unless (info <? 0) SF_RESULT_DECODER_ERROR_FIND_STREAM_INFO ;;;
  best <- ffcall av_find_best_stream ;;
  update (fun s => ({| format_ctx := format_ctx (fst s);
                       stream_index := best;
                       target_bytes_per_sample := target_bytes_per_sample (fst s);
                       target_channels := target_channels (fst s) |}, snd s)) ;;;
  unless (best <? 0) SF_RESULT_DECODER_ERROR_NO_AUDIO_STREAM ;;;
  (fun w => (inr tt, (fst w, discard_other_streams best (snd w)))) ;;;
  codec <- ffcall avcodec_find_decoder ;;
  unless (codec =? 0) SF_RESULT_DECODER_ERROR_CODEC_NOT_FOUND ;;;
  codec_ctx <- ffcall avcodec_alloc_context3 ;;
  unless (codec_ctx =? 0) SF_RESULT_DECODER_ERROR_CODEC_CONTEXT_ALLOC ;;;
  ffcall avcodec_parameters_to_context ;;;
  codec_open <- ffcall avcodec_open2 ;;
  unless (codec_open <? 0) SF_RESULT_DECODER_ERROR_CODEC_OPEN_FAILED ;;;
  nb_channels <- peek (codec_nb_channels F) ;;
  sample_rate <- peek (codec_sample_rate F) ;;
  sample_fmt <- peek (codec_sample_fmt F) ;;
  update (fun s => (fst s,
                    Some {| out_native_format := from_ffmpeg_sample_format sample_fmt;
                            out_channels := to_uint32 nb_channels;
                            out_samplerate := to_uint32 sample_rate |})) ;;;
  let target_av_format := to_ffmpeg_sample_format target_format in
  unless (match target_av_format with AV_SAMPLE_FMT_NONE => true | _ => false end)
         SF_RESULT_DECODER_ERROR_INVALID_TARGET_FORMAT ;;;
  update (fun s => ({| format_ctx := format_ctx (fst s);
                       stream_index := stream_index (fst s);
                       target_bytes_per_sample := av_get_bytes_per_sample target_av_format;
                       target_channels := nb_channels |}, snd s)) ;;;
  swr_ctx <- ffcall (swr_alloc_set_opts2 target_av_format sample_fmt) ;;
  unless (swr_ctx =? 0) SF_RESULT_DECODER_ERROR_RESAMPLER_INIT_FAILED ;;;
  swr <- ffcall swr_init ;;
  unless (swr <? 0) SF_RESULT_DECODER_ERROR_RESAMPLER_INIT_FAILED ;;;
  packet <- ffcall av_packet_alloc ;;
  frame <- ffcall av_frame_alloc ;;
  unless ((packet =? 0) || (frame =? 0)) SF_RESULT_DECODER_ERROR_PACKET_FRAME_ALLOC ;;;
  stage_ret tt.

(** [sf_decoder_init]; [decoder = None] is the [NULL] handle.  The result
    carries the structure as left behind and what the out-pointers hold. *)
Definition sf_decoder_init (decoder : option SF_Decoder) (target_format : SFSampleFormat)
    (e : E) : SF_Result * option SF_Decoder * option DecoderInfo * E :=
  match decoder with
  | None => (SF_RESULT_ERROR_INVALID_ARGS, None, None, e)
  | Some d =>
      match decoder_stages target_format ((d, None), e) with
      | (inl r, ((d', info), e')) => (r, Some d', info, e')
      | (inr _, ((d', info), e')) => (SF_RESULT_SUCCESS, Some d', info, e')
      end
  end.

(** [sf_decoder_get_length_in_pcm_frames].  [None] stands for the read of
    [streams[stream_index]] outside the array, which C leaves undefined. *)
Definition sf_decoder_get_length_in_pcm_frames (decoder : option SF_Decoder) (e : E)
  : option Z :=
  match decoder with
  | None => Some (-1)
  | Some d =>
      if negb (format_ctx d) || (stream_index d <? 0) then Some (-1)
      else
        match nth_error (streams F e) (Z.to_nat (stream_index d)) with
        | None => None
        | Some stream =>
            if negb (duration stream =? AV_NOPTS_VALUE) then
              Some (av_rescale_q (duration stream) (time_base stream)
                      {| num := 1; den := codecpar_sample_rate stream |})
            else if negb (format_duration F e =? AV_NOPTS_VALUE) then
              Some (av_rescale (format_duration F e) AV_TIME_BASE
                      (codecpar_sample_rate stream))
            else Some 0
        end
  end.

(** The local variables of [sf_decoder_read_pcm_frames], with the engine
    state.  [out_ptr] is [out_ptr[0] - pFramesOut] in bytes.  [written] is
    the record of what the resampler stored in the caller's buffer, latest
    first: the byte offset it was given and the number of frames it
    produced there. *)
Record ReadState : Type := {
  rs_engine : E;
  out_ptr : Z;
  frames_read : Z;
  draining : bool;
  written : list (Z * Z)
}.

(** One [swr_convert] into the caller's buffer with the cursor update that
    follows it, as both the decode branch ([in_count] the frame's samples)
    and the drain loop ([None]: a [NULL] input) have it.  The byte count is
    computed in [int]. *)
Definition resample (d : SF_Decoder) (frameCount : Z) (in_count : option Z)
    (s : ReadState) : Z * ReadState :=
  let (out_samples, e') :=
    call F (swr_convert (to_int (frameCount - frames_read s)) in_count) (rs_engine s) in
  (out_samples,
   if 0 <? out_samples then
     {| rs_engine := e';
        out_ptr := out_ptr s
                   + to_int (to_int (out_samples * target_channels d)
                             * target_bytes_per_sample d);
        frames_read := to_int64 (frames_read s + out_samples);
        draining := draining s;
        written := (out_ptr s, out_samples) :: written s |}
   else
     {| rs_engine := e'; out_ptr := out_ptr s; frames_read := frames_read s;
        draining := draining s; written := written s |}).

Definition with_engine (s : ReadState) (e : E) : ReadState :=
  {| rs_engine := e; out_ptr := out_ptr s; frames_read := frames_read s;
     draining := draining s; written := written s |}.

Definition start_draining (s : ReadState) (e : E) : ReadState :=
  {| rs_engine := e; out_ptr := out_ptr s; frames_read := frames_read s;
     draining := true; written := written s |}.

(** The [do ... while (flushed_samples > 0 && frames_read < frameCount)]
    loop; [None] when the fuel runs out. *)
Fixpoint drain_resampler (fuel : nat) (d : SF_Decoder) (frameCount : Z)
    (s : ReadState) : option ReadState :=
  match fuel with
  | O => None
  | S fuel' =>
      let (flushed_samples, s') := resample d frameCount None s in
      if (0 <? flushed_samples) && (frames_read s' <? frameCount)
      then drain_resampler fuel' d frameCount s'
      else Some s'
  end.

(** The [while (frames_read < frameCount)] loop; the result is the code
    returned and the state at the [return], whose [frames_read] is what
    every return after the argument check stores in [*out_frames_read]. *)
Fixpoint read_loop (fuel : nat) (d : SF_Decoder) (frameCount : Z)
    (s : ReadState) : option (SF_Result * ReadState) :=
  match fuel with
  | O => None
  | S fuel' =>
      if negb (frames_read s <? frameCount) then Some (SF_RESULT_SUCCESS, s)
      else
        let (ret, e1) := call F avcodec_receive_frame (rs_engine s) in
        if ret =? 0 then
          let (_, s2) :=
            resample d frameCount (Some (frame_nb_samples F e1)) (with_engine s e1) in
          let e3 := snd (call F av_frame_unref (rs_engine s2)) in
          read_loop fuel' d frameCount (with_engine s2 e3)
        else if ret =? AVERROR_EOF then
          match drain_resampler fuel' d frameCount (with_engine s e1) with
          | None => None
          | Some s' => Some (SF_RESULT_SUCCESS, s')
          end
        else if negb (ret =? AVERROR EAGAIN) then
          Some (SF_RESULT_DECODER_ERROR_DECODING_FAILED, with_engine s e1)
        else if draining s then Some (SF_RESULT_SUCCESS, with_engine s e1)
        else
          let e2 := snd (call F av_packet_unref e1) in
          let (read_ret, e3) := call F av_read_frame e2 in
          if read_ret =? 0 then
            if packet_stream_index F e3 =? stream_index d then
              let (sent, e4) := call F (avcodec_send_packet true) e3 in
              let e5 := snd (call F av_packet_unref e4) in
              if sent <? 0
              then Some (SF_RESULT_DECODER_ERROR_DECODING_FAILED, with_engine s e5)
              else read_loop fuel' d frameCount (with_engine s e5)
            else
              let e4 := snd (call F av_packet_unref e3) in
              read_loop fuel' d frameCount (with_engine s e4)
          else if read_ret =? AVERROR_EOF then
            let e4 := snd (call F (avcodec_send_packet false) e3) in
            read_loop fuel' d frameCount (start_draining s e4)
          else Some (SF_RESULT_DECODER_ERROR_DECODING_FAILED, with_engine s e3)
  end.

(** What a call of [sf_decoder_read_pcm_frames] leaves behind: the code
    returned, the content of [*out_frames_read] ([None] for a [NULL]
    pointer), the resampler's stores into the caller's buffer, and the
    engine state. *)
Record ReadOutcome : Type := {
  read_result : SF_Result;
  out_frames_read : option Z;
  stored : list (Z * Z);
  read_engine : E
}.

(** [sf_decoder_read_pcm_frames].  [pFramesOut] tells whether the buffer
    pointer is set; [out_frames_read0] is the cell behind [out_frames_read]
    before the call. *)
Definition sf_decoder_read_pcm_frames (fuel : nat) (decoder : option SF_Decoder)
    (pFramesOut : bool) (frameCount : Z) (out_frames_read0 : option Z) (e : E)
  : option ReadOutcome :=
  let invalid :=
    Some {| read_result := SF_RESULT_ERROR_INVALID_ARGS;
            out_frames_read := out_frames_read0; stored := []; read_engine := e |} in
  match decoder, pFramesOut, out_frames_read0 with
  | Some d, true, Some _ =>
      if frameCount <=? 0 then invalid
      else
        match read_loop fuel d frameCount
                {| rs_engine := e; out_ptr := 0; frames_read := 0;
                   draining := false; written := [] |} with
        | None => None
        | Some (r, s) =>
            Some {| read_result := r; out_frames_read := Some (frames_read s);
                    stored := written s; read_engine := rs_engine s |}
        end
  | _, _, _ => invalid
  end.

(** ** Encoder *)

(** The [while (ret >= 0)] loop of [encode_and_write]: every path through
    its body that does not return leaves [ret >= 0]. *)
Fixpoint receive_packets (fuel : nat) (e : E) : option (Z * E) :=
  match fuel with
  | O => None
  | S fuel' =>
      let (ret, e1) := call F avcodec_receive_packet e in
      if (ret =? AVERROR EAGAIN) || (ret =? AVERROR_EOF) then Some (0, e1)
      else if ret <? 0 then Some (ret, e1)
      else
        let e2 := snd (call F av_packet_rescale_ts e1) in
        let e3 := snd (call F set_packet_stream_index e2) in
        let (write_ret, e4) := call F av_interleaved_write_frame e3 in
        let e5 := snd (call F av_packet_unref e4) in
        if write_ret <? 0 then Some (write_ret, e5)
        else receive_packets fuel' e5
  end.

Definition encode_and_write (fuel : nat) (frame : option AVFrame) (e : E)
  : option (Z * E) :=
  let (ret, e1) := call F (avcodec_send_frame frame) e in
  if ret <? 0 then Some (ret, e1) else receive_packets fuel e1.

(** The body of [sf_encoder_init].  [set_codec_parameters] stands for the
    channel layout, sample rate and time base stored in the codec context;
    [avio_alloc_context 1 (Some ...)] registers [write_packet_callback] and
    covers the assignment to [format_ctx->pb]. *)
Definition encoder_stages (format_name : string) (onWrite : sf_write_callback)
    (sampleFormat : SFSampleFormat) (channels sampleRate : Z)
  : Stage SF_Encoder unit :=
  ffcall av_log_set_level ;;;
  update (fun s => {| enc_format_ctx := enc_format_ctx s; onWrite := Some onWrite;
                      next_pts := 0; input_format := sampleFormat |}) ;;;
  out_fmt <- ffcall (av_guess_format format_name) ;;
  unless (out_fmt =? 0) SF_RESULT_ENCODER_ERROR_FORMAT_NOT_FOUND ;;;
  fc <- ffcall avformat_alloc_output_context2 ;;
  update (fun s => {| enc_format_ctx := negb (fc =? 0); onWrite := Some onWrite;
                      next_pts := next_pts s; input_format := input_format s |}) ;;;
  unless (fc =? 0) SF_RESULT_ENCODER_ERROR_FORMAT_NOT_FOUND ;;;
  codec <- ffcall avcodec_find_encoder ;;
  unless (codec =? 0) SF_RESULT_ENCODER_ERROR_CODEC_NOT_FOUND ;;;
  stream <- ffcall avformat_new_stream ;;
  unless (stream =? 0) SF_RESULT_ENCODER_ERROR_STREAM_ALLOC ;;;
  codec_ctx <- ffcall avcodec_alloc_context3 ;;
  unless (codec_ctx =? 0) SF_RESULT_ENCODER_ERROR_CODEC_CONTEXT_ALLOC ;;;
  ffcall (set_codec_parameters channels sampleRate) ;;;
  sample_fmts <- peek (codec_sample_fmts F) ;;
  match sample_fmts with
  | None => return_ SF_RESULT_ENCODER_ERROR_CODEC_NOT_FOUND
  | Some first =>
      ffcall (set_codec_sample_fmt first) ;;;
      globalheader <- peek (oformat_globalheader F) ;;
      (if globalheader then ffcall set_global_header ;;; stage_ret tt
       else stage_ret tt) ;;;
      codec_open <- ffcall avcodec_open2 ;;
      unless (codec_open <? 0) SF_RESULT_ENCODER_ERROR_CODEC_OPEN_FAILED ;;;
      params <- ffcall avcodec_parameters_from_context ;;
      unless (params <? 0) SF_RESULT_ENCODER_ERROR_CONTEXT_PARAMS ;;;
      ffcall (av_malloc IO_BUFFER_SIZE) ;;;
      ffcall (avio_alloc_context 1 (Some (write_packet_callback onWrite))) ;;;
      header <- ffcall avformat_write_header ;;
      unless (header <? 0) SF_RESULT_ENCODER_ERROR_WRITE_HEADER ;;;
      let input_av_format := to_ffmpeg_sample_format sampleFormat in
      unless (match input_av_format with AV_SAMPLE_FMT_NONE => true | _ => false end)
             SF_RESULT_ENCODER_ERROR_INVALID_INPUT_FORMAT ;;;
      codec_fmt <- peek (codec_sample_fmt F) ;;
      swr_ctx <- ffcall (swr_alloc_set_opts2 codec_fmt input_av_format) ;;
      unless (swr_ctx =? 0) SF_RESULT_ENCODER_ERROR_RESAMPLER_INIT_FAILED ;;;
      swr <- ffcall swr_init ;;
      unless (swr <? 0) SF_RESULT_ENCODER_ERROR_RESAMPLER_INIT_FAILED ;;;
      packet <- ffcall av_packet_alloc ;;
      frame <- ffcall av_frame_alloc ;;
      unless ((packet =? 0) || (frame =? 0)) SF_RESULT_ENCODER_ERROR_PACKET_FRAME_ALLOC ;;;
      stage_ret tt
  end.

(** [sf_encoder_init]; [encoder = None] is the [NULL] handle. *)
Definition sf_encoder_init (encoder : option SF_Encoder) (format_name : string)
    (onWrite : sf_write_callback) (sampleFormat : SFSampleFormat)
    (channels sampleRate : Z) (e : E) : SF_Result * option SF_Encoder * E :=
  match encoder with
  | None => (SF_RESULT_ERROR_INVALID_ARGS, None, e)
  | Some enc =>
      match encoder_stages format_name onWrite sampleFormat channels sampleRate (enc, e) with
      | (inl r, (enc', e')) => (r, Some enc', e')
      | (inr _, (enc', e')) => (SF_RESULT_SUCCESS, Some enc', e')
      end
  end.

(** What a call of [sf_encoder_write_pcm_frames] leaves behind: the code
    returned, the encoder structure, the content of [*out_frames_written]
    ([None] for a [NULL] pointer) and the engine state. *)
Record WriteOutcome : Type := {
  write_result : SF_Result;
  write_encoder : option SF_Encoder;
  out_frames_written : option Z;
  write_engine : E
}.

Definition advance_pts (enc : SF_Encoder) (n : Z) : SF_Encoder :=
  {| enc_format_ctx := enc_format_ctx enc; onWrite := onWrite enc;
     next_pts := to_int64 (next_pts enc + n); input_format := input_format enc |}.

(** [sf_encoder_write_pcm_frames].  [pFramesIn] tells whether the input
    pointer is set; [out_frames_written0] is the cell behind
    [out_frames_written] before the call.  [av_frame_get_buffer nb] stands
    for the set-up of [resampled_frame] (format, layout, rate and
    [nb_samples = (int)frameCount]) and the allocation of its buffer. *)
Definition sf_encoder_write_pcm_frames (fuel : nat) (encoder : option SF_Encoder)
    (pFramesIn : bool) (frameCount : Z) (out_frames_written0 : option Z) (e : E)
  : option WriteOutcome :=
  let invalid :=
    Some {| write_result := SF_RESULT_ERROR_INVALID_ARGS; write_encoder := encoder;
            out_frames_written := out_frames_written0; write_engine := e |} in
  match encoder, pFramesIn, out_frames_written0 with
  | Some enc, true, Some _ =>
      if frameCount <=? 0 then invalid
      else
        let e1 := snd (call F av_frame_alloc e) in
        let nb := to_int frameCount in
        let (got, e2) := call F (av_frame_get_buffer nb) e1 in
        if got <? 0 then
          let e3 := snd (call F av_frame_free e2) in
          Some {| write_result := SF_RESULT_ERROR_ALLOCATION_FAILED;
                  write_encoder := Some enc;
                  out_frames_written := Some 0; write_engine := e3 |}
        else
          let e3 := snd (call F (swr_convert nb (Some (to_int frameCount))) e2) in
          let resampled_frame := {| pts := next_pts enc; nb_samples := nb |} in
          let enc' := advance_pts enc nb in
          match encode_and_write fuel (Some resampled_frame) e3 with
          | None => None
          | Some (ret, e4) =>
              let e5 := snd (call F av_frame_free e4) in
              if ret <? 0 then
                if ret =? AVERROR EIO then
                  Some {| write_result := SF_RESULT_ENCODER_ERROR_WRITE_FAILED;
                          write_encoder := Some enc';
                          out_frames_written := Some 0; write_engine := e5 |}
                else
                  Some {| write_result := SF_RESULT_ENCODER_ERROR_ENCODING_FAILED;
                          write_encoder := Some enc';
                          out_frames_written := Some 0; write_engine := e5 |}
              else
                Some {| write_result := SF_RESULT_SUCCESS;
                        write_encoder := Some enc';
                        out_frames_written := Some frameCount; write_engine := e5 |}
          end
  | _, _, _ => invalid
  end.

(** The part of [sf_encoder_free] that follows the flush: the trailer, then
    the release of every FFmpeg object. *)
Definition release_encoder (enc : SF_Encoder) (e1 : E) : E :=
  let e2 := snd (call F av_write_trailer e1) in
  let e3 := snd (call F avcodec_free_context e2) in
  let e4 :=
    if enc_format_ctx enc then
      let e' :=
        if format_pb F e3 then
          let e31 := snd (call F avio_flush e3) in
          let e32 := snd (call F av_freep_buffer e31) in
          snd (call F avio_context_free e32)
        else e3 in
      snd (call F avformat_free_context e')
    else e3 in
  let e5 := snd (call F av_packet_free e4) in
  let e6 := snd (call F av_frame_free e5) in
  snd (call F swr_free e6).

(** [sf_encoder_free] returns [void]: all that is left of the call is the
    engine state.  The code returned by the flush is dropped. *)
Definition sf_encoder_free (fuel : nat) (encoder : option SF_Encoder) (e : E)
  : option E :=
  match encoder with
  | None => Some e
  | Some enc =>
      match encode_and_write fuel None e with
      | None => None
      | Some (_, e1) => Some (release_encoder enc e1)
      end
  end.

(** ** An encoder's life

    A caller's use of one encoder: create, initialise, a sequence of
    [sf_encoder_write_pcm_frames] calls, free.  After a failed
    initialisation only the free follows. *)

Record WriteCall : Set := {
  wc_frames_in : bool;
  wc_frame_count : Z;
  wc_out : option Z
}.

(** The calls in order, each on the structure the previous one left; the
    codes returned, in order. *)
Fixpoint write_calls (fuel : nat) (calls : list WriteCall)
    (encoder : option SF_Encoder) (e : E)
  : option (list SF_Result * option SF_Encoder * E) :=
  match calls with
  | [] => Some ([], encoder, e)
  | c :: rest =>
      match sf_encoder_write_pcm_frames fuel encoder (wc_frames_in c)
              (wc_frame_count c) (wc_out c) e with
      | None => None
      | Some o =>
          match write_calls fuel rest (write_encoder o) (write_engine o) with
          | None => None
          | Some (rs, enc', e') => Some (write_result o :: rs, enc', e')
          end
      end
  end.

(** The frames a sequence of calls offers; a call with a count of zero or
    less offers none. *)
Definition frames_offered (calls : list WriteCall) : Z :=
  fold_right (fun c acc => Z.max 0 (wc_frame_count c) + acc) 0 calls.

(** Every code the caller receives during the life of the encoder, and the
    engine state after the free. *)
Definition encoder_session (fuel : nat) (format_name : string)
    (onWrite : sf_write_callback) (sampleFormat : SFSampleFormat)
    (channels sampleRate : Z) (calls : list WriteCall) (e : E)
  : option (list SF_Result * E) :=
  match sf_encoder_init (Some sf_encoder_create) format_name onWrite sampleFormat
          channels sampleRate e with
  | (SF_RESULT_SUCCESS, encoder, e1) =>
      match write_calls fuel calls encoder e1 with
      | None => None
      | Some (rs, encoder', e2) =>
          match sf_encoder_free fuel encoder' e2 with
          | None => None
          | Some e3 => Some (SF_RESULT_SUCCESS :: rs, e3)
          end
      end
  | (r, encoder, e1) =>
      match sf_encoder_free fuel encoder e1 with
      | None => None
      | Some e3 => Some ([r], e3)
      end
  end.

End Engine.

(** ** Recording the engine calls

    Any engine can be run with a record of the calls made to it, oldest
    first; the pipelines, being written over the interface, run on it
    unchanged. *)

Definition Logged {E : Type} (F : FFmpeg E) : FFmpeg (E * list Call) :=
  {| call := fun c w => let (r, e') := call F c (fst w) in (r, (e', snd w ++ [c]));
     frame_nb_samples := fun w => frame_nb_samples F (fst w);
     packet_stream_index := fun w => packet_stream_index F (fst w);
     codec_nb_channels := fun w => codec_nb_channels F (fst w);
     codec_sample_rate := fun w => codec_sample_rate F (fst w);
     codec_sample_fmt := fun w => codec_sample_fmt F (fst w);
     codec_sample_fmts := fun w => codec_sample_fmts F (fst w);
     oformat_globalheader := fun w => oformat_globalheader F (fst w);
     streams := fun w => streams F (fst w);
     format_duration := fun w => format_duration F (fst w);
     format_pb := fun w => format_pb F (fst w) |}.

Definition is_write_header (c : Call) : bool :=
  match c with avformat_write_header => true | _ => false end.

Definition is_write_trailer (c : Call) : bool :=
  match c with av_write_trailer => true | _ => false end.

(** A frame of PCM handed to the codec. *)
Definition is_send_pcm (c : Call) : bool :=
  match c with avcodec_send_frame (Some _) => true | _ => false end.

(** The sentinel: a [NULL] frame handed to the codec. *)
Definition is_send_null (c : Call) : bool :=
  match c with avcodec_send_frame None => true | _ => false end.

(** The frames handed to the codec, in order. *)
Definition frames_sent (l : list Call) : list AVFrame :=
  flat_map (fun c => match c with avcodec_send_frame (Some f) => [f] | _ => [] end) l.

(** Frames that follow one another without gap or overlap from timestamp
    [start] on: each is stamped where the one before it ended. *)
Fixpoint contiguous (start : Z) (fs : list AVFrame) : Prop :=
  match fs with
  | [] => True
  | f :: rest => pts f = start /\ contiguous (start + nb_samples f) rest
  end.

Definition samples_in (fs : list AVFrame) : Z :=
  fold_right (fun f acc => nb_samples f + acc) 0 fs.

(** A call of [sf_encoder_write_pcm_frames] whose arguments are refused: a
    [NULL] input or result pointer, or a count of zero or less.  (The
    encoder of a sequence of calls is never [NULL].) *)
Definition rejected (c : WriteCall) : Prop :=
  wc_frames_in c = false \/ wc_out c = None \/ wc_frame_count c <= 0.

(** Whether a call that returned [r] handed its frame to the codec: all
    but the calls refused and those whose frame could not be allocated. *)
Definition submits (r : SF_Result) : bool :=
  match r with
  | SF_RESULT_ERROR_INVALID_ARGS | SF_RESULT_ERROR_ALLOCATION_FAILED => false
  | _ => true
  end.

(** The frames a sequence of calls hands to the codec, from the codes they
    returned: one frame of the call's count for every call that submits,
    stamped with the sum of the counts submitted before it. *)
Fixpoint frames_of_calls (start : Z) (calls : list WriteCall) (rs : list SF_Result)
  : list AVFrame :=
  match calls, rs with
  | c :: calls', r :: rs' =>
      if submits r
      then {| pts := start; nb_samples := wc_frame_count c |}
           :: frames_of_calls (start + wc_frame_count c) calls' rs'
      else frames_of_calls start calls' rs'
  | _, _ => []
  end.

Definition none_of (p : Call -> bool) (l : list Call) : Prop :=
  forallb (fun c => negb (p c)) l = true.

(** The header, the trailer, or anything handed to the codec for encoding. *)
Definition is_landmark (c : Call) : bool :=
  is_write_header c || is_write_trailer c || is_send_pcm c || is_send_null c.

(** The header, the trailer, or the sentinel. *)
Definition is_boundary (c : Call) : bool :=
  is_write_header c || is_write_trailer c || is_send_null c.

End Pipeline.

Arguments write_packet_callback {U} _ _ _.
Arguments call {U E} _ _ _.
Arguments frame_nb_samples {U E} _ _.
Arguments packet_stream_index {U E} _ _.
Arguments codec_nb_channels {U E} _ _.
Arguments codec_sample_rate {U E} _ _.
Arguments codec_sample_fmt {U E} _ _.
Arguments codec_sample_fmts {U E} _ _.
Arguments oformat_globalheader {U E} _ _.
Arguments streams {U E} _ _.
Arguments format_duration {U E} _ _.
Arguments format_pb {U E} _ _.
Arguments sf_encoder_create {U}.
Arguments enc_format_ctx {U} _.
Arguments onWrite {U} _.
Arguments next_pts {U} _.
Arguments input_format {U} _.
Arguments advance_pts {U} _ _.
Arguments sf_decoder_init {U E} F _ _ _.
Arguments sf_decoder_get_length_in_pcm_frames {U E} F _ _.
Arguments rs_engine {E} _.
Arguments out_ptr {E} _.
Arguments frames_read {E} _.
Arguments draining {E} _.
Arguments written {E} _.
Arguments with_engine {E} _ _.
Arguments start_draining {E} _ _.
Arguments resample {U E} F _ _ _ _.
Arguments drain_resampler {U E} F _ _ _ _.
Arguments read_loop {U E} F _ _ _ _.
Arguments read_result {E} _.
Arguments out_frames_read {E} _.
Arguments stored {E} _.
Arguments read_engine {E} _.
Arguments sf_decoder_read_pcm_frames {U E} F _ _ _ _ _ _.
Arguments receive_packets {U E} F _ _.
Arguments encode_and_write {U E} F _ _ _.
Arguments sf_encoder_init {U E} F _ _ _ _ _ _ _.
Arguments write_result {U E} _.
Arguments write_encoder {U E} _.
Arguments out_frames_written {U E} _.
Arguments write_engine {U E} _.
Arguments sf_encoder_write_pcm_frames {U E} F _ _ _ _ _ _.
Arguments release_encoder {U E} F _ _.
Arguments sf_encoder_free {U E} F _ _ _.
Arguments write_calls {U E} F _ _ _ _.
Arguments encoder_session {U E} F _ _ _ _ _ _ _ _.
Arguments Logged {U E} F.
Arguments is_write_header {U} _.
Arguments is_write_trailer {U} _.
Arguments is_send_pcm {U} _.
Arguments is_send_null {U} _.
Arguments frames_sent {U} _.
Arguments none_of {U} _ _.
Arguments is_landmark {U} _.
Arguments is_boundary {U} _.
Arguments av_log_set_level {U}.
Arguments av_dict_set {U} _ _.
Arguments avformat_alloc_context {U}.
Arguments av_malloc {U} _.
Arguments avio_alloc_context {U} _ _.
Arguments avformat_open_input {U}.
Arguments avformat_find_stream_info {U}.
Arguments av_find_best_stream {U}.
Arguments set_discard_all {U} _.
Arguments avcodec_find_decoder {U}.
Arguments avcodec_alloc_context3 {U}.
Arguments avcodec_parameters_to_context {U}.
Arguments avcodec_open2 {U}.
Arguments swr_alloc_set_opts2 {U} _ _.
Arguments swr_init {U}.
Arguments av_packet_alloc {U}.
Arguments av_frame_alloc {U}.
Arguments avcodec_receive_frame {U}.
Arguments swr_convert {U} _ _.
Arguments av_frame_unref {U}.
Arguments av_packet_unref {U}.
Arguments av_read_frame {U}.
Arguments avcodec_send_packet {U} _.
Arguments av_guess_format {U} _.
Arguments avformat_alloc_output_context2 {U}.
Arguments avcodec_find_encoder {U}.
Arguments avformat_new_stream {U}.
Arguments set_codec_parameters {U} _ _.
Arguments set_codec_sample_fmt {U} _.
Arguments set_global_header {U}.
Arguments avcodec_parameters_from_context {U}.
Arguments avformat_write_header {U}.
Arguments av_frame_get_buffer {U} _.
Arguments avcodec_send_frame {U} _.
Arguments avcodec_receive_packet {U}.
Arguments av_packet_rescale_ts {U}.
Arguments set_packet_stream_index {U}.
Arguments av_interleaved_write_frame {U}.
Arguments av_frame_free {U}.
Arguments av_write_trailer {U}.
Arguments avcodec_free_context {U}.
Arguments avio_flush {U}.
Arguments av_freep_buffer {U}.
Arguments avio_context_free {U}.
Arguments avformat_free_context {U}.
Arguments av_free_io_buffer {U}.
Arguments av_packet_free {U}.
Arguments swr_free {U}.

(** ** A reference engine for decoding

    A small engine that follows FFmpeg's documented contract: the container
    is a list of packets; the codec turns each packet of audio into one
    frame, hands frames out in order, asks for more input ([EAGAIN]) when it
    has none, and reports end of stream once the [NULL] packet has been sent
    and its frames are gone; the resampler keeps what does not fit in the
    output it is given and hands it out on later calls. *)

Module RefDec.

Inductive Packet : Set :=
| Audio (stream samples : Z)   (* a packet of [samples] frames *)
| Corrupt (stream : Z)         (* a packet the codec refuses *)
| Garbled (stream : Z)         (* a packet accepted whose decoding fails *)
| Unreadable.                  (* the container read fails here *)

Definition stream_of (p : Packet) : Z :=
  match p with
  | Audio s _ | Corrupt s | Garbled s => s
  | Unreadable => -1
  end.

Record Media : Set := {
  media_streams : list AVStream;
  media_duration : Z;
  media_channels : Z;
  media_rate : Z;
  media_fmt : AVSampleFormat
}.

Record State : Set := {
  media : Media;
  container : list Packet;     (* packets not yet read *)
  packet : option Packet;      (* the packet buffer *)
  decoded : list (option Z);   (* frames not yet received; [None]: a failed decode *)
  end_of_input : bool;         (* the [NULL] packet has been sent *)
  frame : Z;                   (* [nb_samples] of the frame buffer *)
  buffered : Z                 (* frames held by the resampler *)
}.

Definition AVERROR_INVALIDDATA : Z := -1094995529.
Definition AVERROR_STREAM_NOT_FOUND : Z := -1381258232.

Definition handle (c : Call unit) (r : State) : Z * State :=
  match c with
  | av_find_best_stream =>
      (match media_streams (media r) with [] => AVERROR_STREAM_NOT_FOUND | _ => 0 end, r)
  | avformat_alloc_context | av_malloc _ | avio_alloc_context _ _
  | avcodec_find_decoder | avcodec_alloc_context3 | swr_alloc_set_opts2 _ _
  | av_packet_alloc | av_frame_alloc => (1, r)
  | avcodec_receive_frame =>
      match decoded r with
      | Some n :: rest =>
          (0, {| media := media r; container := container r; packet := packet r;
                 decoded := rest; end_of_input := end_of_input r;
                 frame := n; buffered := buffered r |})
      | None :: rest =>
          (AVERROR_INVALIDDATA,
           {| media := media r; container := container r; packet := packet r;
              decoded := rest; end_of_input := end_of_input r;
              frame := frame r; buffered := buffered r |})
      | [] => (if end_of_input r then AVERROR_EOF else AVERROR EAGAIN, r)
      end
  | swr_convert out_count in_count =>
      if out_count <? 0 then (AVERROR EINVAL, r)
      else
        let available :=
          buffered r + match in_count with Some n => Z.max 0 n | None => 0 end in
        let out := Z.min out_count available in
        (out, {| media := media r; container := container r; packet := packet r;
                 decoded := decoded r; end_of_input := end_of_input r;
                 frame := frame r; buffered := available - out |})
  | av_frame_unref =>
      (0, {| media := media r; container := container r; packet := packet r;
             decoded := decoded r; end_of_input := end_of_input r;
             frame := 0; buffered := buffered r |})
  | av_packet_unref =>
      (0, {| media := media r; container := container r; packet := None;
             decoded := decoded r; end_of_input := end_of_input r;
             frame := frame r; buffered := buffered r |})
  | av_read_frame =>
      match container r with
      | [] => (AVERROR_EOF, r)
      | Unreadable :: rest =>
          (AVERROR EIO,
           {| media := media r; container := rest; packet := None;
              decoded := decoded r; end_of_input := end_of_input r;
              frame := frame r; buffered := buffered r |})
      | p :: rest =>
          (0, {| media := media r; container := rest; packet := Some p;
                 decoded := decoded r; end_of_input := end_of_input r;
                 frame := frame r; buffered := buffered r |})
      end
  | avcodec_send_packet true =>
      match packet r with
      | Some (Audio _ n) =>
          (0, {| media := media r; container := container r; packet := packet r;
                 decoded := decoded r ++ [Some n]; end_of_input := end_of_input r;
                 frame := frame r; buffered := buffered r |})
      | Some (Garbled _) =>
          (0, {| media := media r; container := container r; packet := packet r;
                 decoded := decoded r ++ [None]; end_of_input := end_of_input r;
                 frame := frame r; buffered := buffered r |})
      | _ => (AVERROR_INVALIDDATA, r)
      end
  | avcodec_send_packet false =>
      (0, {| media := media r; container := container r; packet := packet r;
             decoded := decoded r; end_of_input := true;
             frame := frame r; buffered := buffered r |})
  | _ => (0, r)
  end.

Definition engine : FFmpeg unit State :=
  {| call := handle;
     frame_nb_samples := frame;
     packet_stream_index := fun r => match packet r with Some p => stream_of p | None => -1 end;
     codec_nb_channels := fun r => media_channels (media r);
     codec_sample_rate := fun r => media_rate (media r);
     codec_sample_fmt := fun r => media_fmt (media r);
     codec_sample_fmts := fun _ => None;
     oformat_globalheader := fun _ => false;
     streams := fun r => media_streams (media r);
     format_duration := fun r => media_duration (media r);
     format_pb := fun _ => true |}.

(** An opened file with the given packets ahead. *)
Definition opened (m : Media) (packets : list Packet) : State :=
  {| media := m; container := packets; packet := None; decoded := [];
     end_of_input := false; frame := 0; buffered := 0 |}.

(** The frames still to come out of the selected stream: in the container,
    in the codec and in the resampler. *)
Definition frames_in (stream : Z) (p : Packet) : Z :=
  match p with
  | Audio s n => if s =? stream then Z.max 0 n else 0
  | _ => 0
  end.

Definition remaining (stream : Z) (r : State) : Z :=
  fold_right (fun p acc => frames_in stream p + acc) 0 (container r)
  + fold_right (fun f acc => match f with Some n => Z.max 0 n | None => 0 end + acc)
      0 (decoded r)
  + buffered r.

(** A state free of damaged packets and failed decodes, as reading a sound
    file leaves it: once the [NULL] packet has been sent, the container has
    been read to its end. *)
Definition sound_packet (p : Packet) : bool :=
  match p with Audio _ _ => true | _ => false end.

Definition sound_frame (f : option Z) : bool :=
  match f with Some _ => true | None => false end.

Definition sound (r : State) : Prop :=
  forallb sound_packet (container r) = true /\
  forallb sound_frame (decoded r) = true /\
  0 <= buffered r /\
  (end_of_input r = true -> container r = []).

(** Nothing is left to read, decode, or flush. *)
Definition exhausted (r : State) : Prop :=
  container r = [] /\ decoded r = [] /\ end_of_input r = true /\ buffered r = 0.

(** Iterations of the read loop that suffice to reach the end of the
    stream. *)
Definition steps_to_end (r : State) : nat :=
  2 * List.length (container r) + List.length (decoded r)
  + (if end_of_input r then 0 else 1).

(** One second of 16-bit stereo at 44.1 kHz in a container that declares no
    per-stream duration, as WAV does: only the container's duration is
    known, in microseconds. *)
Definition wav_media : Media :=
  {| media_streams :=
       [{| duration := AV_NOPTS_VALUE;
           time_base := {| num := 1; den := 44100 |};
           codecpar_sample_rate := 44100 |}];
     media_duration := 1000000;
     media_channels := 2;
     media_rate := 44100;
     media_fmt := AV_SAMPLE_FMT_S16 |}.

(** Two seconds of the same audio in a container whose stream declares its
    duration, in units of one sample. *)
Definition flac_media : Media :=
  {| media_streams :=
       [{| duration := 88200;
           time_base := {| num := 1; den := 44100 |};
           codecpar_sample_rate := 44100 |}];
     media_duration := 2000000;
     media_channels := 2;
     media_rate := 44100;
     media_fmt := AV_SAMPLE_FMT_S16 |}.

(** The decoder structure [sf_decoder_init] leaves for that file when 16-bit
    output is asked for. *)
Definition stereo16 : SF_Decoder :=
  {| format_ctx := true; stream_index := 0;
     target_bytes_per_sample := 2; target_channels := 2 |}.

(** The structure for the same file when 32-bit output is asked for. *)
Definition stereo32 : SF_Decoder :=
  {| format_ctx := true; stream_index := 0;
     target_bytes_per_sample := 4; target_channels := 2 |}.

(** That file with three packets ahead, the second of another stream. *)
Definition three_packets : State :=
  opened wav_media [Audio 0 3; Audio 1 7; Audio 0 4].

(** A file whose only packet cannot be read, and one whose second packet
    decodes with an error after three good frames. *)
Definition unreadable : State := opened wav_media [Unreadable].

Definition garbled_second : State :=
  opened wav_media [Audio 0 3; Garbled 0; Audio 0 4].

(** A file whose first packet decodes to 2^28 frames, and a packet of four
    frames after it. *)
Definition long_packet : State := opened wav_media [Audio 0 268435456; Audio 0 4].

(** A file with a single packet of three frames ahead. *)
Definition one_packet : State := opened wav_media [Audio 0 3].

(** The loop state on entry to [sf_decoder_read_pcm_frames]. *)
Definition entry (e : State) : ReadState State :=
  {| rs_engine := e; out_ptr := 0; frames_read := 0; draining := false; written := [] |}.

End RefDec.

(** ** A reference engine for encoding

    The codec keeps the latest frame back until the next one or the [NULL]
    frame arrives, as codecs with look-ahead do, and turns each frame into
    one packet of four bytes per sample.  The muxer passes every packet, the
    header and the trailer straight to the registered write adapter and
    reports the adapter's error code when it gives one. *)

Module RefEnc.

(** A sink with room for a number of bytes, which records every request made
    of it: the bytes offered and the bytes taken, oldest first. *)
Record Sink : Set := {
  room : Z;
  requests : list (Z * Z)
}.

Definition sink_write : sf_write_callback Sink :=
  fun u n =>
    let taken := Z.max 0 (Z.min n (room u)) in
    (taken, {| room := room u - taken; requests := requests u ++ [(n, taken)] |}).


Record State : Type := {
  held : option AVFrame;       (* the frame kept back by the codec *)
  ready : list Z;              (* sizes of the packets not yet received *)
  finishing : bool;            (* the [NULL] frame has been sent *)
  out_packet : Z;              (* size of the packet in the packet buffer *)
  writer : option (Z -> Sink -> Z * Sink);
  sink : Sink
}.

Definition HEADER_SIZE : Z := 44.
Definition TRAILER_SIZE : Z := 8.

Definition packet_of (f : option AVFrame) : list Z :=
  match f with Some f => [4 * nb_samples f] | None => [] end.

(** Pass [n] bytes to the write adapter. *)
Definition emit (n : Z) (r : State) : Z * State :=
  match writer r with
  | None => (AVERROR EINVAL, r)
  | Some w =>
      let (ret, u) := w n (sink r) in
      (if ret <? 0 then ret else 0,
       {| held := held r; ready := ready r; finishing := finishing r;
          out_packet := out_packet r; writer := writer r; sink := u |})
  end.

Definition handle (c : Call Sink) (r : State) : Z * State :=
  match c with
  | av_guess_format _ | avformat_alloc_output_context2 | avcodec_find_encoder
  | avformat_new_stream | avcodec_alloc_context3 | av_malloc _
  | swr_alloc_set_opts2 _ _ | av_packet_alloc | av_frame_alloc => (1, r)
  | avio_alloc_context _ w =>
      (1, {| held := held r; ready := ready r; finishing := finishing r;
             out_packet := out_packet r; writer := w; sink := sink r |})
  | avformat_write_header => emit HEADER_SIZE r
  | av_write_trailer => emit TRAILER_SIZE r
  | av_frame_get_buffer nb => (if nb <=? 0 then AVERROR EINVAL else 0, r)
  | swr_convert out_count (Some n) => (Z.min out_count n, r)
  | avcodec_send_frame f =>
      if finishing r then (AVERROR_EOF, r)
      else
        (0, {| held := f; ready := ready r ++ packet_of (held r);
               finishing := match f with None => true | Some _ => false end;
               out_packet := out_packet r; writer := writer r; sink := sink r |})
  | avcodec_receive_packet =>
      match ready r with
      | p :: rest =>
          (0, {| held := held r; ready := rest; finishing := finishing r;
                 out_packet := p; writer := writer r; sink := sink r |})
      | [] => (if finishing r then AVERROR_EOF else AVERROR EAGAIN, r)
      end
  | av_interleaved_write_frame => emit (out_packet r) r
  | _ => (0, r)
  end.

Definition engine : FFmpeg Sink State :=
  {| call := handle;
     frame_nb_samples := fun _ => 0;
     packet_stream_index := fun _ => 0;
     codec_nb_channels := fun _ => 2;
     codec_sample_rate := fun _ => 44100;
     codec_sample_fmt := fun _ => AV_SAMPLE_FMT_S16;
     codec_sample_fmts := fun _ => Some AV_SAMPLE_FMT_S16;
     oformat_globalheader := fun _ => false;
     streams := fun _ => [];
     format_duration := fun _ => AV_NOPTS_VALUE;
     format_pb := fun r => match writer r with Some _ => true | None => false end |}.

(** Before [sf_encoder_init]: nothing registered, a sink with [n] bytes of
    room. *)
Definition fresh (n : Z) : State :=
  {| held := None; ready := []; finishing := false; out_packet := 0;
     writer := None; sink := {| room := n; requests := [] |} |}.

(** A caller's write with every pointer set. *)
Definition frames (n : Z) : WriteCall :=
  {| wc_frames_in := true; wc_frame_count := n; wc_out := Some 0 |}.

(** The structure and the engine state [sf_encoder_init] leaves for a sink
    with [n] bytes of room, [HEADER_SIZE] of them or more: the adapter is
    registered and the header is out. *)
Definition initialised_encoder : SF_Encoder Sink :=
  {| enc_format_ctx := true; onWrite := Some sink_write; next_pts := 0;
     input_format := SF_SAMPLE_FORMAT_S16 |}.

Definition initialised (n : Z) : State :=
  {| held := None; ready := []; finishing := false; out_packet := 0;
     writer := Some (write_packet_callback sink_write);
     sink := {| room := n - HEADER_SIZE; requests := [(HEADER_SIZE, HEADER_SIZE)] |} |}.

(** What a sequence of writes shows: the codes returned, the timestamp
    counter afterwards, and the frame the codec holds. *)
Definition after_writes
    (r : option (list SF_Result * option (SF_Encoder Sink) * State))
  : option (list SF_Result * option Z * option AVFrame) :=
  match r with
  | Some (rs, enc, e) => Some (rs, option_map next_pts enc, held e)
  | None => None
  end.

(** What a whole session shows: the codes returned and the requests the sink
    has seen. *)
Definition after_session (r : option (list SF_Result * State))
  : option (list SF_Result * list (Z * Z)) :=
  match r with
  | Some (rs, e) => Some (rs, requests (sink e))
  | None => None
  end.

(** An initialised encoder whose codec holds a frame of four samples, with
    room in the sink for six bytes more. *)
Definition holding : State :=
  snd (handle (avcodec_send_frame (Some {| pts := 0; nb_samples := 4 |}))
         (initialised 50)).

End RefEnc.

(** ** Measures of a read

    The frames recorded in a list of stores, and the size of a frame in
    bytes. *)

Definition frames_stored (l : list (Z * Z)) : Z :=
  fold_right (fun w acc => snd w + acc) 0 l.

Definition frame_size (d : SF_Decoder) : Z :=
  target_channels d * target_bytes_per_sample d.

(** The counting invariant of the read loop: the frame count is within the
    request and is the sum of the stores made. *)
Record bounded {E : Type} (frameCount : Z) (s : ReadState E) : Prop := {
  b_frames : 0 <= frames_read s <= frameCount;
  b_total : frames_stored (written s) = frames_read s
}.

(** A store of [snd w] frames at byte [fst w] lies within the first
    [frameCount] frames of the caller's buffer. *)
Definition inside_request (d : SF_Decoder) (frameCount : Z) (w : Z * Z) : Prop :=
  0 <= fst w /\ 0 < snd w /\
  fst w + snd w * frame_size d <= frameCount * frame_size d.

(** The stores of a record, latest first, lie end to end in the caller's
    buffer from byte 0 up to byte [upto]. *)
Fixpoint end_to_end (d : SF_Decoder) (l : list (Z * Z)) (upto : Z) : Prop :=
  match l with
  | [] => upto = 0
  | w :: rest =>
      0 < snd w /\ fst w + snd w * frame_size d = upto /\ end_to_end d rest (fst w)
  end.

(** The placing invariant of the read loop: the cursor stands exactly after
    the frames read, and the stores made lie end to end up to it. *)
Record placed {E : Type} (d : SF_Decoder) (frameCount : Z) (s : ReadState E) : Prop := {
  p_bounded : bounded frameCount s;
  p_cursor : out_ptr s = frames_read s * frame_size d;
  p_stores : end_to_end d (written s) (out_ptr s)
}.

(** Nothing has been read or stored. *)
Definition untouched {E : Type} (s : ReadState E) : Prop :=
  frames_read s = 0 /\ written s = [] /\ out_ptr s = 0.

(** ** The result strings *)

(** [sf_result_to_string]: a [switch] over the enumerators, taken here on
    the numeric value, since a caller may pass any [int]. *)
Definition sf_result_to_string (result : Z) : string :=
  if result =? SF_Result_value SF_RESULT_SUCCESS then "Success"
  else if result =? SF_Result_value SF_RESULT_ERROR_INVALID_ARGS then
    "Invalid arguments provided"
  else if result =? SF_Result_value SF_RESULT_ERROR_ALLOCATION_FAILED then
    "Memory allocation failed"
  else if result =? SF_Result_value SF_RESULT_DECODER_ERROR_OPEN_INPUT then
    "Failed to open input stream"
  else if result =? SF_Result_value SF_RESULT_DECODER_ERROR_FIND_STREAM_INFO then
    "Failed to find stream information"
  else if result =? SF_Result_value SF_RESULT_DECODER_ERROR_NO_AUDIO_STREAM then
    "No suitable audio stream found"
  else if result =? SF_Result_value SF_RESULT_DECODER_ERROR_CODEC_NOT_FOUND then
    "Audio codec not found"
  else if result =? SF_Result_value SF_RESULT_DECODER_ERROR_CODEC_CONTEXT_ALLOC then
    "Failed to allocate codec context"
  else if result =? SF_Result_value SF_RESULT_DECODER_ERROR_CODEC_OPEN_FAILED then
    "Failed to open codec"
  else if result =? SF_Result_value SF_RESULT_DECODER_ERROR_INVALID_TARGET_FORMAT then
    "Invalid target sample format"
  else if result =? SF_Result_value SF_RESULT_DECODER_ERROR_RESAMPLER_INIT_FAILED then
    "Failed to initialize audio resampler"
  else if result =? SF_Result_value SF_RESULT_DECODER_ERROR_PACKET_FRAME_ALLOC then
    "Failed to allocate packet or frame"
  else if result =? SF_Result_value SF_RESULT_DECODER_ERROR_SEEK_FAILED then
    "Seek operation failed"
  else if result =? SF_Result_value SF_RESULT_DECODER_ERROR_DECODING_FAILED then
    "An unrecoverable error occurred during the decoding process"
  else if result =? SF_Result_value SF_RESULT_ENCODER_ERROR_FORMAT_NOT_FOUND then
    "Output format not found"
  else if result =? SF_Result_value SF_RESULT_ENCODER_ERROR_CODEC_NOT_FOUND then
    "Audio codec for the format not found or not enabled"
  else if result =? SF_Result_value SF_RESULT_ENCODER_ERROR_STREAM_ALLOC then
    "Failed to allocate new audio stream"
  else if result =? SF_Result_value SF_RESULT_ENCODER_ERROR_CODEC_CONTEXT_ALLOC then
    "Failed to allocate encoder codec context"
  else if result =? SF_Result_value SF_RESULT_ENCODER_ERROR_CODEC_OPEN_FAILED then
    "Failed to open encoder codec"
  else if result =? SF_Result_value SF_RESULT_ENCODER_ERROR_CONTEXT_PARAMS then
    "Failed to copy codec parameters to stream"
  else if result =? SF_Result_value SF_RESULT_ENCODER_ERROR_WRITE_HEADER then
    "Failed to write output file header"
  else if result =? SF_Result_value SF_RESULT_ENCODER_ERROR_INVALID_INPUT_FORMAT then
    "Invalid input sample format"
  else if result =? SF_Result_value SF_RESULT_ENCODER_ERROR_RESAMPLER_INIT_FAILED then
    "Failed to initialize audio resampler for encoding"
  else if result =? SF_Result_value SF_RESULT_ENCODER_ERROR_PACKET_FRAME_ALLOC then
    "Failed to allocate packet or frame for encoding"
  else if result =? SF_Result_value SF_RESULT_ENCODER_ERROR_ENCODING_FAILED then
    "An unrecoverable error occurred during the encoding process"
  else if result =? SF_Result_value SF_RESULT_ENCODER_ERROR_WRITE_FAILED then
    "An I/O error occurred while writing the encoded data"
  else "Unknown error".

(** ** The read and seek adapters

    [sf_decoder_init] registers [read_packet_callback] and
    [seek_callback_wrapper] with the engine's I/O context.  As for the write
    callback, a caller's callback maps the state behind [pUserData] and its
    arguments to its result and the new state. *)

Definition AVSEEK_SIZE : Z := 65536.

Section Adapters.

Variable U : Type.

(** The bytes asked for to the bytes read. *)
Definition sf_read_callback : Type := U -> Z -> Z * U.

(** The offset and the origin to the new position. *)
Definition sf_seek_callback : Type := U -> Z -> Z -> Z * U.

(** [read_packet_callback]: [buf_size] is converted to [size_t] for the
    call, the [size_t] result to [int] for the return. *)
Definition read_packet_callback (onRead : sf_read_callback) (buf_size : Z) (u : U)
  : Z * U :=
  let (bytes_read, u') := onRead u (to_size_t buf_size) in
  if bytes_read =? 0 then (AVERROR_EOF, u') else (to_int bytes_read, u').

Definition seek_callback_wrapper (onSeek : sf_seek_callback) (offset whence : Z) (u : U)
  : Z * U :=
  if whence =? AVSEEK_SIZE then (-1, u) else onSeek u offset whence.

End Adapters.

Arguments read_packet_callback {U} _ _ _.
Arguments seek_callback_wrapper {U} _ _ _ _.

(** ** Seeking and releasing a decoder

    The FFmpeg functions that only [sf_decoder_seek_to_pcm_frame] and
    [sf_decoder_free] call.  [sf_decoder_seek_to_pcm_frame] reads into a
    packet of its own, [pkt], not into the decoder's: the four calls on it
    are listed apart from those on the decoder's packet.  [av_seek_frame] is
    always called with [AVSEEK_FLAG_BACKWARD]. *)

Inductive DecoderCall : Set :=
| avcodec_flush_buffers
| av_seek_frame (stream timestamp : Z)
| pkt_alloc          (* [pkt = av_packet_alloc()] *)
| pkt_read_frame     (* [av_read_frame(format_ctx, pkt)] *)
| pkt_unref          (* [av_packet_unref(pkt)] *)
| pkt_free           (* [av_packet_free(&pkt)] *)
| avformat_close_input.

(** An engine that also serves these calls; [pkt_stream_index] reads
    [pkt->stream_index]. *)
Record FFmpegDecoder (U E : Type) : Type := {
  base : FFmpeg U E;
  decoder_call : DecoderCall -> E -> Z * E;
  pkt_stream_index : E -> Z
}.

Arguments base {U E} _.
Arguments decoder_call {U E} _ _ _.
Arguments pkt_stream_index {U E} _ _.

Section DecoderEngine.

Variables U E : Type.
Variable G : FFmpegDecoder U E.

(** The [while (av_read_frame(format_ctx, pkt) >= 0)] loop of
    [sf_decoder_seek_to_pcm_frame]; [None] when the fuel runs out. *)
Fixpoint skip_packets (fuel : nat) (d : SF_Decoder) (e : E) : option E :=
  match fuel with
  | O => None
  | S fuel' =>
      let (ret, e1) := decoder_call G pkt_read_frame e in
      if negb (0 <=? ret) then Some e1
      else if pkt_stream_index G e1 =? stream_index d then
        Some (snd (decoder_call G pkt_unref e1))
      else skip_packets fuel' d (snd (decoder_call G pkt_unref e1))
  end.

(** [sf_decoder_seek_to_pcm_frame].  [None] when the fuel runs out, and for
    the read of [streams[stream_index]] outside the array, which C leaves
    undefined. *)
Definition sf_decoder_seek_to_pcm_frame (fuel : nat) (decoder : option SF_Decoder)
    (frameIndex : Z) (e : E) : option (SF_Result * E) :=
  match decoder with
  | None => Some (SF_RESULT_ERROR_INVALID_ARGS, e)
  | Some d =>
      if negb (format_ctx d) || (stream_index d <? 0)
      then Some (SF_RESULT_ERROR_INVALID_ARGS, e)
      else
        match nth_error (streams (base G) e) (Z.to_nat (stream_index d)) with
        | None => None
        | Some stream =>
            let timestamp :=
              av_rescale_q frameIndex
                {| num := 1; den := codecpar_sample_rate stream |} (time_base stream) in
            let e1 := snd (decoder_call G avcodec_flush_buffers e) in
            let e2 := snd (call (base G) swr_init e1) in
            let (ret, e3) :=
              decoder_call G (av_seek_frame (stream_index d) timestamp) e2 in
            if ret <? 0 then Some (SF_RESULT_DECODER_ERROR_SEEK_FAILED, e3)
            else
              let e4 := snd (decoder_call G pkt_alloc e3) in
              match skip_packets fuel d e4 with
              | None => None
              | Some e5 =>
                  Some (SF_RESULT_SUCCESS, snd (decoder_call G pkt_free e5))
              end
        end
  end.

(** [sf_decoder_free] returns [void]: all that is left of the call is the
    engine state. *)
Definition sf_decoder_free (decoder : option SF_Decoder) (e : E) : E :=
  match decoder with
  | None => e
  | Some d =>
      let e1 := snd (call (base G) avcodec_free_context e) in
      let e2 :=
        if format_ctx d then
          let e' :=
            if format_pb (base G) e1 then
              let e11 := snd (call (base G) av_freep_buffer e1) in
              snd (call (base G) avio_context_free e11)
            else e1 in
          snd (decoder_call G avformat_close_input e')
        else e1 in
      let e3 := snd (call (base G) av_packet_free e2) in
      let e4 := snd (call (base G) av_frame_free e3) in
      snd (call (base G) swr_free e4)
  end.

End DecoderEngine.

Arguments skip_packets {U E} G _ _ _.
Arguments sf_decoder_seek_to_pcm_frame {U E} G _ _ _ _.
Arguments sf_decoder_free {U E} G _ _.

(** ** Recording the calls of a decoder's engine

    As [Logged], with both kinds of call in one record, oldest first. *)

Definition LoggedDecoder {U E : Type} (G : FFmpegDecoder U E)
  : FFmpegDecoder U (E * list (Call U + DecoderCall)) :=
  {| base :=
       {| call := fun c w =>
                    let (r, e') := call (base G) c (fst w) in (r, (e', snd w ++ [inl c]));
          frame_nb_samples := fun w => frame_nb_samples (base G) (fst w);
          packet_stream_index := fun w => packet_stream_index (base G) (fst w);
          codec_nb_channels := fun w => codec_nb_channels (base G) (fst w);
          codec_sample_rate := fun w => codec_sample_rate (base G) (fst w);
          codec_sample_fmt := fun w => codec_sample_fmt (base G) (fst w);
          codec_sample_fmts := fun w => codec_sample_fmts (base G) (fst w);
          oformat_globalheader := fun w => oformat_globalheader (base G) (fst w);
          streams := fun w => streams (base G) (fst w);
          format_duration := fun w => format_duration (base G) (fst w);
          format_pb := fun w => format_pb (base G) (fst w) |};
     decoder_call := fun c w =>
                       let (r, e') := decoder_call G c (fst w) in
                       (r, (e', snd w ++ [inr c]));
     pkt_stream_index := fun w => pkt_stream_index G (fst w) |}.

(** [k] packets read and unreferenced, one after the other. *)
Fixpoint dropped {U : Type} (k : nat) : list (Call U + DecoderCall) :=
  match k with
  | O => []
  | S k' => inr pkt_read_frame :: inr pkt_unref :: dropped k'
  end.

(** Nothing was handed to the decoder's codec. *)
Definition is_send_packet {U : Type} (c : Call U + DecoderCall) : bool :=
  match c with inl (avcodec_send_packet _) => true | _ => false end.

(** ** A reference engine for seeking

    [RefDec] with the whole file kept, so that the container can be put back
    to an earlier packet.  Timestamps count frames: the time base of every
    stream is one frame.  A seek backward to a timestamp puts the container
    at the packet of the stream that holds that frame, or at the end of the
    file when there is none, and fails for a negative timestamp;
    [avcodec_flush_buffers] empties the codec; [swr_init] empties the
    resampler.  Every other call is [RefDec]'s. *)

Module RefSeek.

Record State : Set := {
  dec : RefDec.State;
  file : list RefDec.Packet;       (* every packet, in order *)
  pkt : option RefDec.Packet       (* the seek's own packet *)
}.

Definition with_dec (r : State) (d : RefDec.State) : State :=
  {| dec := d; file := file r; pkt := pkt r |}.

Definition with_pkt (r : State) (p : option RefDec.Packet) : State :=
  {| dec := dec r; file := file r; pkt := p |}.

(** The packets from the one of [stream] that holds frame [ts] on. *)
Fixpoint from_frame (stream ts : Z) (l : list RefDec.Packet) : list RefDec.Packet :=
  match l with
  | [] => []
  | p :: rest =>
      if RefDec.frames_in stream p <=? ts
      then from_frame stream (ts - RefDec.frames_in stream p) rest
      else l
  end.

Definition handle (c : Call unit) (r : State) : Z * State :=
  match c with
  | swr_init =>
      (0, with_dec r
            {| RefDec.media := RefDec.media (dec r);
               RefDec.container := RefDec.container (dec r);
               RefDec.packet := RefDec.packet (dec r);
               RefDec.decoded := RefDec.decoded (dec r);
               RefDec.end_of_input := RefDec.end_of_input (dec r);
               RefDec.frame := RefDec.frame (dec r);
               RefDec.buffered := 0 |})
  | _ => let (ret, d) := RefDec.handle c (dec r) in (ret, with_dec r d)
  end.

Definition decoder_handle (c : DecoderCall) (r : State) : Z * State :=
  match c with
  | avcodec_flush_buffers =>
      (0, with_dec r
            {| RefDec.media := RefDec.media (dec r);
               RefDec.container := RefDec.container (dec r);
               RefDec.packet := RefDec.packet (dec r);
               RefDec.decoded := [];
               RefDec.end_of_input := false;
               RefDec.frame := RefDec.frame (dec r);
               RefDec.buffered := RefDec.buffered (dec r) |})
  | av_seek_frame stream ts =>
      if ts <? 0 then (AVERROR EINVAL, r)
      else
        (0, with_dec r
              {| RefDec.media := RefDec.media (dec r);
                 RefDec.container := from_frame stream ts (file r);
                 RefDec.packet := RefDec.packet (dec r);
                 RefDec.decoded := RefDec.decoded (dec r);
                 RefDec.end_of_input := RefDec.end_of_input (dec r);
                 RefDec.frame := RefDec.frame (dec r);
                 RefDec.buffered := RefDec.buffered (dec r) |})
  | pkt_alloc => (1, with_pkt r None)
  | pkt_read_frame =>
      match RefDec.container (dec r) with
      | [] => (AVERROR_EOF, r)
      | RefDec.Unreadable :: rest =>
          (AVERROR EIO,
           {| dec := {| RefDec.media := RefDec.media (dec r);
                        RefDec.container := rest;
                        RefDec.packet := RefDec.packet (dec r);
                        RefDec.decoded := RefDec.decoded (dec r);
                        RefDec.end_of_input := RefDec.end_of_input (dec r);
                        RefDec.frame := RefDec.frame (dec r);
                        RefDec.buffered := RefDec.buffered (dec r) |};
              file := file r; pkt := None |})
      | p :: rest =>
          (0,
           {| dec := {| RefDec.media := RefDec.media (dec r);
                        RefDec.container := rest;
                        RefDec.packet := RefDec.packet (dec r);
                        RefDec.decoded := RefDec.decoded (dec r);
                        RefDec.end_of_input := RefDec.end_of_input (dec r);
                        RefDec.frame := RefDec.frame (dec r);
                        RefDec.buffered := RefDec.buffered (dec r) |};
              file := file r; pkt := Some p |})
      end
  | pkt_unref | pkt_free => (0, with_pkt r None)
  | avformat_close_input => (0, r)
  end.

Definition engine : FFmpegDecoder unit State :=
  {| base :=
       {| call := handle;
          frame_nb_samples := fun r => frame_nb_samples RefDec.engine (dec r);
          packet_stream_index := fun r => packet_stream_index RefDec.engine (dec r);
          codec_nb_channels := fun r => codec_nb_channels RefDec.engine (dec r);
          codec_sample_rate := fun r => codec_sample_rate RefDec.engine (dec r);
          codec_sample_fmt := fun r => codec_sample_fmt RefDec.engine (dec r);
          codec_sample_fmts := fun r => codec_sample_fmts RefDec.engine (dec r);
          oformat_globalheader := fun r => oformat_globalheader RefDec.engine (dec r);
          streams := fun r => streams RefDec.engine (dec r);
          format_duration := fun r => format_duration RefDec.engine (dec r);
          format_pb := fun r => format_pb RefDec.engine (dec r) |};
     decoder_call := decoder_handle;
     pkt_stream_index :=
       fun r => match pkt r with Some p => RefDec.stream_of p | None => -1 end |}.

(** A file just opened. *)
Definition opened (m : RefDec.Media) (packets : list RefDec.Packet) : State :=
  {| dec := RefDec.opened m packets; file := packets; pkt := None |}.

(** What is left of a list of packets after the first one of [stream]. *)
Fixpoint after_first (stream : Z) (l : list RefDec.Packet) : list RefDec.Packet :=
  match l with
  | [] => []
  | p :: rest =>
      if RefDec.stream_of p =? stream then rest else after_first stream rest
  end.

(** The three packets of [RefDec.three_packets], as a file. *)
Definition three_packets : State :=
  opened RefDec.wav_media
    [RefDec.Audio 0 3; RefDec.Audio 1 7; RefDec.Audio 0 4].

End RefSeek.

(** ** An engine short of memory

    It serves a given number of allocations and refuses every later one;
    every other call succeeds and changes nothing. *)

Module Scarce.

Definition allocate (n : nat) : Z * nat :=
  match n with
  | O => (0, O)
  | S n' => (1, n')
  end.

Definition handle (c : Call unit) (n : nat) : Z * nat :=
  match c with
  | avformat_alloc_context | av_malloc _ | avio_alloc_context _ _
  | avcodec_alloc_context3 | swr_alloc_set_opts2 _ _
  | av_packet_alloc | av_frame_alloc | avformat_alloc_output_context2
  | avformat_new_stream => allocate n
  | avcodec_find_decoder | avcodec_find_encoder | av_guess_format _ => (1, n)
  | avcodec_receive_frame | avcodec_receive_packet => (AVERROR EAGAIN, n)
  | _ => (0, n)
  end.

Definition engine : FFmpegDecoder unit nat :=
  {| base :=
       {| call := handle;
          frame_nb_samples := fun _ => 0;
          packet_stream_index := fun _ => 0;
          codec_nb_channels := fun _ => 2;
          codec_sample_rate := fun _ => 44100;
          codec_sample_fmt := fun _ => AV_SAMPLE_FMT_S16;
          codec_sample_fmts := fun _ => Some AV_SAMPLE_FMT_S16;
          oformat_globalheader := fun _ => false;
          streams := fun _ => [];
          format_duration := fun _ => AV_NOPTS_VALUE;
          format_pb := fun _ => true |};
     decoder_call := fun c n =>
                       match c with
                       | pkt_alloc => allocate n
                       | pkt_read_frame => (AVERROR_EOF, n)
                       | _ => (0, n)
                       end;
     pkt_stream_index := fun _ => -1 |}.

End Scarce.

(** ** What a read delivers

    [s'] is what a read that started in [s] may end in: the frame count is
    the smaller of the request and the frames that were to come, the engine
    is sound, no frame was lost or made up, and the end of the stream is no
    further away. *)

Definition delivered (d : SF_Decoder) (frameCount : Z)
    (s s' : ReadState RefDec.State) : Prop :=
  frames_read s'
    = Z.min frameCount
        (frames_read s + RefDec.remaining (stream_index d) (rs_engine s)) /\
  RefDec.sound (rs_engine s') /\
  frames_read s' + RefDec.remaining (stream_index d) (rs_engine s')
    = frames_read s + RefDec.remaining (stream_index d) (rs_engine s) /\
  (RefDec.steps_to_end (rs_engine s') <= RefDec.steps_to_end (rs_engine s))%nat.

(** ** Codes of an encoder's initialisation

    The codes [sf_encoder_init] returns once it has called
    [avformat_write_header]: success, the failure of that call, and the
    failures of the stages after it. *)

Definition after_header (r : SF_Result) : bool :=
  match r with
  | SF_RESULT_SUCCESS
  | SF_RESULT_ENCODER_ERROR_WRITE_HEADER
  | SF_RESULT_ENCODER_ERROR_INVALID_INPUT_FORMAT
  | SF_RESULT_ENCODER_ERROR_RESAMPLER_INIT_FAILED
  | SF_RESULT_ENCODER_ERROR_PACKET_FRAME_ALLOC => true
  | _ => false
  end.

(** The codes [sf_decoder_init] returns once it has opened the codec and
    written the stream's parameters through the out-pointers. *)
Definition after_codec_open (r : SF_Result) : bool :=
  match r with
  | SF_RESULT_SUCCESS
  | SF_RESULT_DECODER_ERROR_INVALID_TARGET_FORMAT
  | SF_RESULT_DECODER_ERROR_RESAMPLER_INIT_FAILED
  | SF_RESULT_DECODER_ERROR_PACKET_FRAME_ALLOC => true
  | _ => false
  end.

(** ** The streams a decoder discards

    The indices below [n] other than [selected], in order. *)

Definition other_streams (n : nat) (selected : Z) : list Z :=
  filter (fun i => negb (i =? selected)) (map Z.of_nat (seq 0 n)).

Definition is_set_discard_all {U : Type} (c : Call U) : bool :=
  match c with set_discard_all _ => true | _ => false end.

(** The call of [av_find_best_stream] in [sf_decoder_init], made on the
    engine state the nine calls before it leave: its answer is the stream
    selected, and the state it leaves is the one whose streams the loop that
    follows goes through. *)
Definition stream_selection {U E : Type} (F : FFmpeg U E) (e : E) : Z * E :=
  call F av_find_best_stream
    (fold_left (fun e c => snd (call F c e))
       [av_log_set_level; avformat_alloc_context; av_malloc IO_BUFFER_SIZE;
        avio_alloc_context 0 None; av_dict_set "scan_all_pmts" "0";
        av_dict_set "probesize" "5000000"; av_dict_set "analyzeduration" "10000000";
        avformat_open_input; avformat_find_stream_info] e).

(** A file of three streams, opened, with no packet ahead. *)
Definition three_streams : RefDec.State :=
  let stream := {| duration := AV_NOPTS_VALUE;
                   time_base := {| num := 1; den := 44100 |};
                   codecpar_sample_rate := 44100 |} in
  RefDec.opened
    {| RefDec.media_streams := [stream; stream; stream];
       RefDec.media_duration := AV_NOPTS_VALUE;
       RefDec.media_channels := 2;
       RefDec.media_rate := 44100;
       RefDec.media_fmt := AV_SAMPLE_FMT_S16 |} [].

(** ** What a sink receives

    The bytes of the packets the reference encoder makes of frames of the
    given sample counts, and a request the sink took whole. *)

Definition bytes_of (ns : list Z) : Z :=
  fold_right (fun n acc => 4 * n + acc) 0 ns.

Definition whole (n : Z) : Z * Z := (n, n).

(** The reference encoder at rest between two calls: nothing ready, the
    [NULL] frame not sent, the write adapter registered. *)
Definition at_rest (h : option AVFrame) (p : Z) (u : RefEnc.Sink) : RefEnc.State :=
  {| RefEnc.held := h; RefEnc.ready := []; RefEnc.finishing := false;
     RefEnc.out_packet := p;
     RefEnc.writer := Some (write_packet_callback RefEnc.sink_write);
     RefEnc.sink := u |}.

(** The sink after it took [n] bytes whole. *)
Definition took (n : Z) (u : RefEnc.Sink) : RefEnc.Sink :=
  {| RefEnc.room := RefEnc.room u - n;
     RefEnc.requests := RefEnc.requests u ++ [whole n] |}.

(** The bytes the codec owes the sink for the frame it holds. *)
Definition owed (h : option AVFrame) : Z :=
  match h with Some f => 4 * nb_samples f | None => 0 end.


(** ** Recording the answers of the engine

    As [Logged], with the code each call returned next to it. *)









(** ** Reading from a file that can be sought

    A state of a read on [RefDec] seen as one on [RefSeek], over the file
    [f] and with [p] in the seek's packet; and the frames of a stream in a
    list of packets. *)

Definition in_file (f : list RefDec.Packet) (p : option RefDec.Packet)
    (s : ReadState RefDec.State) : ReadState RefSeek.State :=
  {| rs_engine := {| RefSeek.dec := rs_engine s; RefSeek.file := f; RefSeek.pkt := p |};
     out_ptr := out_ptr s; frames_read := frames_read s;
     draining := draining s; written := written s |}.

Definition frames_of (stream : Z) (l : list RefDec.Packet) : Z :=
  fold_right (fun p acc => RefDec.frames_in stream p + acc) 0 l.

(** * Properties *)

(** ** Machine integers *)

Lemma wrap_range w z : 0 < w -> - 2 ^ (w - 1) <= wrap w z < 2 ^ (w - 1).
Proof.
  intros Hw. unfold wrap.
  assert (H2 : 2 ^ w = 2 * 2 ^ (w - 1)).
  { replace w with (1 + (w - 1)) at 1 by lia. rewrite Z.pow_add_r by lia. reflexivity. }
  assert (Hp : 0 < 2 ^ (w - 1)) by (apply Z.pow_pos_nonneg; lia).
  pose proof (Z.mod_pos_bound (z + 2 ^ (w - 1)) (2 ^ w) ltac:(lia)). lia.
Qed.

Lemma wrap_id w z : 0 < w -> - 2 ^ (w - 1) <= z < 2 ^ (w - 1) -> wrap w z = z.
Proof.
  intros Hw Hz. unfold wrap.
  assert (H2 : 2 ^ w = 2 * 2 ^ (w - 1)).
  { replace w with (1 + (w - 1)) at 1 by lia. rewrite Z.pow_add_r by lia. reflexivity. }
  rewrite Z.mod_small by lia. lia.
Qed.

Lemma wrap_le w z : 0 < w -> - 2 ^ (w - 1) <= z -> wrap w z <= z.
Proof.
  intros Hw Hz. unfold wrap.
  assert (Hp : 0 < 2 ^ w) by (apply Z.pow_pos_nonneg; lia).
  pose proof (Z.mod_le (z + 2 ^ (w - 1)) (2 ^ w) ltac:(lia) Hp). lia.
Qed.

Lemma wrap_mod w z : 0 < w -> wrap w z mod 2 ^ w = z mod 2 ^ w.
Proof.
  intros Hw. unfold wrap.
  rewrite Zminus_mod_idemp_l. f_equal. lia.
Qed.

Lemma wrap_congr w a b : 0 < w -> a mod 2 ^ w = b mod 2 ^ w -> wrap w a = wrap w b.
Proof.
  intros Hw H. unfold wrap.
  rewrite <- (Zplus_mod_idemp_l a), <- (Zplus_mod_idemp_l b), H. reflexivity.
Qed.

Lemma wrap_mul_l w a b : 0 < w -> wrap w (wrap w a * b) = wrap w (a * b).
Proof.
  intros Hw. apply wrap_congr; trivial.
  rewrite <- Zmult_mod_idemp_l, wrap_mod, Zmult_mod_idemp_l by trivial. reflexivity.
Qed.

Lemma to_int_le z : 0 <= z -> to_int z <= z.
Proof. intros. apply wrap_le; simpl; lia. Qed.

Lemma to_int_id z : - 2147483648 <= z <= INT_MAX -> to_int z = z.
Proof. intros. apply wrap_id; unfold INT_MAX in *; simpl; lia. Qed.

Lemma to_int64_id z : INT64_MIN <= z <= INT64_MAX -> to_int64 z = z.
Proof. intros. apply wrap_id; unfold INT64_MIN, INT64_MAX in *; simpl; lia. Qed.

Lemma int_product_le a b c : 0 <= a * b * c -> to_int (to_int (a * b) * c) <= a * b * c.
Proof.
  intros H. unfold to_int. rewrite wrap_mul_l by lia. apply wrap_le; simpl; lia.
Qed.

(** ** The sample-format translator *)

(** C7.  The translator is a pair of total functions.  Forward, U8, S16, S32
    and F32 go to the engine's format of the same name and S24 goes to the
    engine's 32-bit signed format.  Backward, the interleaved and the planar
    variant of each of the four depths go to the same PCM format, and every
    other engine format, double-precision float among them, goes to
    [SF_SAMPLE_FORMAT_UNKNOWN]. *)
Theorem sample_format_translation :
  to_ffmpeg_sample_format SF_SAMPLE_FORMAT_U8 = AV_SAMPLE_FMT_U8 /\
  to_ffmpeg_sample_format SF_SAMPLE_FORMAT_S16 = AV_SAMPLE_FMT_S16 /\
  to_ffmpeg_sample_format SF_SAMPLE_FORMAT_S32 = AV_SAMPLE_FMT_S32 /\
  to_ffmpeg_sample_format SF_SAMPLE_FORMAT_F32 = AV_SAMPLE_FMT_FLT /\
  to_ffmpeg_sample_format SF_SAMPLE_FORMAT_S24 = AV_SAMPLE_FMT_S32 /\
  from_ffmpeg_sample_format AV_SAMPLE_FMT_U8 = SF_SAMPLE_FORMAT_U8 /\
  from_ffmpeg_sample_format AV_SAMPLE_FMT_U8P = SF_SAMPLE_FORMAT_U8 /\
  from_ffmpeg_sample_format AV_SAMPLE_FMT_S16 = SF_SAMPLE_FORMAT_S16 /\
  from_ffmpeg_sample_format AV_SAMPLE_FMT_S16P = SF_SAMPLE_FORMAT_S16 /\
  from_ffmpeg_sample_format AV_SAMPLE_FMT_S32 = SF_SAMPLE_FORMAT_S32 /\
  from_ffmpeg_sample_format AV_SAMPLE_FMT_S32P = SF_SAMPLE_FORMAT_S32 /\
  from_ffmpeg_sample_format AV_SAMPLE_FMT_FLT = SF_SAMPLE_FORMAT_F32 /\
  from_ffmpeg_sample_format AV_SAMPLE_FMT_FLTP = SF_SAMPLE_FORMAT_F32 /\
  from_ffmpeg_sample_format AV_SAMPLE_FMT_DBL = SF_SAMPLE_FORMAT_UNKNOWN /\
  forall f : AVSampleFormat,
    In f [AV_SAMPLE_FMT_U8; AV_SAMPLE_FMT_U8P; AV_SAMPLE_FMT_S16; AV_SAMPLE_FMT_S16P;
          AV_SAMPLE_FMT_S32; AV_SAMPLE_FMT_S32P; AV_SAMPLE_FMT_FLT; AV_SAMPLE_FMT_FLTP]
    \/ from_ffmpeg_sample_format f = SF_SAMPLE_FORMAT_UNKNOWN.
Proof.
  repeat (split; [reflexivity|]).
  intros f; destruct f; simpl; tauto.
Qed.

(** ** Reads stay within the request *)

(** A property of the loop state that the engine state has no part in and
    that a resampling step keeps holds wherever the read loop returns. *)
Section ReadInvariant.

Context {U E : Type} (F : FFmpeg U E).
Variable d : SF_Decoder.
Variable frameCount : Z.
Variable P : ReadState E -> Prop.

Hypothesis P_with_engine : forall s e, P s -> P (with_engine s e).
Hypothesis P_start_draining : forall s e, P s -> P (start_draining s e).
Hypothesis P_resample :
  forall in_count s, P s -> P (snd (resample F d frameCount in_count s)).

Lemma drain_resampler_invariant fuel : forall s s',
  P s -> drain_resampler F fuel d frameCount s = Some s' -> P s'.
Proof.
  induction fuel as [|fuel IH]; intros s s' Hb; simpl; [discriminate|].
  pose proof (P_resample None s Hb) as Hr.
  destruct (resample F d frameCount None s) as [flushed s1]. simpl in Hr.
  destruct ((0 <? flushed) && (frames_read s1 <? frameCount)).
  - apply IH; assumption.
  - intros [= <-]; assumption.
Qed.

Lemma read_loop_invariant fuel : forall s r s',
  P s -> read_loop F fuel d frameCount s = Some (r, s') -> P s'.
Proof.
  induction fuel as [|fuel IH]; intros s r s' Hb; simpl; [discriminate|].
  destruct (negb (frames_read s <? frameCount)); [intros [= <- <-]; assumption|].
  destruct (call F avcodec_receive_frame (rs_engine s)) as [ret e1].
  destruct (ret =? 0).
  { pose proof (P_resample (Some (frame_nb_samples F e1)) _
                  (P_with_engine s e1 Hb)) as Hr.
    destruct (resample F d frameCount _ (with_engine s e1)) as [out s2]. simpl in Hr.
    apply IH, P_with_engine, Hr. }
  destruct (ret =? AVERROR_EOF).
  { destruct (drain_resampler F fuel d frameCount (with_engine s e1)) as [s1|] eqn:Hd;
      [|discriminate].
    intros [= <- <-].
    eapply drain_resampler_invariant; [|exact Hd]. apply P_with_engine, Hb. }
  destruct (negb (ret =? AVERROR EAGAIN));
    [intros [= <- <-]; apply P_with_engine, Hb|].
  destruct (draining s); [intros [= <- <-]; apply P_with_engine, Hb|].
  destruct (call F av_read_frame _) as [read_ret e3].
  destruct (read_ret =? 0).
  { destruct (packet_stream_index F e3 =? stream_index d).
    - destruct (call F (avcodec_send_packet true) e3) as [sent e4].
      destruct (sent <? 0).
      + intros [= <- <-]; apply P_with_engine, Hb.
      + apply IH, P_with_engine, Hb.
    - apply IH, P_with_engine, Hb. }
  destruct (read_ret =? AVERROR_EOF).
  - apply IH, P_start_draining, Hb.
  - intros [= <- <-]; apply P_with_engine, Hb.
Qed.

End ReadInvariant.

Section ReadBounds.

Context {U E : Type} (F : FFmpeg U E).

(** FFmpeg's contract for [swr_convert]: the number of samples output is at
    most the space offered; a negative code reports an error. *)
Hypothesis swr_contract :
  forall e out_count in_count,
    fst (call F (swr_convert out_count in_count) e) <= Z.max 0 out_count.

Variable d : SF_Decoder.
Variable frameCount : Z.
Hypothesis frameCount_int64 : frameCount <= INT64_MAX.

Lemma resample_bounded in_count s :
  bounded frameCount s -> bounded frameCount (snd (resample F d frameCount in_count s)).
Proof.
  intros [Hf Ht]. unfold resample.
  pose proof (swr_contract (rs_engine s) (to_int (frameCount - frames_read s)) in_count) as Hk.
  destruct (call F _ (rs_engine s)) as [out e']. simpl in Hk. simpl.
  destruct (0 <? out) eqn:Hpos; [apply Z.ltb_lt in Hpos | split; assumption].
  pose proof (to_int_le (frameCount - frames_read s) ltac:(lia)) as Hle.
  assert (Hsum : 0 <= frames_read s + out <= frameCount) by lia.
  split; simpl.
  - rewrite to_int64_id by (unfold INT64_MIN, INT64_MAX in *; lia). lia.
  - rewrite to_int64_id by (unfold INT64_MIN, INT64_MAX in *; lia). lia.
Qed.

Lemma read_loop_bounded fuel : forall s r s',
  bounded frameCount s ->
  read_loop F fuel d frameCount s = Some (r, s') ->
  bounded frameCount s'.
Proof.
  apply read_loop_invariant.
  - intros s e [? ?]; split; assumption.
  - intros s e [? ?]; split; assumption.
  - apply resample_bounded.
Qed.

Lemma bounded_initial (e : E) : 0 < frameCount ->
  bounded frameCount {| rs_engine := e; out_ptr := 0; frames_read := 0;
             draining := false; written := [] |}.
Proof. intros; split; simpl; try lia; constructor. Qed.

(** When the bytes of the whole request fit an [int], the product that
    advances the cursor is exact. *)
Hypothesis channels_pos : 0 < target_channels d.
Hypothesis bytes_pos : 0 < target_bytes_per_sample d.
Hypothesis request_fits : frameCount * frame_size d <= INT_MAX.

Lemma resample_placed in_count s :
  placed d frameCount s -> placed d frameCount (snd (resample F d frameCount in_count s)).
Proof.
  intros [Hb Hc Hs].
  pose proof (resample_bounded in_count s Hb) as Hb'.
  destruct Hb as [Hf Ht]. revert Hb'. unfold resample.
  pose proof (swr_contract (rs_engine s) (to_int (frameCount - frames_read s)) in_count) as Hk.
  destruct (call F _ (rs_engine s)) as [out e']. simpl in Hk. simpl.
  destruct (0 <? out) eqn:Hpos; [apply Z.ltb_lt in Hpos | intros Hb'; split; assumption].
  intros Hb'.
  pose proof (to_int_le (frameCount - frames_read s) ltac:(lia)) as Hle.
  assert (Hsum : 0 <= frames_read s + out <= frameCount) by lia.
  unfold frame_size in *.
  assert (Hoc : 0 <= out * target_channels d <= frameCount * target_channels d) by nia.
  assert (Hfc : frameCount * target_channels d
                <= frameCount * target_channels d * target_bytes_per_sample d) by nia.
  assert (Hocb : 0 <= out * target_channels d * target_bytes_per_sample d
                 <= frameCount * target_channels d * target_bytes_per_sample d) by nia.
  assert (Hint : frameCount * target_channels d * target_bytes_per_sample d <= INT_MAX)
    by lia.
  assert (Hadv : to_int (to_int (out * target_channels d) * target_bytes_per_sample d)
                 = out * (target_channels d * target_bytes_per_sample d)).
  { rewrite (to_int_id (out * target_channels d)) by lia.
    rewrite to_int_id by lia. ring. }
  split; [exact Hb' | |]; cbn [out_ptr frames_read written].
  - rewrite Hadv, to_int64_id by (unfold INT64_MIN, INT64_MAX in *; lia).
    rewrite Hc. unfold frame_size. ring.
  - cbn [end_to_end fst snd]. unfold frame_size. rewrite Hadv.
    split; [lia|]. split; [reflexivity | exact Hs].
Qed.

Lemma read_loop_placed fuel : forall s r s',
  placed d frameCount s ->
  read_loop F fuel d frameCount s = Some (r, s') ->
  placed d frameCount s'.
Proof.
  apply read_loop_invariant.
  - intros s e [[? ?] ? ?]; split; [split|..]; assumption.
  - intros s e [[? ?] ? ?]; split; [split|..]; assumption.
  - apply resample_placed.
Qed.

Lemma placed_initial (e : E) : 0 < frameCount ->
  placed d frameCount {| rs_engine := e; out_ptr := 0; frames_read := 0;
             draining := false; written := [] |}.
Proof.
  intros H; split; [apply bounded_initial, H | reflexivity | reflexivity].
Qed.

End ReadBounds.

Lemma end_to_end_inside (d : SF_Decoder) (frameCount : Z) :
  0 <= frame_size d ->
  forall (l : list (Z * Z)) (upto : Z),
    end_to_end d l upto -> upto <= frameCount * frame_size d ->
    0 <= upto /\ Forall (inside_request d frameCount) l.
Proof.
  intros Hsz. induction l as [|w l IH]; intros upto Hl Hup.
  - cbn in Hl. subst. split; [lia | constructor].
  - cbn [end_to_end] in Hl. destruct Hl as (Hn & Hend & Hrest).
    assert (Hw : 0 <= snd w * frame_size d) by nia.
    destruct (IH (fst w) Hrest ltac:(lia)) as [H0 Hall].
    split; [lia|]. constructor; [|exact Hall].
    unfold inside_request. lia.
Qed.

Lemma RefDec_swr_within_space : forall e out_count in_count,
  fst (call RefDec.engine (swr_convert out_count in_count) e) <= Z.max 0 out_count.
Proof.
  intros e out_count in_count. simpl.
  destruct (out_count <? 0) eqn:Hneg; simpl.
  - unfold AVERROR, EINVAL. lia.
  - apply Z.ltb_ge in Hneg. lia.
Qed.

(** C9, at a read of 268435460 frames, a count that fits an [int], of
    two-channel 32-bit output from a file whose first packet decodes to
    2^28 frames: the first store is made at byte 0 and the cursor advances
    by [(int)(268435456 * 2 * 4) = (int)2^31 = -2^31]; the call returns
    success with every frame counted, and the store of the last four frames
    is made 2^31 bytes before the caller's buffer. *)
Theorem large_read_stores_before_the_buffer :
  268435460 <= INT_MAX /\
  exists o : ReadOutcome RefDec.State,
    sf_decoder_read_pcm_frames RefDec.engine 20 (Some RefDec.stereo32) true
      268435460 (Some 0) RefDec.long_packet = Some o /\
    read_result o = SF_RESULT_SUCCESS /\
    out_frames_read o = Some 268435460 /\
    stored o = [(-2147483648, 4); (0, 268435456)].
Proof.
  split; [unfold INT_MAX; lia|].
  eexists. split; [vm_compute; reflexivity|].
  repeat split.
Qed.

(** For a call of [sf_decoder_read_pcm_frames] with valid arguments whose
    request is at most [INT_MAX] bytes ([frameCount * target_channels *
    target_bytes_per_sample], both factors positive), over any engine whose
    [swr_convert] outputs no more than the space it is offered: whatever
    code is returned, [*out_frames_read] holds a count [n] with
    [0 <= n <= frameCount]; the stores into the caller's buffer lie end to
    end from byte 0 up to byte [n] times the frame size, in the order they
    were made; so each of them starts at or after the start of the buffer
    and ends within the first [frameCount] frames of it. *)
Theorem read_stores_fill_the_request_in_order {U E : Type} (F : FFmpeg U E) :
  (forall e out_count in_count,
      fst (call F (swr_convert out_count in_count) e) <= Z.max 0 out_count) ->
  forall (fuel : nat) (d : SF_Decoder) (frameCount cell : Z) (e : E) (o : ReadOutcome E),
    0 < frameCount ->
    0 < target_channels d ->
    0 < target_bytes_per_sample d ->
    frameCount * (target_channels d * target_bytes_per_sample d) <= INT_MAX ->
    sf_decoder_read_pcm_frames F fuel (Some d) true frameCount (Some cell) e = Some o ->
    exists n : Z,
      out_frames_read o = Some n /\
      0 <= n <= frameCount /\
      frames_stored (stored o) = n /\
      end_to_end d (stored o) (n * frame_size d) /\
      Forall (inside_request d frameCount) (stored o).
Proof.
  intros Hswr fuel d frameCount cell e o Hcount Hch Hbps Hfits.
  assert (Hsz : 1 <= frame_size d) by (unfold frame_size; nia).
  assert (H64 : frameCount <= INT64_MAX)
    by (unfold frame_size, INT_MAX, INT64_MAX in *; nia).
  unfold sf_decoder_read_pcm_frames.
  destruct (frameCount <=? 0) eqn:Hle; [apply Z.leb_le in Hle; lia|].
  destruct (read_loop F fuel d frameCount _) as [[r s]|] eqn:Hloop; [|discriminate].
  intros [= <-]; simpl.
  pose proof (read_loop_placed F Hswr d frameCount H64 Hch Hbps Hfits fuel _ _ _
                (placed_initial d frameCount e Hcount) Hloop) as [[Hf Ht] Hc Hs].
  exists (frames_read s). rewrite Hc in Hs.
  repeat split; try lia; try assumption.
  apply (end_to_end_inside d frameCount ltac:(lia) _ _ Hs). nia.
Qed.

(** A read of five frames from a file of three packets. *)
Lemma read_stores_fill_the_request_in_order_witness :
  match sf_decoder_read_pcm_frames RefDec.engine 20 (Some RefDec.stereo16) true 5 (Some 0)
          RefDec.three_packets with
  | Some o =>
      exists n : Z,
        out_frames_read o = Some n /\
        0 <= n <= 5 /\
        frames_stored (stored o) = n /\
        end_to_end RefDec.stereo16 (stored o) (n * frame_size RefDec.stereo16) /\
        Forall (inside_request RefDec.stereo16 5) (stored o)
  | None => False
  end.
Proof.
  destruct (sf_decoder_read_pcm_frames _ _ _ _ _ _ _) as [o|] eqn:Hrun;
    [|vm_compute in Hrun; discriminate].
  apply (read_stores_fill_the_request_in_order RefDec.engine RefDec_swr_within_space
           20 RefDec.stereo16 5 0 RefDec.three_packets o).
  - lia.
  - simpl; lia.
  - simpl; lia.
  - unfold INT_MAX; simpl; lia.
  - exact Hrun.
Defined.

(** For a call of [sf_decoder_read_pcm_frames] with valid arguments, over
    any engine whose [swr_convert] outputs no more than the space it is
    offered, whatever the size of a frame: whatever code is returned,
    [*out_frames_read] holds a count [n] with [0 <= n <= frameCount], and
    [n] is the number of frames the resampler stored. *)
Theorem read_count_within_request {U E : Type} (F : FFmpeg U E) :
  (forall e out_count in_count,
      fst (call F (swr_convert out_count in_count) e) <= Z.max 0 out_count) ->
  forall (fuel : nat) (d : SF_Decoder) (frameCount cell : Z) (e : E) (o : ReadOutcome E),
    0 < frameCount <= INT64_MAX ->
    sf_decoder_read_pcm_frames F fuel (Some d) true frameCount (Some cell) e = Some o ->
    exists n : Z,
      out_frames_read o = Some n /\
      0 <= n <= frameCount /\
      frames_stored (stored o) = n.
Proof.
  intros Hswr fuel d frameCount cell e o Hcount.
  unfold sf_decoder_read_pcm_frames.
  destruct (frameCount <=? 0) eqn:Hle; [apply Z.leb_le in Hle; lia|].
  destruct (read_loop F fuel d frameCount _) as [[r s]|] eqn:Hloop; [|discriminate].
  intros [= <-]; simpl.
  pose proof (read_loop_bounded F Hswr d frameCount (proj2 Hcount) fuel _ _ _
                (bounded_initial _ _ (proj1 Hcount)) Hloop) as [Hf Ht].
  exists (frames_read s). repeat split; try lia; assumption.
Qed.

(** A read of 2^32 frames from a file with three frames left. *)
Lemma read_count_within_request_witness :
  match sf_decoder_read_pcm_frames RefDec.engine 20 (Some RefDec.stereo16) true
          4294967296 (Some 0) RefDec.one_packet with
  | Some o =>
      exists n : Z,
        out_frames_read o = Some n /\
        0 <= n <= 4294967296 /\
        frames_stored (stored o) = n
  | None => False
  end.
Proof.
  destruct (sf_decoder_read_pcm_frames _ _ _ _ _ _ _) as [o|] eqn:Hrun;
    [|vm_compute in Hrun; discriminate].
  apply (read_count_within_request RefDec.engine RefDec_swr_within_space
           20 RefDec.stereo16 4294967296 0 RefDec.one_packet o).
  - unfold INT64_MAX; lia.
  - exact Hrun.
Defined.

(** ** Decode failures *)

(** C5.  At any point of the loop of [sf_decoder_read_pcm_frames] at which
    frames are still missing: if the codec answers the request for a frame
    with anything but success, end of stream or needs-more-input, or if it
    needs more input and the container read answers with anything but
    success or end of input, or the codec refuses the packet read, the call
    returns [SF_RESULT_DECODER_ERROR_DECODING_FAILED] within that iteration,
    with the frame count, the cursor and the stores made so far untouched.
    And over an engine whose [swr_convert] respects the space offered, every
    call that returns this code reports in [*out_frames_read] exactly the
    frames stored in the caller's buffer before the failure. *)
Theorem decode_failure_aborts {U E : Type} (F : FFmpeg U E) :
  (forall e out_count in_count,
      fst (call F (swr_convert out_count in_count) e) <= Z.max 0 out_count) ->
  (forall (fuel : nat) (d : SF_Decoder) (frameCount : Z) (s : ReadState E),
      frames_read s < frameCount ->
      let received := call F avcodec_receive_frame (rs_engine s) in
      let read := call F av_read_frame (snd (call F av_packet_unref (snd received))) in
      let sent := call F (avcodec_send_packet true) (snd read) in
      (fst received <> 0 /\ fst received <> AVERROR_EOF /\ fst received <> AVERROR EAGAIN)
      \/ (fst received = AVERROR EAGAIN /\ draining s = false /\
          fst read <> 0 /\ fst read <> AVERROR_EOF)
      \/ (fst received = AVERROR EAGAIN /\ draining s = false /\
          fst read = 0 /\ packet_stream_index F (snd read) = stream_index d /\
          fst sent < 0) ->
      exists s' : ReadState E,
        read_loop F (S fuel) d frameCount s
          = Some (SF_RESULT_DECODER_ERROR_DECODING_FAILED, s') /\
        frames_read s' = frames_read s /\
        written s' = written s /\
        out_ptr s' = out_ptr s)
  /\
  (forall (fuel : nat) (d : SF_Decoder) (frameCount cell : Z) (e : E) (o : ReadOutcome E),
      0 < frameCount <= INT64_MAX ->
      0 <= target_channels d ->
      0 <= target_bytes_per_sample d ->
      sf_decoder_read_pcm_frames F fuel (Some d) true frameCount (Some cell) e = Some o ->
      read_result o = SF_RESULT_DECODER_ERROR_DECODING_FAILED ->
      out_frames_read o = Some (frames_stored (stored o))).
Proof.
  intros Hswr. split.
  - intros fuel d frameCount s Hlt received read sent Hfail.
    subst received read sent. simpl.
    replace (frames_read s <? frameCount) with true by (symmetry; apply Z.ltb_lt; lia).
    simpl.
    destruct (call F avcodec_receive_frame (rs_engine s)) as [ret e1]. simpl in Hfail.
    destruct Hfail as [(H0 & Heof & Hagain)
                      | [(Hagain & Hdr & Hr0 & Hreof)
                        | (Hagain & Hdr & Hr0 & Hidx & Hsent)]].
    + apply Z.eqb_neq in H0, Heof, Hagain. rewrite H0, Heof, Hagain. simpl.
      eexists; split; [reflexivity | repeat split].
    + subst ret. rewrite Hdr. simpl.
      destruct (call F av_read_frame _) as [read_ret e3]. simpl in Hr0, Hreof.
      apply Z.eqb_neq in Hr0, Hreof. rewrite Hr0, Hreof.
      eexists; split; [reflexivity | repeat split].
    + subst ret. rewrite Hdr. simpl.
      destruct (call F av_read_frame _) as [read_ret e3]. simpl in Hr0, Hidx, Hsent.
      subst read_ret. simpl. rewrite Hidx, Z.eqb_refl.
      destruct (call F (avcodec_send_packet true) e3) as [sent e4]. simpl in Hsent.
      replace (sent <? 0) with true by (symmetry; apply Z.ltb_lt; lia).
      eexists; split; [reflexivity | repeat split].
  - intros fuel d frameCount cell e o Hcount Hch Hbps.
    unfold sf_decoder_read_pcm_frames.
    destruct (frameCount <=? 0) eqn:Hle; [apply Z.leb_le in Hle; lia|].
    destruct (read_loop F fuel d frameCount _) as [[r s]|] eqn:Hloop; [|discriminate].
    intros [= <-] _; simpl.
    pose proof (read_loop_bounded F Hswr d frameCount (proj2 Hcount) fuel _ _ _
                  (bounded_initial _ _ (proj1 Hcount)) Hloop) as [Hf Ht].
    congruence.
Qed.

(** The container read fails on entry; and a packet decodes with an error
    after three frames were stored. *)
Lemma decode_failure_aborts_witness :
  (exists s' : ReadState RefDec.State,
      read_loop RefDec.engine 1 RefDec.stereo16 10 (RefDec.entry RefDec.unreadable)
        = Some (SF_RESULT_DECODER_ERROR_DECODING_FAILED, s') /\
      frames_read s' = 0 /\ written s' = [] /\ out_ptr s' = 0)
  /\
  match sf_decoder_read_pcm_frames RefDec.engine 20 (Some RefDec.stereo16) true 10
          (Some 0) RefDec.garbled_second with
  | Some o =>
      read_result o = SF_RESULT_DECODER_ERROR_DECODING_FAILED /\
      out_frames_read o = Some 3 /\ frames_stored (stored o) = 3
  | None => False
  end.
Proof.
  split.
  - apply (proj1 (decode_failure_aborts RefDec.engine RefDec_swr_within_space)
             0%nat RefDec.stereo16 10 (RefDec.entry RefDec.unreadable)).
    + simpl; lia.
    + right; left. vm_compute. repeat split; discriminate.
  - destruct (sf_decoder_read_pcm_frames _ _ _ _ _ _ _) as [o|] eqn:Hrun;
      [|vm_compute in Hrun; discriminate].
    assert (Hres : read_result o = SF_RESULT_DECODER_ERROR_DECODING_FAILED)
      by (vm_compute in Hrun; injection Hrun as <-; reflexivity).
    pose proof (proj2 (decode_failure_aborts RefDec.engine RefDec_swr_within_space)
                  20%nat RefDec.stereo16 10 0 RefDec.garbled_second o
                  ltac:(unfold INT64_MAX; lia) ltac:(simpl; lia) ltac:(simpl; lia)
                  Hrun Hres) as Hout.
    split; [exact Hres|].
    vm_compute in Hrun; injection Hrun as <-. split; reflexivity.
Defined.

(** ** Degenerate requests *)

(** C8, as the claim states it, fails: after a successful [sf_decoder_init]
    for 16-bit output a read of zero frames does not return success. *)
Lemma zero_length_read_not_success :
  exists d info e1 o,
    sf_decoder_init RefDec.engine (Some sf_decoder_create) SF_SAMPLE_FORMAT_S16
      RefDec.three_packets = (SF_RESULT_SUCCESS, Some d, info, e1) /\
    sf_decoder_read_pcm_frames RefDec.engine 20 (Some d) true 0 (Some 7) e1 = Some o /\
    read_result o <> SF_RESULT_SUCCESS.
Proof.
  do 4 eexists. split; [vm_compute; reflexivity|].
  split; [vm_compute; reflexivity|]. simpl. discriminate.
Qed.

(** C8, amended.  Whatever the target format, after a successful
    [sf_decoder_init] a call of [sf_decoder_read_pcm_frames] with
    [frameCount = 0] is rejected with [SF_RESULT_ERROR_INVALID_ARGS]: the
    cell behind [out_frames_read] keeps its content, nothing is stored in
    the buffer and the engine is not touched. *)
Theorem zero_length_read_rejected {U E : Type} (F : FFmpeg U E)
    (target_format : SFSampleFormat) (e e1 : E) (d : SF_Decoder)
    (info : option DecoderInfo) (fuel : nat) (pFramesOut : bool) (cell : option Z) :
  sf_decoder_init F (Some sf_decoder_create) target_format e
    = (SF_RESULT_SUCCESS, Some d, info, e1) ->
  sf_decoder_read_pcm_frames F fuel (Some d) pFramesOut 0 cell e1
    = Some {| read_result := SF_RESULT_ERROR_INVALID_ARGS;
              out_frames_read := cell; stored := []; read_engine := e1 |}.
Proof.
  intros _. unfold sf_decoder_read_pcm_frames.
  destruct pFramesOut, cell; reflexivity.
Qed.

Lemma zero_length_read_rejected_witness :
  sf_decoder_read_pcm_frames RefDec.engine 20 (Some RefDec.stereo16) true 0 (Some 7)
    RefDec.three_packets
  = Some {| read_result := SF_RESULT_ERROR_INVALID_ARGS;
            out_frames_read := Some 7; stored := [];
            read_engine := RefDec.three_packets |}.
Proof.
  apply (zero_length_read_rejected RefDec.engine SF_SAMPLE_FORMAT_S16
           RefDec.three_packets RefDec.three_packets RefDec.stereo16
           (Some {| out_native_format := SF_SAMPLE_FORMAT_S16;
                    out_channels := 2; out_samplerate := 44100 |})
           20 true (Some 7)).
  vm_compute. reflexivity.
Defined.

(** ** Length of a stream *)

(** C4, at a file that declares only a container duration of one second
    (1000000 units of [AV_TIME_BASE]) at 44100 Hz: the length reported is
    22675737 frames, where one second rescaled from [AV_TIME_BASE] units to
    the sample rate is 44100 frames.  The fallback passes [AV_TIME_BASE] and
    the sample rate to [av_rescale] in each other's place. *)
Theorem container_duration_fallback_value :
  sf_decoder_get_length_in_pcm_frames RefDec.engine (Some RefDec.stereo16)
    RefDec.one_packet = Some 22675737
  /\ av_rescale 1000000 44100 AV_TIME_BASE = 44100.
Proof. split; vm_compute; reflexivity. Qed.

(** ** End of stream *)

(** C1, at a request of 2^32 frames on a file with three frames left: the
    space offered to the resampler is [(int)4294967296 = 0], so the call
    returns success with zero frames and the three frames stay in the
    resampler; the read that follows returns them. *)
Theorem oversized_request_reads_nothing :
  RefDec.remaining 0 RefDec.one_packet = 3 /\
  exists o1 o2,
    sf_decoder_read_pcm_frames RefDec.engine 20 (Some RefDec.stereo16) true
      4294967296 (Some 0) RefDec.one_packet = Some o1 /\
    read_result o1 = SF_RESULT_SUCCESS /\
    out_frames_read o1 = Some 0 /\
    sf_decoder_read_pcm_frames RefDec.engine 20 (Some RefDec.stereo16) true
      10 (Some 0) (read_engine o1) = Some o2 /\
    read_result o2 = SF_RESULT_SUCCESS /\
    out_frames_read o2 = Some 3.
Proof.
  split; [reflexivity|].
  do 2 eexists. split; [vm_compute; reflexivity|].
  split; [reflexivity|]. split; [reflexivity|].
  split; [vm_compute; reflexivity|].
  split; reflexivity.
Qed.

(** ** The timestamp counter *)

Lemma RefEnc_init_ready :
  sf_encoder_init RefEnc.engine (Some sf_encoder_create) "wav" RefEnc.sink_write
    SF_SAMPLE_FORMAT_S16 2 44100 (RefEnc.fresh 1000)
  = (SF_RESULT_SUCCESS, Some RefEnc.initialised_encoder, RefEnc.initialised 1000).
Proof. reflexivity. Qed.

(** C3, at a write of 2^32 + 5 frames on a freshly initialised encoder: the
    call returns success and reports 4294967301 frames written, but the
    frame it submitted, stamped 0, has [(int)4294967301 = 5] samples and the
    counter has advanced by 5; the write of 3 frames that follows is stamped
    5. *)
Theorem oversized_write_advances_by_truncated_count :
  RefEnc.after_writes
    (write_calls RefEnc.engine 10 [RefEnc.frames 4294967301]
       (Some RefEnc.initialised_encoder) (RefEnc.initialised 1000))
  = Some ([SF_RESULT_SUCCESS], Some 5, Some {| pts := 0; nb_samples := 5 |})
  /\
  option_map (@out_frames_written RefEnc.Sink RefEnc.State)
    (sf_encoder_write_pcm_frames RefEnc.engine 10 (Some RefEnc.initialised_encoder) true
       4294967301 (Some 0) (RefEnc.initialised 1000))
  = Some (Some 4294967301)
  /\
  RefEnc.after_writes
    (write_calls RefEnc.engine 10 [RefEnc.frames 4294967301; RefEnc.frames 3]
       (Some RefEnc.initialised_encoder) (RefEnc.initialised 1000))
  = Some ([SF_RESULT_SUCCESS; SF_RESULT_SUCCESS], Some 8,
          Some {| pts := 5; nb_samples := 3 |}).
Proof. repeat split; vm_compute; reflexivity. Qed.

(** C10, at a write of 2^32 + 5 frames that fails in the write stage: after
    a write of 4 frames, with room in the sink for 6 bytes more, the call
    returns [SF_RESULT_ENCODER_ERROR_WRITE_FAILED] and the counter stands at
    [4 + 5 = 9], not at [4 + 4294967301]. *)
Theorem failed_oversized_write_advances_by_truncated_count :
  RefEnc.after_writes
    (write_calls RefEnc.engine 10 [RefEnc.frames 4; RefEnc.frames 4294967301]
       (Some RefEnc.initialised_encoder) (RefEnc.initialised 50))
  = Some ([SF_RESULT_SUCCESS; SF_RESULT_ENCODER_ERROR_WRITE_FAILED], Some 9,
          Some {| pts := 4; nb_samples := 5 |}).
Proof. vm_compute; reflexivity. Qed.

(** ** Short writes *)


(** ** The order of the engine calls in an encoder's life *)

Section EncoderLog.
Context {U E : Type} (F : FFmpeg U E).

Lemma logged_call c e l :
  call (Logged F) c (e, l) = (fst (call F c e), (snd (call F c e), l ++ [c])).
Proof. simpl. destruct (call F c e); reflexivity. Qed.

Lemma none_of_app (p : Call U -> bool) l1 l2 :
  none_of p l1 -> none_of p l2 -> none_of p (l1 ++ l2).
Proof. unfold none_of. intros H1 H2. rewrite forallb_app, H1, H2. reflexivity. Qed.

Lemma no_landmark_no_boundary (l : list (Call U)) :
  none_of is_landmark l -> none_of is_boundary l.
Proof.
  unfold none_of. rewrite !forallb_forall. intros H k Hk. specialize (H k Hk).
  unfold is_landmark, is_boundary in *.
  destruct (is_write_header k), (is_write_trailer k), (is_send_null k);
    try reflexivity; simpl in H; try discriminate H.
  destruct (is_send_pcm k); discriminate H.
Qed.

Lemma receive_packets_log fuel : forall e l ret e' l',
  receive_packets (Logged F) fuel (e, l) = Some (ret, (e', l')) ->
  exists delta, l' = l ++ delta /\ none_of is_landmark delta.
Proof.
  induction fuel as [|fuel IH]; intros e l ret e' l'; [discriminate|].
  cbn [receive_packets]. rewrite logged_call.
  destruct ((fst (call F avcodec_receive_packet e) =? AVERROR EAGAIN)
            || (fst (call F avcodec_receive_packet e) =? AVERROR_EOF)).
  { intros [= <- <- <-]. exists [avcodec_receive_packet]. split; reflexivity. }
  destruct (fst (call F avcodec_receive_packet e) <? 0).
  { intros [= <- <- <-]. exists [avcodec_receive_packet]. split; reflexivity. }
  repeat (rewrite logged_call; cbn [fst snd]).
  destruct (fst (call F av_interleaved_write_frame _) <? 0).
  { intros [= <- <- <-]. eexists. split; [rewrite <- !app_assoc; reflexivity | reflexivity]. }
  intros H. apply IH in H. destruct H as (delta & -> & Hq).
  eexists. split; [rewrite <- !app_assoc; reflexivity|].
  apply (none_of_app _ [_;_;_;_;_]); [reflexivity | exact Hq].
Qed.

Lemma encode_and_write_log fuel frame e l ret e' l' :
  encode_and_write (Logged F) fuel frame (e, l) = Some (ret, (e', l')) ->
  exists delta, l' = l ++ [avcodec_send_frame frame] ++ delta /\ none_of is_landmark delta.
Proof.
  unfold encode_and_write. rewrite logged_call.
  destruct (fst (call F (avcodec_send_frame frame) e) <? 0).
  - intros [= <- <- <-]. exists []. split; reflexivity.
  - intros H. apply receive_packets_log in H. destruct H as (delta & -> & Hq).
    exists delta. split; [rewrite <- app_assoc; reflexivity | exact Hq].
Qed.

Lemma write_log fuel encoder pFramesIn frameCount cell e l o :
  sf_encoder_write_pcm_frames (Logged F) fuel encoder pFramesIn frameCount cell (e, l) = Some o ->
  exists delta, snd (write_engine o) = l ++ delta /\ none_of is_boundary delta.
Proof.
  unfold sf_encoder_write_pcm_frames.
  assert (Hinv : forall o',
    Some {| write_result := SF_RESULT_ERROR_INVALID_ARGS; write_encoder := encoder;
            out_frames_written := cell; write_engine := (e, l) |} = Some o' ->
    exists delta, snd (write_engine o') = l ++ delta /\ none_of is_boundary delta).
  { intros o' [= <-]. exists []. split; [simpl; rewrite app_nil_r|]; reflexivity. }
  destruct encoder as [enc|]; [|apply Hinv].
  destruct pFramesIn; [|apply Hinv].
  destruct cell as [c|]; [|apply Hinv].
  destruct (frameCount <=? 0); [apply Hinv|]. clear Hinv.
  repeat (rewrite logged_call; cbn [fst snd]).
  destruct (fst (call F (av_frame_get_buffer (to_int frameCount)) _) <? 0).
  { repeat (rewrite logged_call; cbn [fst snd]).
    intros [= <-]. cbn [write_engine snd]. eexists.
    split; [rewrite <- !app_assoc; reflexivity | reflexivity]. }
  repeat (rewrite logged_call; cbn [fst snd]).
  destruct (encode_and_write (Logged F) fuel _ _) as [[ret [e4 l4]]|] eqn:Henc; [|discriminate].
  apply encode_and_write_log in Henc. destruct Henc as (delta & -> & Hq).
  repeat (rewrite logged_call; cbn [fst snd]).
  assert (Hb : none_of is_boundary
                 ([av_frame_alloc; av_frame_get_buffer (to_int frameCount);
                   swr_convert (to_int frameCount) (Some (to_int frameCount));
                   avcodec_send_frame
                     (Some {| pts := next_pts enc; nb_samples := to_int frameCount |})]
                  ++ delta ++ [av_frame_free])).
  { apply (none_of_app _ [_;_;_;_]); [reflexivity|].
    apply none_of_app; [|reflexivity]. apply no_landmark_no_boundary, Hq. }
  destruct (ret <? 0); [destruct (ret =? AVERROR EIO)|];
    intros [= <-]; cbn [write_engine snd]; eexists;
    (split; [|exact Hb]); rewrite <- !app_assoc; reflexivity.
Qed.

Lemma write_calls_log fuel : forall calls encoder e l rs enc' e' l',
  write_calls (Logged F) fuel calls encoder (e, l) = Some (rs, enc', (e', l')) ->
  exists delta, l' = l ++ delta /\ none_of is_boundary delta.
Proof.
  induction calls as [|c calls IH]; intros encoder e l rs enc' e' l'; cbn [write_calls].
  - intros [= <- <- <- <-]. exists []. split; [rewrite app_nil_r|]; reflexivity.
  - destruct (sf_encoder_write_pcm_frames _ _ _ _ _ _ _) as [o|] eqn:Hw; [|discriminate].
    apply write_log in Hw. destruct Hw as (d1 & Hl1 & Hq1).
    destruct (write_engine o) as [e1 l1] eqn:Ho. cbn [snd] in Hl1. subst l1.
    destruct (write_calls (Logged F) fuel calls (write_encoder o) (e1, l ++ d1))
      as [[[rs1 enc1] [e2 l2]]|] eqn:Hrest; [|discriminate].
    apply IH in Hrest. destruct Hrest as (d2 & -> & Hq2).
    intros [= <- <- <- <-]. exists (d1 ++ d2).
    split; [rewrite app_assoc; reflexivity | apply none_of_app; assumption].
Qed.



Lemma encoder_init_log enc0 name onW fmt ch rate e l enc e' l' :
  sf_encoder_init (Logged F) (Some enc0) name onW fmt ch rate (e, l)
    = (SF_RESULT_SUCCESS, enc, (e', l')) ->
  exists before after,
    l' = l ++ before ++ [avformat_write_header] ++ after /\
    none_of is_landmark before /\ none_of is_landmark after.
Proof.
  unfold sf_encoder_init, encoder_stages.
  unfold stage_bind, ffcall, update, unless, return_, stage_ret, peek.
  cbn [fst snd].
  repeat first
    [ rewrite logged_call; cbn [fst snd]
    | match goal with
      | |- context [if ?b then _ else _] => destruct b
      | |- context [match codec_sample_fmts ?G ?w with _ => _ end] =>
          destruct (codec_sample_fmts G w)
      | |- context [match to_ffmpeg_sample_format ?f with _ => _ end] =>
          destruct (to_ffmpeg_sample_format f)
      end; cbn [fst snd]
    | discriminate ].
  all: intros [= _ <- <-];
    match goal with
    | |- context [set_codec_sample_fmt ?a] =>
        first
          [ exists [av_log_set_level; av_guess_format name; avformat_alloc_output_context2;
                    avcodec_find_encoder; avformat_new_stream; avcodec_alloc_context3;
                    set_codec_parameters ch rate; set_codec_sample_fmt a;
                    set_global_header; avcodec_open2; avcodec_parameters_from_context;
                    av_malloc IO_BUFFER_SIZE;
                    avio_alloc_context 1 (Some (write_packet_callback onW))];
            eexists; split;
            [rewrite <- !app_assoc; cbn [app]; reflexivity | split; reflexivity]
          | exists [av_log_set_level; av_guess_format name; avformat_alloc_output_context2;
                    avcodec_find_encoder; avformat_new_stream; avcodec_alloc_context3;
                    set_codec_parameters ch rate; set_codec_sample_fmt a;
                    avcodec_open2; avcodec_parameters_from_context;
                    av_malloc IO_BUFFER_SIZE;
                    avio_alloc_context 1 (Some (write_packet_callback onW))];
            eexists; split;
            [rewrite <- !app_assoc; cbn [app]; reflexivity | split; reflexivity] ]
    end.
Qed.




End EncoderLog.

(** ** The answers of the engine in an encoder's life *)

Section EncoderTrace.
Context {U E : Type} (F : FFmpeg U E).





(** *** What a trace of the loop tells *)








(** *** A write *)




(** *** The free *)



(** *** The initialisation *)













End EncoderTrace.



(** ** Short writes, from the callback to the caller *)




(** ** End of stream, for requests that fit an [int] *)

Lemma drain_at_end d frameCount fuel s :
  RefDec.exhausted (rs_engine s) ->
  drain_resampler RefDec.engine (S fuel) d frameCount s = Some s.
Proof.
  destruct s as [[m c pk dec eoi frm buf] op fr dr wr].
  intros (Hc & Hd & He & Hb). simpl in Hc, Hd, He, Hb. subst.
  cbn [drain_resampler]. unfold resample.
  cbn [call RefDec.engine RefDec.handle rs_engine frames_read RefDec.buffered].
  destruct (to_int (frameCount - fr) <? 0) eqn:Hneg.
  - cbn. reflexivity.
  - apply Z.ltb_ge in Hneg.
    replace (Z.min (to_int (frameCount - fr)) (0 + 0)) with 0 by lia.
    cbn. reflexivity.
Qed.

Section EndOfStream.
Import RefDec.

Variable d : SF_Decoder.
Variable frameCount : Z.
Hypothesis frameCount_int : frameCount <= INT_MAX.

Lemma container_frames_nonneg (l : list Packet) :
  0 <= fold_right (fun p acc => frames_in (stream_index d) p + acc) 0 l.
Proof.
  induction l as [|p l IH]; simpl; [lia|].
  assert (0 <= frames_in (stream_index d) p)
    by (destruct p; simpl; try lia; destruct (_ =? _); lia).
  lia.
Qed.

Lemma decoded_frames_nonneg (l : list (option Z)) :
  0 <= fold_right
         (fun (f : option Z) acc => match f with Some n => Z.max 0 n | None => 0 end + acc)
         0 l.
Proof. induction l as [|f l IH]; simpl; [lia|]. destruct f; lia. Qed.

Lemma remaining_nonneg r : 0 <= buffered r -> 0 <= remaining (stream_index d) r.
Proof.
  intros Hb. unfold remaining.
  pose proof (container_frames_nonneg (container r)).
  pose proof (decoded_frames_nonneg (decoded r)). lia.
Qed.

Ltac run_engine :=
  unfold with_engine, start_draining, resample;
  cbn [call engine handle rs_engine out_ptr frames_read draining written
       media container packet decoded end_of_input frame buffered
       frame_nb_samples packet_stream_index stream_of fst snd andb negb
       Z.eqb Pos.eqb].

Ltac by_IH IH :=
  match goal with
  | |- exists s', read_loop engine ?f ?d ?fc ?st = _ /\ _ =>
      let s' := fresh "s'" in
      let Hl := fresh "Hl" in
      let Hf := fresh "Hf" in
      let Hx := fresh "Hx" in
      destruct (IH st f) as (s' & Hl & Hf & Hx);
      [ ..
      | exists s'; split;
        [exact Hl
        | split; [rewrite Hf; run_engine; cbn [fold_right app]; try lia | exact Hx]]]
  end.

Ltac side :=
  run_engine; cbn [fold_right List.length app];
  first
    [ lia | assumption | discriminate
    | solve [repeat split; cbn;
             first [assumption | reflexivity | lia | discriminate
                   | intros; reflexivity]] ].

Lemma read_at_end (s : ReadState State) (fuel : nat) :
  container (rs_engine s) = [] -> decoded (rs_engine s) = [] ->
  end_of_input (rs_engine s) = true -> 0 <= buffered (rs_engine s) ->
  0 <= frames_read s -> frames_read s + buffered (rs_engine s) < frameCount ->
  exists s', read_loop engine (S (S (S fuel))) d frameCount s = Some (SF_RESULT_SUCCESS, s') /\
    frames_read s' = frames_read s + buffered (rs_engine s) /\
    exhausted (rs_engine s').
Proof.
  destruct s as [[m c pk dec eoi frm buf] op fr dr wr].
  cbn [rs_engine frames_read container decoded end_of_input buffered].
  intros -> -> -> Hb Hfr Hlt.
  assert (Hcap : to_int (frameCount - fr) = frameCount - fr)
    by (apply to_int_id; unfold INT_MAX in *; lia).
  remember (S fuel) as fuel1 eqn:Hfuel1.
  cbn [read_loop frames_read].
  replace (fr <? frameCount) with true by (symmetry; apply Z.ltb_lt; lia).
  run_engine.
  replace (AVERROR_EOF =? 0) with false by reflexivity.
  rewrite ?Z.eqb_refl.
  cbn [drain_resampler]. run_engine. subst fuel1.
  rewrite Hcap.
  replace (frameCount - fr <? 0) with false by (symmetry; apply Z.ltb_ge; lia).
  replace (Z.min (frameCount - fr) (buf + 0)) with buf by lia.
  destruct (0 <? buf) eqn:Hpos.
  - apply Z.ltb_lt in Hpos. run_engine.
    rewrite to_int64_id by (unfold INT64_MIN, INT64_MAX, INT_MAX in *; lia).
    replace (fr + buf <? frameCount) with true by (symmetry; apply Z.ltb_lt; lia).
    run_engine.
    rewrite drain_at_end.
    + eexists. split; [reflexivity|]. cbn. split; [reflexivity|].
      repeat split; cbn; lia.
    + cbn. repeat split; cbn; lia.
  - apply Z.ltb_ge in Hpos. run_engine.
    eexists. split; [reflexivity|]. cbn. split; [lia|].
    repeat split; cbn; lia.
Qed.

Lemma read_to_end : forall (n : nat) (s : ReadState State) (fuel : nat),
  (steps_to_end (rs_engine s) <= n)%nat -> (n + 3 <= fuel)%nat ->
  sound (rs_engine s) -> 0 <= frames_read s ->
  frames_read s + remaining (stream_index d) (rs_engine s) < frameCount ->
  (draining s = true -> end_of_input (rs_engine s) = true) ->
  exists s', read_loop engine fuel d frameCount s = Some (SF_RESULT_SUCCESS, s') /\
    frames_read s' = frames_read s + remaining (stream_index d) (rs_engine s) /\
    exhausted (rs_engine s').
Proof.
  assert (Hfinal : forall (s : ReadState State) (fuel : nat),
    (3 <= fuel)%nat -> sound (rs_engine s) -> 0 <= frames_read s ->
    frames_read s + remaining (stream_index d) (rs_engine s) < frameCount ->
    container (rs_engine s) = [] -> decoded (rs_engine s) = [] ->
    end_of_input (rs_engine s) = true ->
    exists s', read_loop engine fuel d frameCount s = Some (SF_RESULT_SUCCESS, s') /\
      frames_read s' = frames_read s + remaining (stream_index d) (rs_engine s) /\
      exhausted (rs_engine s')).
  { intros s fuel Hfuel (_ & _ & Hb & _) Hfr Hrem Hc Hd He.
    destruct fuel as [|[|[|fuel]]]; try lia.
    unfold remaining in *. rewrite Hc, Hd in *. cbn [fold_right] in *.
    destruct (read_at_end s fuel Hc Hd He Hb Hfr ltac:(lia)) as (s' & Hl & Hf & Hx).
    exists s'. split; [exact Hl|]. split; [lia | exact Hx]. }
  induction n as [|n IH]; intros s fuel Hn Hfuel Hsound Hfr Hrem Hdr.
  { apply Hfinal; try assumption; try lia.
    - unfold steps_to_end in Hn. destruct (container (rs_engine s)); [reflexivity|cbn in Hn; lia].
    - unfold steps_to_end in Hn. destruct (decoded (rs_engine s)); [reflexivity|cbn in Hn; lia].
    - unfold steps_to_end in Hn. destruct (end_of_input (rs_engine s)); [reflexivity|lia]. }
  destruct fuel as [|fuel]; [lia|].
  pose proof (remaining_nonneg (rs_engine s) (proj1 (proj2 (proj2 Hsound)))) as Hnn.
  destruct s as [[m c pk dec eoi frm buf] op fr dr wr].
  destruct dec as [|[k|] q].
  - destruct eoi.
    { apply Hfinal; try assumption; try lia; try reflexivity.
      destruct Hsound as (_ & _ & _ & Hse). apply Hse. reflexivity. }
    assert (dr = false) as -> by (destruct dr; [discriminate (Hdr eq_refl) | reflexivity]).
    destruct Hsound as (Hsc & Hsd & Hsb & Hse).
    unfold remaining, steps_to_end in *.
    cbn [rs_engine frames_read draining container decoded buffered end_of_input] in *.
    cbn [read_loop frames_read].
    replace (fr <? frameCount) with true by (symmetry; apply Z.ltb_lt; lia).
    run_engine.
    replace (AVERROR EAGAIN =? 0) with false by reflexivity.
    replace (AVERROR EAGAIN =? AVERROR_EOF) with false by reflexivity.
    rewrite ?Z.eqb_refl. run_engine.
    destruct c as [|[st k| | |] c]; try discriminate Hsc.
    + run_engine.
      replace (AVERROR_EOF =? 0) with false by reflexivity.
      rewrite ?Z.eqb_refl. run_engine.
      by_IH IH; side.
    + run_engine. rewrite ?Z.eqb_refl.
      cbn [forallb sound_packet andb] in Hsc.
      cbn [fold_right frames_in List.length] in *.
      destruct (st =? stream_index d) eqn:Hst.
      * run_engine. replace (0 <? 0) with false by reflexivity.
        by_IH IH; side.
      * run_engine.
        by_IH IH; side.
  - destruct Hsound as (Hsc & Hsd & Hsb & Hse).
    unfold remaining, steps_to_end in *.
    cbn [rs_engine frames_read draining container decoded buffered end_of_input] in *.
    cbn [forallb sound_frame andb] in Hsd.
    cbn [fold_right List.length] in *.
    pose proof (container_frames_nonneg c) as Hcn.
    pose proof (decoded_frames_nonneg q) as Hqn.
    assert (Hcap : to_int (frameCount - fr) = frameCount - fr)
      by (apply to_int_id; unfold INT_MAX in *; lia).
    cbn [read_loop frames_read].
    replace (fr <? frameCount) with true by (symmetry; apply Z.ltb_lt; lia).
    run_engine. rewrite Hcap.
    replace (frameCount - fr <? 0) with false by (symmetry; apply Z.ltb_ge; lia).
    replace (Z.min (frameCount - fr) (buf + Z.max 0 k)) with (buf + Z.max 0 k) by lia.
    destruct (0 <? buf + Z.max 0 k) eqn:Hpos.
    + apply Z.ltb_lt in Hpos. run_engine.
      rewrite to_int64_id by (unfold INT64_MIN, INT64_MAX, INT_MAX in *; lia).
      by_IH IH; side.
    + apply Z.ltb_ge in Hpos. run_engine.
      by_IH IH; side.
  - destruct Hsound as (_ & Hsd & _). discriminate Hsd.
Qed.
End EndOfStream.

Lemma read_exhausted d frameCount cell fuel e :
  RefDec.exhausted e -> 0 < frameCount ->
  sf_decoder_read_pcm_frames RefDec.engine (S (S fuel)) (Some d) true frameCount
    (Some cell) e
  = Some {| read_result := SF_RESULT_SUCCESS; out_frames_read := Some 0;
            stored := []; read_engine := e |}.
Proof.
  intros Hx Hpos. unfold sf_decoder_read_pcm_frames.
  replace (frameCount <=? 0) with false by (symmetry; apply Z.leb_gt; lia).
  remember (S fuel) as fuel1.
  cbn [read_loop frames_read rs_engine].
  replace (0 <? frameCount) with true by (symmetry; apply Z.ltb_lt; lia).
  cbn [negb]. subst fuel1.
  destruct e as [m c pk dec eoi frm buf].
  destruct Hx as (Hc & Hd & He & Hb). simpl in Hc, Hd, He, Hb. subst.
  cbn [call RefDec.engine RefDec.handle RefDec.decoded RefDec.end_of_input].
  replace (AVERROR_EOF =? 0) with false by reflexivity.
  rewrite Z.eqb_refl.
  rewrite drain_at_end by (repeat split).
  reflexivity.
Qed.

(** On the reference engine, for a sound state and a request that exceeds
    the frames remaining and fits an [int]: the read returns success with
    exactly the frames remaining, and every later read of any positive
    length returns success with zero frames and leaves the engine as it
    is. *)
Theorem end_of_stream_is_exact (d : SF_Decoder) (frameCount cell : Z) (e : RefDec.State)
    (fuel : nat) :
  RefDec.sound e ->
  RefDec.remaining (stream_index d) e < frameCount <= INT_MAX ->
  (RefDec.steps_to_end e + 3 <= fuel)%nat ->
  exists o : ReadOutcome RefDec.State,
    sf_decoder_read_pcm_frames RefDec.engine fuel (Some d) true frameCount (Some cell) e
      = Some o /\
    read_result o = SF_RESULT_SUCCESS /\
    out_frames_read o = Some (RefDec.remaining (stream_index d) e) /\
    forall (frameCount' cell' : Z) (fuel' : nat),
      0 < frameCount' ->
      sf_decoder_read_pcm_frames RefDec.engine (S (S fuel')) (Some d) true frameCount'
        (Some cell') (read_engine o)
      = Some {| read_result := SF_RESULT_SUCCESS; out_frames_read := Some 0;
                stored := []; read_engine := read_engine o |}.
Proof.
  intros Hsound [Hrem Hint] Hfuel.
  pose proof (remaining_nonneg d e (proj1 (proj2 (proj2 Hsound)))) as Hnn.
  unfold sf_decoder_read_pcm_frames at 1.
  replace (frameCount <=? 0) with false by (symmetry; apply Z.leb_gt; lia).
  destruct (read_to_end d frameCount Hint (RefDec.steps_to_end e) (RefDec.entry e) fuel)
    as (s' & Hl & Hf & Hx); simpl; try lia; try assumption; try discriminate.
  unfold RefDec.entry in Hl. rewrite Hl.
  eexists. split; [reflexivity|]. cbn [read_result out_frames_read read_engine].
  split; [reflexivity|]. split; [f_equal; simpl in Hf; lia|].
  intros frameCount' cell' fuel' Hpos. apply read_exhausted; assumption.
Qed.

Lemma end_of_stream_is_exact_witness :
  exists o : ReadOutcome RefDec.State,
    sf_decoder_read_pcm_frames RefDec.engine 10 (Some RefDec.stereo16) true 10 (Some 0)
      RefDec.three_packets = Some o /\
    read_result o = SF_RESULT_SUCCESS /\
    out_frames_read o
      = Some (RefDec.remaining (stream_index RefDec.stereo16) RefDec.three_packets) /\
    forall (frameCount' cell' : Z) (fuel' : nat),
      0 < frameCount' ->
      sf_decoder_read_pcm_frames RefDec.engine (S (S fuel')) (Some RefDec.stereo16) true
        frameCount' (Some cell') (read_engine o)
      = Some {| read_result := SF_RESULT_SUCCESS; out_frames_read := Some 0;
                stored := []; read_engine := read_engine o |}.
Proof.
  apply (end_of_stream_is_exact RefDec.stereo16 10 0 RefDec.three_packets 10).
  - repeat split; solve [reflexivity | simpl; lia | discriminate].
  - vm_compute. split; [reflexivity | discriminate].
  - vm_compute. lia.
Defined.

(** ** The timestamp counter, for frame counts that fit an [int] *)

Section Timestamps.
Context {U E : Type} (F : FFmpeg U E).

Lemma frames_sent_app (l1 l2 : list (Call U)) :
  frames_sent (l1 ++ l2) = frames_sent l1 ++ frames_sent l2.
Proof. unfold frames_sent. apply flat_map_app. Qed.

Lemma frames_sent_quiet (l : list (Call U)) :
  none_of is_landmark l -> frames_sent l = [].
Proof.
  unfold none_of. induction l as [|c l IH]; [reflexivity|].
  cbn [forallb]. intros H. apply andb_prop in H. destruct H as [Hc Hl].
  cbn [frames_sent flat_map]. fold (frames_sent l). rewrite (IH Hl).
  destruct c; try reflexivity.
  match goal with f : option AVFrame |- _ => destruct f end;
    [discriminate Hc | reflexivity].
Qed.

Lemma contiguous_app start fs gs :
  contiguous start fs -> contiguous (start + samples_in fs) gs ->
  contiguous start (fs ++ gs).
Proof.
  revert start. induction fs as [|f fs IH]; intros start;
    cbn [contiguous samples_in fold_right app].
  - intros _ H. replace (start + 0) with start in H by lia. exact H.
  - intros [Hp Hc] Hg. split; [exact Hp|]. apply IH; [exact Hc|].
    fold (samples_in fs) in Hg. replace (start + nb_samples f + samples_in fs)
      with (start + (nb_samples f + samples_in fs)) by lia. exact Hg.
Qed.

Lemma samples_in_app fs gs : samples_in (fs ++ gs) = samples_in fs + samples_in gs.
Proof.
  induction fs as [|f fs IH]; cbn [samples_in fold_right app]; [reflexivity|].
  fold (samples_in (fs ++ gs)). fold (samples_in fs). lia.
Qed.

Lemma write_log_frames fuel enc pFramesIn frameCount cell e l o :
  frameCount <= INT_MAX ->
  INT64_MIN <= next_pts enc ->
  next_pts enc + Z.max 0 frameCount <= INT64_MAX ->
  sf_encoder_write_pcm_frames (Logged F) fuel (Some enc) pFramesIn frameCount cell (e, l)
    = Some o ->
  exists delta enc1,
    snd (write_engine o) = l ++ delta /\
    write_encoder o = Some enc1 /\
    (write_result o = SF_RESULT_ERROR_INVALID_ARGS <->
     pFramesIn = false \/ cell = None \/ frameCount <= 0) /\
    frames_sent delta
      = (if submits (write_result o)
         then [{| pts := next_pts enc; nb_samples := frameCount |}] else []) /\
    next_pts enc1
      = (if submits (write_result o) then next_pts enc + frameCount else next_pts enc).
Proof.
  intros Hint Hlo Hhi. unfold sf_encoder_write_pcm_frames.
  assert (Hinv : pFramesIn = false \/ cell = None \/ frameCount <= 0 ->
    forall o',
    Some {| write_result := SF_RESULT_ERROR_INVALID_ARGS; write_encoder := Some enc;
            out_frames_written := cell; write_engine := (e, l) |} = Some o' ->
    exists delta enc1,
      snd (write_engine o') = l ++ delta /\
      write_encoder o' = Some enc1 /\
      (write_result o' = SF_RESULT_ERROR_INVALID_ARGS <->
       pFramesIn = false \/ cell = None \/ frameCount <= 0) /\
      frames_sent delta
        = (if submits (write_result o')
           then [{| pts := next_pts enc; nb_samples := frameCount |}] else []) /\
      next_pts enc1
        = (if submits (write_result o') then next_pts enc + frameCount else next_pts enc)).
  { intros Hrej o' [= <-]. exists [], enc. cbn.
    repeat split; try (rewrite app_nil_r; reflexivity); auto. }
  destruct pFramesIn; [|apply Hinv; left; reflexivity].
  destruct cell as [c|]; [|apply Hinv; right; left; reflexivity].
  destruct (frameCount <=? 0) eqn:Hpos;
    [apply Hinv; right; right; apply Z.leb_le, Hpos|]. clear Hinv.
  apply Z.leb_gt in Hpos.
  assert (Hvalid : ~ (true = false \/ Some c = None \/ frameCount <= 0))
    by (intros [H|[H|H]]; [discriminate H | discriminate H | lia]).
  assert (Hcast : to_int frameCount = frameCount)
    by (apply to_int_id; unfold INT_MAX in *; lia).
  rewrite Hcast.
  repeat (rewrite logged_call; cbn [fst snd]).
  destruct (fst (call F (av_frame_get_buffer frameCount) _) <? 0).
  { repeat (rewrite logged_call; cbn [fst snd]).
    intros [= <-]. cbn [write_engine write_encoder write_result snd submits].
    exists [av_frame_alloc; av_frame_get_buffer frameCount; av_frame_free], enc.
    repeat split; try (rewrite <- !app_assoc; reflexivity);
      try discriminate; try (intros H; exfalso; exact (Hvalid H)). }
  repeat (rewrite logged_call; cbn [fst snd]).
  destruct (encode_and_write (Logged F) fuel _ _) as [[ret [e4 l4]]|] eqn:Henc; [|discriminate].
  apply encode_and_write_log in Henc. destruct Henc as (delta & -> & Hq).
  repeat (rewrite logged_call; cbn [fst snd]).
  assert (Hsent : frames_sent
                    ([av_frame_alloc; av_frame_get_buffer frameCount;
                      swr_convert frameCount (Some frameCount);
                      avcodec_send_frame
                        (Some {| pts := next_pts enc; nb_samples := frameCount |})]
                     ++ delta ++ [av_frame_free])
                  = [{| pts := next_pts enc; nb_samples := frameCount |}]).
  { rewrite !frames_sent_app, (frames_sent_quiet delta Hq). reflexivity. }
  assert (Hadv : to_int64 (next_pts enc + frameCount) = next_pts enc + frameCount)
    by (apply to_int64_id; lia).
  destruct (ret <? 0); [destruct (ret =? AVERROR EIO)|];
    intros [= <-]; cbn [write_engine write_encoder write_result snd submits];
    exists ([av_frame_alloc; av_frame_get_buffer frameCount;
             swr_convert frameCount (Some frameCount);
             avcodec_send_frame
               (Some {| pts := next_pts enc; nb_samples := frameCount |})]
            ++ delta ++ [av_frame_free]), (advance_pts enc frameCount);
    (split; [cbn [app]; rewrite <- !app_assoc; reflexivity|]);
    (split; [reflexivity|]);
    (split; [split; [discriminate | intros H; exfalso; exact (Hvalid H)]|]);
    (split; [exact Hsent|]);
    cbn [advance_pts next_pts]; exact Hadv.
Qed.

Lemma frames_offered_nonneg (calls : list WriteCall) : 0 <= frames_offered calls.
Proof.
  induction calls as [|k calls IH]; cbn [frames_offered fold_right]; [lia|].
  fold (frames_offered calls). lia.
Qed.

Lemma frames_of_calls_contiguous : forall calls rs start,
  contiguous start (frames_of_calls start calls rs).
Proof.
  induction calls as [|c calls IH]; intros [|r rs] start; cbn [frames_of_calls];
    try exact I.
  destruct (submits r); [|apply IH].
  cbn [contiguous pts nb_samples]. split; [reflexivity | apply IH].
Qed.

(** Over any engine, for a sequence of [sf_encoder_write_pcm_frames] calls
    on one encoder whose frame counts fit an [int] and whose total fits the
    64-bit counter: every call returns a code, [SF_RESULT_ERROR_INVALID_ARGS]
    exactly when an argument is refused; the frames handed to the codec are,
    in order, one for every call that was neither refused nor failed to
    allocate its frame, with the call's count as its sample count and the
    counter's value before the call as its timestamp; they follow one
    another without gap or overlap from the counter's initial value on, and
    the counter ends at the initial value plus the samples handed over. *)
Theorem timestamps_contiguous fuel : forall calls enc e l rs enc' e' l',
  Forall (fun c => wc_frame_count c <= INT_MAX) calls ->
  INT64_MIN <= next_pts enc ->
  next_pts enc + frames_offered calls <= INT64_MAX ->
  write_calls (Logged F) fuel calls (Some enc) (e, l) = Some (rs, enc', (e', l')) ->
  exists delta enc1,
    l' = l ++ delta /\
    enc' = Some enc1 /\
    Forall2 (fun c r => r = SF_RESULT_ERROR_INVALID_ARGS <-> rejected c) calls rs /\
    frames_sent delta = frames_of_calls (next_pts enc) calls rs /\
    contiguous (next_pts enc) (frames_sent delta) /\
    next_pts enc1 = next_pts enc + samples_in (frames_sent delta).
Proof.
  induction calls as [|c calls IH]; intros enc e l rs enc' e' l' Hall Hlo Hhi;
    cbn [write_calls].
  - intros [= <- <- <- <-]. exists [], enc. cbn.
    repeat split; try lia; try constructor. rewrite app_nil_r; reflexivity.
  - inversion Hall as [|? ? Hc Hrest]; subst.
    cbn [frames_offered fold_right] in Hhi. fold (frames_offered calls) in Hhi.
    pose proof (frames_offered_nonneg calls) as Hoff.
    destruct (sf_encoder_write_pcm_frames _ _ _ _ _ _ _) as [o|] eqn:Hw; [|discriminate].
    apply write_log_frames in Hw; [|assumption|assumption|lia].
    destruct Hw as (d1 & enc1 & Hl1 & He1 & Hrej & Hs1 & Hp1).
    destruct (write_engine o) as [e1 l1] eqn:Ho. cbn [snd] in Hl1. subst l1.
    rewrite He1.
    destruct (write_calls (Logged F) fuel calls (Some enc1) (e1, l ++ d1))
      as [[[rs1 enc2] [e2 l2]]|] eqn:Hrest2; [|discriminate].
    assert (Hcount : submits (write_result o) = true -> 0 < wc_frame_count c).
    { intros Hsub. destruct (Z.le_gt_cases (wc_frame_count c) 0) as [Hle|Hgt]; [|lia].
      assert (Hr : write_result o = SF_RESULT_ERROR_INVALID_ARGS)
        by (apply Hrej; right; right; exact Hle).
      rewrite Hr in Hsub. discriminate Hsub. }
    apply IH in Hrest2;
      [|assumption
       |rewrite Hp1; destruct (submits (write_result o)); [specialize (Hcount eq_refl)|]; lia
       |rewrite Hp1; destruct (submits (write_result o)); [specialize (Hcount eq_refl)|]; lia].
    destruct Hrest2 as (d2 & enc3 & -> & -> & Hf2 & Hs2 & Hc2 & Hp2).
    intros [= <- <- <- <-]. exists (d1 ++ d2), enc3.
    assert (Hfr : frames_sent (d1 ++ d2)
                  = frames_of_calls (next_pts enc) (c :: calls) (write_result o :: rs1)).
    { rewrite frames_sent_app, Hs1, Hs2, Hp1. cbn [frames_of_calls].
      destruct (submits (write_result o)); reflexivity. }
    split; [rewrite app_assoc; reflexivity|].
    split; [reflexivity|].
    split; [constructor; [exact Hrej | exact Hf2]|].
    split; [exact Hfr|].
    split; [rewrite Hfr; apply frames_of_calls_contiguous|].
    rewrite frames_sent_app, samples_in_app, Hp2, Hp1, Hs1.
    destruct (submits (write_result o)); cbn [samples_in fold_right nb_samples]; lia.
Qed.

End Timestamps.

Lemma timestamps_contiguous_witness :
  match write_calls (Logged RefEnc.engine) 10 [RefEnc.frames 4; RefEnc.frames 6]
          (Some RefEnc.initialised_encoder) (RefEnc.initialised 1000, []) with
  | Some (rs, enc', (_, l')) =>
      exists delta enc1,
        l' = [] ++ delta /\
        enc' = Some enc1 /\
        Forall2 (fun c r => r = SF_RESULT_ERROR_INVALID_ARGS <-> rejected c)
          [RefEnc.frames 4; RefEnc.frames 6] rs /\
        frames_sent delta
          = frames_of_calls (next_pts RefEnc.initialised_encoder)
              [RefEnc.frames 4; RefEnc.frames 6] rs /\
        contiguous (next_pts RefEnc.initialised_encoder) (frames_sent delta) /\
        next_pts enc1
          = next_pts RefEnc.initialised_encoder + samples_in (frames_sent delta)
  | None => False
  end.
Proof.
  assert (Hcodes : option_map (fun r => fst (fst r))
                     (write_calls (Logged RefEnc.engine) 10
                        [RefEnc.frames 4; RefEnc.frames 6]
                        (Some RefEnc.initialised_encoder) (RefEnc.initialised 1000, []))
                   = Some [SF_RESULT_SUCCESS; SF_RESULT_SUCCESS])
    by (vm_compute; reflexivity).
  destruct (write_calls _ _ _ _ _) as [[[rs enc'] [e' l']]|] eqn:Hrun;
    [|discriminate Hcodes].
  apply (timestamps_contiguous RefEnc.engine 10 [RefEnc.frames 4; RefEnc.frames 6]
           RefEnc.initialised_encoder (RefEnc.initialised 1000) [] rs enc' e' l').
  - repeat constructor; vm_compute; discriminate.
  - vm_compute; discriminate.
  - vm_compute; discriminate.
  - exact Hrun.
Defined.

(** Over any engine, for a call of [sf_encoder_write_pcm_frames] with valid
    arguments, a frame count that fits an [int] and a counter that does not
    overflow: on an encode- or write-stage error the counter has advanced by
    [frameCount] and [*out_frames_written] is zero; on success the counter
    has advanced by [frameCount], which is also what [*out_frames_written]
    holds; on an allocation failure the encoder is as it was; no other code
    is returned. *)
Theorem write_advances_before_failing {U E : Type} (F : FFmpeg U E) (fuel : nat)
    (enc : SF_Encoder U) (frameCount cell : Z) (e : E) (o : WriteOutcome U E) :
  0 < frameCount <= INT_MAX ->
  INT64_MIN <= next_pts enc ->
  next_pts enc + frameCount <= INT64_MAX ->
  sf_encoder_write_pcm_frames F fuel (Some enc) true frameCount (Some cell) e = Some o ->
  match write_result o with
  | SF_RESULT_ENCODER_ERROR_ENCODING_FAILED
  | SF_RESULT_ENCODER_ERROR_WRITE_FAILED =>
      option_map next_pts (write_encoder o) = Some (next_pts enc + frameCount) /\
      out_frames_written o = Some 0
  | SF_RESULT_SUCCESS =>
      option_map next_pts (write_encoder o) = Some (next_pts enc + frameCount) /\
      out_frames_written o = Some frameCount
  | SF_RESULT_ERROR_ALLOCATION_FAILED =>
      write_encoder o = Some enc /\ out_frames_written o = Some 0
  | _ => False
  end.
Proof.
  intros [Hpos Hint] Hlo Hhi. unfold sf_encoder_write_pcm_frames.
  replace (frameCount <=? 0) with false by (symmetry; apply Z.leb_gt; lia).
  rewrite (to_int_id frameCount) by (unfold INT_MAX in *; lia).
  destruct (call F (av_frame_get_buffer frameCount) _) as [got e2].
  destruct (got <? 0); [intros [= <-]; split; reflexivity|].
  destruct (encode_and_write _ _ _ _) as [[ret e4]|]; [|discriminate].
  assert (Hadv : to_int64 (next_pts enc + frameCount) = next_pts enc + frameCount)
    by (apply to_int64_id; lia).
  destruct (ret <? 0); [destruct (ret =? AVERROR EIO)|];
    intros [= <-]; cbn; rewrite Hadv; split; reflexivity.
Qed.

Lemma write_advances_before_failing_witness :
  match sf_encoder_write_pcm_frames RefEnc.engine 10 (Some RefEnc.initialised_encoder)
          true 6 (Some 0) RefEnc.holding with
  | Some o =>
      match write_result o with
      | SF_RESULT_ENCODER_ERROR_ENCODING_FAILED
      | SF_RESULT_ENCODER_ERROR_WRITE_FAILED =>
          option_map next_pts (write_encoder o)
            = Some (next_pts RefEnc.initialised_encoder + 6) /\
          out_frames_written o = Some 0
      | SF_RESULT_SUCCESS =>
          option_map next_pts (write_encoder o)
            = Some (next_pts RefEnc.initialised_encoder + 6) /\
          out_frames_written o = Some 6
      | SF_RESULT_ERROR_ALLOCATION_FAILED =>
          write_encoder o = Some RefEnc.initialised_encoder /\
          out_frames_written o = Some 0
      | _ => False
      end
  | None => False
  end.
Proof.
  assert (Hcode : option_map (@write_result RefEnc.Sink RefEnc.State)
                    (sf_encoder_write_pcm_frames RefEnc.engine 10
                       (Some RefEnc.initialised_encoder) true 6 (Some 0) RefEnc.holding)
                  = Some SF_RESULT_ENCODER_ERROR_WRITE_FAILED)
    by (vm_compute; reflexivity).
  destruct (sf_encoder_write_pcm_frames _ _ _ _ _ _ _) as [o|] eqn:Hrun;
    [|discriminate Hcode].
  apply (write_advances_before_failing RefEnc.engine 10 RefEnc.initialised_encoder
           6 0 RefEnc.holding o).
  - unfold INT_MAX; lia.
  - vm_compute; discriminate.
  - vm_compute; discriminate.
  - exact Hrun.
Defined.

(** ** Requests beyond the range of [int] *)

Section OversizedRequest.

Context {U E : Type} (F : FFmpeg U E).

Hypothesis swr_contract :
  forall e out_count in_count,
    fst (call F (swr_convert out_count in_count) e) <= Z.max 0 out_count.

Variable d : SF_Decoder.


Lemma resample_untouched in_count (s : ReadState E) :
  untouched s ->
  fst (resample F d 4294967296 in_count s) <= 0 /\
  untouched (snd (resample F d 4294967296 in_count s)).
Proof.
  intros (Hf & Hw & Hp). unfold resample. rewrite Hf.
  change (to_int (4294967296 - 0)) with 0.
  pose proof (swr_contract (rs_engine s) 0 in_count) as Hk.
  destruct (call F (swr_convert 0 in_count) (rs_engine s)) as [out e']. simpl in Hk.
  cbn [fst snd].
  replace (0 <? out) with false by (symmetry; apply Z.ltb_ge; lia).
  split; [lia|]. repeat split; assumption.
Qed.

Lemma drain_resampler_untouched fuel : forall s s' : ReadState E,
  untouched s -> drain_resampler F fuel d 4294967296 s = Some s' -> untouched s'.
Proof.
  induction fuel as [|fuel IH]; intros s s' Hu; simpl; [discriminate|].
  destruct (resample_untouched None s Hu) as [Hle Hu1].
  destruct (resample F d 4294967296 None s) as [flushed s1]. cbn [fst snd] in Hle, Hu1.
  replace (0 <? flushed) with false by (symmetry; apply Z.ltb_ge; lia).
  cbn [andb]. intros [= <-]. exact Hu1.
Qed.

Lemma read_loop_untouched fuel : forall (s : ReadState E) r (s' : ReadState E),
  untouched s -> read_loop F fuel d 4294967296 s = Some (r, s') -> untouched s'.
Proof.
  assert (Hwe : forall (s : ReadState E) e, untouched s -> untouched (with_engine s e))
    by (intros s e Hu; exact Hu).
  assert (Hsd : forall (s : ReadState E) e, untouched s -> untouched (start_draining s e))
    by (intros s e Hu; exact Hu).
  induction fuel as [|fuel IH]; intros s r s' Hu; simpl; [discriminate|].
  destruct (negb (frames_read s <? 4294967296)); [intros [= <- <-]; assumption|].
  destruct (call F avcodec_receive_frame (rs_engine s)) as [ret e1].
  destruct (ret =? 0).
  { destruct (resample_untouched (Some (frame_nb_samples F e1)) _ (Hwe s e1 Hu))
      as [_ Hu2].
    destruct (resample F d 4294967296 _ (with_engine s e1)) as [out s2].
    cbn [snd] in Hu2. apply IH, Hwe, Hu2. }
  destruct (ret =? AVERROR_EOF).
  { destruct (drain_resampler F fuel d 4294967296 (with_engine s e1)) as [s1|] eqn:Hd;
      [|discriminate].
    intros [= <- <-]. eapply drain_resampler_untouched; [|exact Hd]. apply Hwe, Hu. }
  destruct (negb (ret =? AVERROR EAGAIN)); [intros [= <- <-]; apply Hwe, Hu|].
  destruct (draining s); [intros [= <- <-]; apply Hwe, Hu|].
  destruct (call F av_read_frame _) as [read_ret e3].
  destruct (read_ret =? 0).
  { destruct (packet_stream_index F e3 =? stream_index d).
    - destruct (call F (avcodec_send_packet true) e3) as [sent e4].
      destruct (sent <? 0).
      + intros [= <- <-]; apply Hwe, Hu.
      + apply IH, Hwe, Hu.
    - apply IH, Hwe, Hu. }
  destruct (read_ret =? AVERROR_EOF).
  - apply IH, Hsd, Hu.
  - intros [= <- <-]; apply Hwe, Hu.
Qed.

End OversizedRequest.

(** Over any engine whose [swr_convert] outputs no more than the space it is
    offered, a call of [sf_decoder_read_pcm_frames] for 2^32 frames that
    returns reports zero frames and has stored nothing, whatever the stream
    holds: the space it offers is [(int)4294967296 = 0] throughout. *)
Theorem request_of_2_32_frames_reads_nothing {U E : Type} (F : FFmpeg U E) :
  (forall e out_count in_count,
      fst (call F (swr_convert out_count in_count) e) <= Z.max 0 out_count) ->
  forall (fuel : nat) (d : SF_Decoder) (cell : Z) (e : E) (o : ReadOutcome E),
    sf_decoder_read_pcm_frames F fuel (Some d) true 4294967296 (Some cell) e = Some o ->
    out_frames_read o = Some 0 /\ stored o = [].
Proof.
  intros Hswr fuel d cell e o. unfold sf_decoder_read_pcm_frames.
  change (4294967296 <=? 0) with false. cbv iota.
  destruct (read_loop F fuel d 4294967296 _) as [[r s]|] eqn:Hloop; [|discriminate].
  intros [= <-]. cbn [out_frames_read stored].
  assert (Hu : untouched s)
    by (eapply (read_loop_untouched F Hswr); [|exact Hloop]; repeat split).
  destruct Hu as (Hf & Hw & _).
  rewrite Hf, Hw. split; reflexivity.
Qed.

Lemma request_of_2_32_frames_reads_nothing_witness :
  match sf_decoder_read_pcm_frames RefDec.engine 20 (Some RefDec.stereo16) true
          4294967296 (Some 0) RefDec.three_packets with
  | Some o => out_frames_read o = Some 0 /\ stored o = []
  | None => False
  end.
Proof.
  destruct (sf_decoder_read_pcm_frames _ _ _ _ _ _ _) as [o|] eqn:Hrun;
    [|vm_compute in Hrun; discriminate].
  exact (request_of_2_32_frames_reads_nothing RefDec.engine RefDec_swr_within_space
           20 RefDec.stereo16 0 RefDec.three_packets o Hrun).
Defined.

(** ** Length of a stream, where a duration is declared or none is known *)

Lemma rounded_quotient_is_nearest (x c : Z) :
  0 < c -> - c < 2 * ((x + c / 2) / c * c - x) <= c.
Proof.
  intros Hc.
  pose proof (Z.div_mod (x + c / 2) c ltac:(lia)) as Hdm.
  pose proof (Z.mod_pos_bound (x + c / 2) c Hc) as Hm.
  pose proof (Z.div_mod c 2 ltac:(lia)) as Hc2.
  pose proof (Z.mod_pos_bound c 2 ltac:(lia)) as Hm2.
  lia.
Qed.

(** For an initialised decoder whose selected stream exists and declares a
    duration, an [int64_t] other than [AV_NOPTS_VALUE]: when the stream's
    time base is one over a positive sample rate,
    [sf_decoder_get_length_in_pcm_frames] returns the duration itself,
    whatever its sign; when the duration is not negative and the time base
    and the sample rate are positive, it returns the duration times the
    time base times the sample rate rounded to the nearest integer, a half
    upwards, or [INT64_MIN] when that integer does not fit an [int64_t].
    When neither the stream nor the container declares a duration, it
    returns 0. *)
Theorem length_of_declared_or_unknown_duration {U E : Type} (F : FFmpeg U E)
    (d : SF_Decoder) (e : E) (stream : AVStream) :
  format_ctx d = true ->
  0 <= stream_index d ->
  nth_error (streams F e) (Z.to_nat (stream_index d)) = Some stream ->
  INT64_MIN <= duration stream <= INT64_MAX ->
  (duration stream <> AV_NOPTS_VALUE ->
   0 < codecpar_sample_rate stream ->
   time_base stream = {| num := 1; den := codecpar_sample_rate stream |} ->
   sf_decoder_get_length_in_pcm_frames F (Some d) e = Some (duration stream)) /\
  (duration stream <> AV_NOPTS_VALUE ->
   0 <= duration stream ->
   0 < num (time_base stream) -> 0 < den (time_base stream) ->
   0 < codecpar_sample_rate stream ->
   exists q : Z,
     - den (time_base stream)
       < 2 * (q * den (time_base stream)
              - duration stream
                * (num (time_base stream) * codecpar_sample_rate stream))
       <= den (time_base stream) /\
     sf_decoder_get_length_in_pcm_frames F (Some d) e
       = Some (if INT64_MAX <? q then INT64_MIN else q)) /\
  (duration stream = AV_NOPTS_VALUE ->
   format_duration F e = AV_NOPTS_VALUE ->
   sf_decoder_get_length_in_pcm_frames F (Some d) e = Some 0).
Proof.
  intros Hfc Hidx Hnth Hint. unfold sf_decoder_get_length_in_pcm_frames.
  rewrite Hfc. replace (stream_index d <? 0) with false by (symmetry; apply Z.ltb_ge; lia).
  cbn [negb orb]. rewrite Hnth.
  assert (Hdecl : duration stream <> AV_NOPTS_VALUE ->
                  negb (duration stream =? AV_NOPTS_VALUE) = true)
    by (intros H; apply Z.eqb_neq in H; rewrite H; reflexivity).
  split; [|split].
  - intros Hd Hrate Htb. rewrite (Hdecl Hd), Htb. f_equal.
    unfold av_rescale_q, av_rescale. cbn [num den].
    set (r := codecpar_sample_rate stream) in *.
    replace (1 * r) with r by lia.
    replace (r <=? 0) with false by (symmetry; apply Z.leb_gt; lia).
    replace (r <? 0) with false by (symmetry; apply Z.ltb_ge; lia).
    cbn [orb].
    assert (Hhalf : 0 <= r / 2 < r)
      by (split; [apply Z.div_pos; lia | apply Z.div_lt_upper_bound; lia]).
    unfold AV_NOPTS_VALUE in Hd.
    replace (Z.max (duration stream) (- INT64_MAX)) with (duration stream)
      by (unfold INT64_MIN, INT64_MAX in *; lia).
    rewrite Z.div_add_l by lia. rewrite (Z.div_small (r / 2)) by lia.
    replace (INT64_MAX <? Z.abs (duration stream) + 0) with false
      by (symmetry; apply Z.ltb_ge; unfold INT64_MIN, INT64_MAX in *; lia).
    destruct (duration stream <? 0) eqn:Hneg;
      [apply Z.ltb_lt in Hneg | apply Z.ltb_ge in Hneg]; lia.
  - intros Hd Hpos Hnum Hden Hrate. rewrite (Hdecl Hd).
    unfold av_rescale_q, av_rescale. cbn [num den].
    set (n := num (time_base stream)) in *. set (c := den (time_base stream)) in *.
    set (r := codecpar_sample_rate stream) in *.
    replace (1 * c) with c by lia.
    replace (c <=? 0) with false by (symmetry; apply Z.leb_gt; lia).
    replace (n * r <? 0) with false by (symmetry; apply Z.ltb_ge; nia).
    cbn [orb].
    replace (Z.max (duration stream) (- INT64_MAX)) with (duration stream)
      by (unfold INT64_MAX; lia).
    rewrite Z.abs_eq by lia.
    replace (duration stream <? 0) with false by (symmetry; apply Z.ltb_ge; lia).
    exists ((duration stream * (n * r) + c / 2) / c).
    split; [apply rounded_quotient_is_nearest; lia | reflexivity].
  - intros Hd Hc. rewrite Hd, Hc. reflexivity.
Qed.

Lemma length_of_declared_or_unknown_duration_witness :
  sf_decoder_get_length_in_pcm_frames RefDec.engine (Some RefDec.stereo16)
    (RefDec.opened RefDec.flac_media []) = Some 88200.
Proof.
  apply (proj1 (length_of_declared_or_unknown_duration RefDec.engine
                  RefDec.stereo16 (RefDec.opened RefDec.flac_media [])
                  {| duration := 88200;
                     time_base := {| num := 1; den := 44100 |};
                     codecpar_sample_rate := 44100 |}
                  eq_refl ltac:(simpl; lia) eq_refl
                  ltac:(unfold INT64_MIN, INT64_MAX; simpl; lia))).
  - discriminate.
  - simpl; lia.
  - reflexivity.
Defined.

(** ** Reads that stop short of the end, for requests that fit an [int] *)

Section PartialReads.
Import RefDec.

Variable d : SF_Decoder.
Variable frameCount : Z.
Hypothesis frameCount_int : frameCount <= INT_MAX.

Ltac run_ref :=
  unfold with_engine, start_draining, resample;
  cbn [call engine handle rs_engine out_ptr frames_read draining written
       media container packet decoded end_of_input frame buffered
       frame_nb_samples packet_stream_index stream_of fst snd andb negb
       Z.eqb Pos.eqb].

Lemma drain_delivers (s : ReadState State) (fuel : nat) :
  container (rs_engine s) = [] -> decoded (rs_engine s) = [] ->
  end_of_input (rs_engine s) = true -> 0 <= buffered (rs_engine s) ->
  0 <= frames_read s < frameCount ->
  exists s', drain_resampler engine (S (S fuel)) d frameCount s = Some s' /\
    delivered d frameCount s s'.
Proof.
  destruct s as [[m c pk dec eoi frm buf] op fr dr wr].
  cbn [rs_engine frames_read container decoded end_of_input buffered].
  intros -> -> -> Hb Hfr.
  assert (Hcap : to_int (frameCount - fr) = frameCount - fr)
    by (apply to_int_id; unfold INT_MAX in *; lia).
  remember (S fuel) as fuel1 eqn:Hfuel1.
  cbn [drain_resampler]. run_ref. rewrite Hcap.
  replace (frameCount - fr <? 0) with false by (symmetry; apply Z.ltb_ge; lia).
  replace (buf + 0) with buf by lia.
  unfold delivered, remaining, sound, steps_to_end.
  destruct (0 <? Z.min (frameCount - fr) buf) eqn:Hpos.
  - apply Z.ltb_lt in Hpos. run_ref.
    rewrite to_int64_id by (unfold INT64_MIN, INT64_MAX, INT_MAX in *; lia).
    destruct (fr + Z.min (frameCount - fr) buf <? frameCount) eqn:Hmore.
    + apply Z.ltb_lt in Hmore. subst fuel1.
      assert (Hall : Z.min (frameCount - fr) buf = buf) by lia. rewrite Hall.
      cbn [drain_resampler]. run_ref.
      rewrite (to_int_id (frameCount - (fr + buf))) by (unfold INT_MAX in *; lia).
      replace (frameCount - (fr + buf) <? 0) with false by (symmetry; apply Z.ltb_ge; lia).
      replace (Z.min (frameCount - (fr + buf)) (buf - buf + 0)) with 0 by lia.
      run_ref. eexists. split; [reflexivity|]. cbn. repeat split; try lia.
    + apply Z.ltb_ge in Hmore.
      eexists. split; [reflexivity|]. cbn. repeat split; try lia.
  - apply Z.ltb_ge in Hpos. run_ref.
    eexists. split; [reflexivity|]. cbn. repeat split; try lia.
Qed.


Lemma delivered_step (s1 s s' : ReadState State) :
  frames_read s1 + remaining (stream_index d) (rs_engine s1)
    = frames_read s + remaining (stream_index d) (rs_engine s) ->
  (steps_to_end (rs_engine s1) <= steps_to_end (rs_engine s))%nat ->
  delivered d frameCount s1 s' -> delivered d frameCount s s'.
Proof.
  unfold delivered. intros <- Hsteps (Hf & Hs & Hr & Hn).
  repeat split; try assumption; try apply Hs. lia.
Qed.

Lemma delivered_refl (s : ReadState State) :
  sound (rs_engine s) -> frames_read s = frameCount -> delivered d frameCount s s.
Proof.
  intros Hs Hfr. unfold delivered.
  pose proof (remaining_nonneg d (rs_engine s) (proj1 (proj2 (proj2 Hs)))).
  repeat split; try apply Hs; lia.
Qed.


Ltac by_step IH :=
  match goal with
  | |- exists s', read_loop engine ?f ?d ?fc ?st = _ /\ _ =>
      let s' := fresh "s'" in
      let Hl := fresh "Hl" in
      let Hd := fresh "Hd" in
      destruct (IH st f) as (s' & Hl & Hd);
      [ ..
      | exists s'; split;
        [exact Hl | apply (delivered_step st); [| |exact Hd]]]
  end.

Ltac side_goal :=
  unfold remaining, steps_to_end; run_ref;
  cbn [fold_right List.length app frames_in];
  rewrite ?length_app; cbn [List.length];
  try match goal with
      | H : (?a =? ?b) = _ |- context [?a =? ?b] => rewrite H
      end;
  first
    [ lia | assumption | discriminate
    | solve [repeat split; cbn;
             first [assumption | reflexivity | lia | discriminate
                   | intros; reflexivity]] ].

Lemma read_delivers : forall (n : nat) (s : ReadState State) (fuel : nat),
  (steps_to_end (rs_engine s) <= n)%nat -> (n + 3 <= fuel)%nat ->
  sound (rs_engine s) -> 0 <= frames_read s <= frameCount ->
  (draining s = true -> end_of_input (rs_engine s) = true) ->
  exists s', read_loop engine fuel d frameCount s = Some (SF_RESULT_SUCCESS, s') /\
    delivered d frameCount s s'.
Proof.
  assert (Hfull : forall (s : ReadState State) (fuel : nat),
    sound (rs_engine s) -> frames_read s = frameCount ->
    exists s', read_loop engine (S fuel) d frameCount s = Some (SF_RESULT_SUCCESS, s') /\
      delivered d frameCount s s').
  { intros s fuel Hs Hfr. exists s. split; [|apply delivered_refl; assumption].
    cbn [read_loop]. rewrite Hfr, Z.ltb_irrefl. reflexivity. }
  assert (Hfinal : forall (s : ReadState State) (fuel : nat),
    (3 <= fuel)%nat -> sound (rs_engine s) -> 0 <= frames_read s < frameCount ->
    container (rs_engine s) = [] -> decoded (rs_engine s) = [] ->
    end_of_input (rs_engine s) = true ->
    exists s', read_loop engine fuel d frameCount s = Some (SF_RESULT_SUCCESS, s') /\
      delivered d frameCount s s').
  { intros s fuel Hfuel (_ & _ & Hb & _) Hfr Hc Hd He.
    destruct fuel as [|[|[|fuel]]]; try lia.
    destruct (drain_delivers s fuel Hc Hd He Hb Hfr) as (s' & Hl & Hdel).
    exists s'. split; [|exact Hdel].
    destruct s as [[m c pk dec eoi frm buf] op fr dr wr].
    cbn [rs_engine frames_read container decoded end_of_input buffered] in *. subst.
    remember (S (S fuel)) as fuel2.
    cbn [read_loop frames_read].
    replace (fr <? frameCount) with true by (symmetry; apply Z.ltb_lt; lia).
    run_ref.
    replace (AVERROR_EOF =? 0) with false by reflexivity.
    rewrite ?Z.eqb_refl.
    unfold with_engine in Hl. cbn [rs_engine out_ptr frames_read draining written] in Hl.
    rewrite Hl. reflexivity. }
  induction n as [|n IH]; intros s fuel Hn Hfuel Hsound Hfr Hdr.
  { destruct (Z.eq_dec (frames_read s) frameCount) as [Heq|Hne].
    { destruct fuel; [lia|]. apply Hfull; assumption. }
    apply Hfinal; try assumption; try lia.
    - unfold steps_to_end in Hn. destruct (container (rs_engine s)); [reflexivity|cbn in Hn; lia].
    - unfold steps_to_end in Hn. destruct (decoded (rs_engine s)); [reflexivity|cbn in Hn; lia].
    - unfold steps_to_end in Hn. destruct (end_of_input (rs_engine s)); [reflexivity|lia]. }
  destruct fuel as [|fuel]; [lia|].
  destruct (Z.eq_dec (frames_read s) frameCount) as [Heq|Hne].
  { apply Hfull; assumption. }
  destruct s as [[m c pk dec eoi frm buf] op fr dr wr].
  destruct dec as [|[k|] q].
  - destruct eoi.
    { apply Hfinal; try assumption; try lia; try reflexivity.
      destruct Hsound as (_ & _ & _ & Hse). apply Hse. reflexivity. }
    assert (dr = false) as -> by (destruct dr; [discriminate (Hdr eq_refl) | reflexivity]).
    destruct Hsound as (Hsc & Hsd & Hsb & Hse).
    unfold steps_to_end in *.
    cbn [rs_engine frames_read draining container decoded buffered end_of_input] in *.
    cbn [read_loop frames_read].
    replace (fr <? frameCount) with true by (symmetry; apply Z.ltb_lt; lia).
    run_ref.
    replace (AVERROR EAGAIN =? 0) with false by reflexivity.
    replace (AVERROR EAGAIN =? AVERROR_EOF) with false by reflexivity.
    rewrite ?Z.eqb_refl. run_ref.
    destruct c as [|[st k| | |] c]; try discriminate Hsc.
    + run_ref.
      replace (AVERROR_EOF =? 0) with false by reflexivity.
      rewrite ?Z.eqb_refl. run_ref.
      by_step IH; side_goal.
    + run_ref. rewrite ?Z.eqb_refl.
      cbn [forallb sound_packet andb] in Hsc.
      cbn [fold_right frames_in List.length] in *.
      destruct (st =? stream_index d) eqn:Hst.
      * run_ref. replace (0 <? 0) with false by reflexivity.
        by_step IH; side_goal.
      * run_ref.
        by_step IH; side_goal.
  - destruct Hsound as (Hsc & Hsd & Hsb & Hse).
    unfold steps_to_end in *.
    cbn [rs_engine frames_read draining container decoded buffered end_of_input] in *.
    cbn [forallb sound_frame andb] in Hsd.
    cbn [fold_right List.length] in *.
    assert (Hcap : to_int (frameCount - fr) = frameCount - fr)
      by (apply to_int_id; unfold INT_MAX in *; lia).
    cbn [read_loop frames_read].
    replace (fr <? frameCount) with true by (symmetry; apply Z.ltb_lt; lia).
    run_ref. rewrite Hcap.
    replace (frameCount - fr <? 0) with false by (symmetry; apply Z.ltb_ge; lia).
    destruct (0 <? Z.min (frameCount - fr) (buf + Z.max 0 k)) eqn:Hpos.
    + apply Z.ltb_lt in Hpos. run_ref.
      rewrite to_int64_id by (unfold INT64_MIN, INT64_MAX, INT_MAX in *; lia).
      by_step IH; side_goal.
    + apply Z.ltb_ge in Hpos. run_ref.
      by_step IH; side_goal.
  - destruct Hsound as (_ & Hsd & _). discriminate Hsd.
Qed.

End PartialReads.

(** On the reference engine, for a sound state and a request that fits an
    [int]: a read returns success with the smaller of the request and the
    frames remaining, leaves a sound state with exactly that many frames
    fewer remaining, and needs no more iterations afterwards than before. *)
Theorem read_delivers_request_or_rest (d : SF_Decoder) (frameCount cell : Z)
    (e : RefDec.State) (fuel : nat) :
  RefDec.sound e ->
  0 < frameCount <= INT_MAX ->
  (RefDec.steps_to_end e + 3 <= fuel)%nat ->
  exists o : ReadOutcome RefDec.State,
    sf_decoder_read_pcm_frames RefDec.engine fuel (Some d) true frameCount (Some cell) e
      = Some o /\
    read_result o = SF_RESULT_SUCCESS /\
    out_frames_read o
      = Some (Z.min frameCount (RefDec.remaining (stream_index d) e)) /\
    RefDec.sound (read_engine o) /\
    RefDec.remaining (stream_index d) (read_engine o)
      = RefDec.remaining (stream_index d) e
        - Z.min frameCount (RefDec.remaining (stream_index d) e) /\
    (RefDec.steps_to_end (read_engine o) <= RefDec.steps_to_end e)%nat.
Proof.
  intros Hsound [Hpos Hint] Hfuel.
  unfold sf_decoder_read_pcm_frames.
  replace (frameCount <=? 0) with false by (symmetry; apply Z.leb_gt; lia).
  destruct (read_delivers d frameCount Hint (RefDec.steps_to_end e) (RefDec.entry e) fuel)
    as (s' & Hl & Hf & Hs & Hr & Hn); simpl; try lia; try assumption; try discriminate.
  unfold RefDec.entry in Hl. rewrite Hl. simpl in Hf, Hr, Hn.
  eexists. split; [reflexivity|]. cbn [read_result out_frames_read read_engine].
  split; [reflexivity|]. split; [f_equal; exact Hf|].
  split; [exact Hs|]. split; [lia | exact Hn].
Qed.

Lemma read_delivers_request_or_rest_witness :
  exists o : ReadOutcome RefDec.State,
    sf_decoder_read_pcm_frames RefDec.engine 10 (Some RefDec.stereo16) true 5 (Some 0)
      RefDec.three_packets = Some o /\
    read_result o = SF_RESULT_SUCCESS /\
    out_frames_read o
      = Some (Z.min 5 (RefDec.remaining (stream_index RefDec.stereo16)
                         RefDec.three_packets)) /\
    RefDec.sound (read_engine o) /\
    RefDec.remaining (stream_index RefDec.stereo16) (read_engine o)
      = RefDec.remaining (stream_index RefDec.stereo16) RefDec.three_packets
        - Z.min 5 (RefDec.remaining (stream_index RefDec.stereo16) RefDec.three_packets) /\
    (RefDec.steps_to_end (read_engine o) <= RefDec.steps_to_end RefDec.three_packets)%nat.
Proof.
  apply (read_delivers_request_or_rest RefDec.stereo16 5 0 RefDec.three_packets 10).
  - repeat split; solve [reflexivity | simpl; lia | discriminate].
  - vm_compute. split; [reflexivity | discriminate].
  - vm_compute. lia.
Defined.

(** ** The result strings *)

(** Two results with the same message are the same result; no result has
    the message of the default case; every value that is not a result's has
    it. *)
Theorem result_strings_identify_results :
  (forall r1 r2 : SF_Result,
     sf_result_to_string (SF_Result_value r1) = sf_result_to_string (SF_Result_value r2) ->
     r1 = r2) /\
  (forall z : Z,
     sf_result_to_string z = "Unknown error"%string <->
     forall r : SF_Result, SF_Result_value r <> z).
Proof.
  split.
  - intros r1 r2. destruct r1; destruct r2; intros H; try reflexivity;
      vm_compute in H; discriminate H.
  - intros z. split.
    + intros H r <-. destruct r; vm_compute in H; discriminate H.
    + intros H. unfold sf_result_to_string.
      repeat match goal with
             | |- context [z =? SF_Result_value ?r] =>
                 replace (z =? SF_Result_value r) with false
                   by (symmetry; apply Z.eqb_neq; intros Heq; apply (H r); symmetry; exact Heq)
             end.
      reflexivity.
Qed.

(** ** What a decoder's initialisation leaves *)

Section DecoderInit.
Context {U E : Type} (F : FFmpeg U E).

(** Run the stages of an initialiser on an arbitrary engine: name the
    result of each call in turn and split on each test. *)
Ltac run_stages :=
  unfold stage_bind, ffcall, update, unless, return_, stage_ret, peek;
  cbn [fst snd];
  repeat first
    [ match goal with
      | |- context [call F ?c ?e] =>
          let r := fresh "r" in
          let e1 := fresh "e" in
          let Hc := fresh "Hcall" in
          destruct (call F c e) as [r e1] eqn:Hc; cbn [fst snd]
      end
    | match goal with
      | |- context [if ?b then _ else _] =>
          let Hb := fresh "Hb" in destruct b eqn:Hb; cbn [fst snd]
      end ].

(** A successful [sf_decoder_init] leaves a decoder that the other calls
    accept: the format context is set and the stream index is not negative;
    the target format was a known one, and the size of a sample is the one
    of that format, 24-bit samples taking four bytes; the three out-pointers
    were written, the channel count reported is the one the decoder lays
    frames out with, and the native format reported is never the 24-bit
    one. *)
Theorem decoder_init_success_establishes (d : SF_Decoder) (target : SFSampleFormat)
    (e : E) (d' : option SF_Decoder) (info : option DecoderInfo) (e' : E) :
  sf_decoder_init F (Some d) target e = (SF_RESULT_SUCCESS, d', info, e') ->
  exists dec i,
    d' = Some dec /\ info = Some i /\
    format_ctx dec = true /\ 0 <= stream_index dec /\
    target <> SF_SAMPLE_FORMAT_UNKNOWN /\
    target_bytes_per_sample dec
      = match target with
        | SF_SAMPLE_FORMAT_U8 => 1
        | SF_SAMPLE_FORMAT_S16 => 2
        | _ => 4
        end /\
    out_channels i = to_uint32 (target_channels dec) /\
    out_native_format i <> SF_SAMPLE_FORMAT_S24.
Proof.
  unfold sf_decoder_init, decoder_stages.
  run_stages.
  all: try discriminate.
  all: intros [= <- <- <-].
  all: eexists; eexists; split; [reflexivity|]; split; [reflexivity|].
  all: cbn [format_ctx stream_index target_bytes_per_sample target_channels
            out_channels out_native_format fst snd].
  all: repeat split; try reflexivity; try (apply Z.ltb_ge; assumption);
       try (destruct target; try discriminate; reflexivity).
  all: try (destruct (codec_sample_fmt F _); discriminate).
Qed.

(** [sf_decoder_init] writes the out-pointers exactly when it got as far as
    opening the codec: on success and on the three failures that can follow;
    after any other failure they hold what they held.  The target format is
    checked only then: [SF_RESULT_DECODER_ERROR_INVALID_TARGET_FORMAT] is
    returned for the unknown format and for no other, with the stream's
    parameters already reported and the decoder's sample size and channel
    count not yet set; for the unknown format the initialisation never
    succeeds. *)
Theorem decoder_init_reports_before_checking_target (d : SF_Decoder)
    (target : SFSampleFormat) (e : E) (r : SF_Result) (d' : option SF_Decoder)
    (info : option DecoderInfo) (e' : E) :
  sf_decoder_init F (Some d) target e = (r, d', info, e') ->
  (after_codec_open r = true <-> info <> None) /\
  (target = SF_SAMPLE_FORMAT_UNKNOWN -> r <> SF_RESULT_SUCCESS) /\
  (r = SF_RESULT_DECODER_ERROR_INVALID_TARGET_FORMAT ->
   target = SF_SAMPLE_FORMAT_UNKNOWN /\
   exists dec, d' = Some dec /\
     target_bytes_per_sample dec = target_bytes_per_sample d /\
     target_channels dec = target_channels d).
Proof.
  unfold sf_decoder_init, decoder_stages.
  run_stages.
  all: intros [= <- <- <- <-].
  all: split; [split; [try discriminate; intros _; discriminate
                      | try reflexivity; intros H; exfalso; apply H; reflexivity]|].
  all: split; [try discriminate; intros ->; discriminate|].
  all: try discriminate.
  all: intros _; split; [destruct target; try discriminate; reflexivity|].
  all: eexists; split; [reflexivity|]; split; reflexivity.
Qed.

End DecoderInit.

Lemma decoder_init_success_establishes_witness :
  exists dec i,
    Some RefDec.stereo16 = Some dec /\
    Some {| out_native_format := SF_SAMPLE_FORMAT_S16; out_channels := 2;
            out_samplerate := 44100 |} = Some i /\
    format_ctx dec = true /\ 0 <= stream_index dec /\
    SF_SAMPLE_FORMAT_S16 <> SF_SAMPLE_FORMAT_UNKNOWN /\
    target_bytes_per_sample dec = 2 /\
    out_channels i = to_uint32 (target_channels dec) /\
    out_native_format i <> SF_SAMPLE_FORMAT_S24.
Proof.
  apply (decoder_init_success_establishes RefDec.engine sf_decoder_create
           SF_SAMPLE_FORMAT_S16 RefDec.three_packets (Some RefDec.stereo16)
           (Some {| out_native_format := SF_SAMPLE_FORMAT_S16; out_channels := 2;
                    out_samplerate := 44100 |})
           RefDec.three_packets).
  vm_compute. reflexivity.
Defined.

Lemma decoder_init_reports_before_checking_target_witness :
  let d' := {| format_ctx := true; stream_index := 0;
               target_bytes_per_sample := 0; target_channels := 0 |} in
  let info := Some {| out_native_format := SF_SAMPLE_FORMAT_S16; out_channels := 2;
                      out_samplerate := 44100 |} in
  (after_codec_open SF_RESULT_DECODER_ERROR_INVALID_TARGET_FORMAT = true <->
   info <> None) /\
  (SF_SAMPLE_FORMAT_UNKNOWN = SF_SAMPLE_FORMAT_UNKNOWN ->
   SF_RESULT_DECODER_ERROR_INVALID_TARGET_FORMAT <> SF_RESULT_SUCCESS) /\
  (SF_RESULT_DECODER_ERROR_INVALID_TARGET_FORMAT
     = SF_RESULT_DECODER_ERROR_INVALID_TARGET_FORMAT ->
   SF_SAMPLE_FORMAT_UNKNOWN = SF_SAMPLE_FORMAT_UNKNOWN /\
   exists dec, Some d' = Some dec /\
     target_bytes_per_sample dec = target_bytes_per_sample sf_decoder_create /\
     target_channels dec = target_channels sf_decoder_create).
Proof.
  intros d' info.
  apply (decoder_init_reports_before_checking_target RefDec.engine sf_decoder_create
           SF_SAMPLE_FORMAT_UNKNOWN RefDec.three_packets
           SF_RESULT_DECODER_ERROR_INVALID_TARGET_FORMAT (Some d') info
           RefDec.three_packets).
  vm_compute. reflexivity.
Defined.

(** ** The header, the input format and the trailer *)

Section EncoderInitLog.
Context {U E : Type} (F : FFmpeg U E).

(** Split a list of calls written out in full at its header call. *)
Ltac at_header l :=
  lazymatch l with
  | avformat_write_header :: ?rest => constr:((@nil (Call U), rest))
  | ?c :: ?rest =>
      let p := at_header rest in
      lazymatch p with
      | (?b, ?a) => constr:((c :: b, a))
      end
  end.

Ltac give_header_split :=
  lazymatch goal with
  | |- exists before after, ?l ++ ?log = _ /\ _ =>
      let p := at_header log in
      lazymatch p with
      | (?b, ?a) => exists b, a; split; [reflexivity | split; reflexivity]
      end
  | |- exists before, ?l ++ ?log = _ /\ _ =>
      let p := at_header log in
      lazymatch p with
      | (?b, _) => exists b; split; reflexivity
      end
  end.

Lemma encoder_init_log_any enc0 name onW fmt ch rate e l r enc e' l' :
  sf_encoder_init (Logged F) (Some enc0) name onW fmt ch rate (e, l)
    = (r, enc, (e', l')) ->
  (after_header r = false ->
   exists before, l' = l ++ before /\ none_of is_landmark before) /\
  (after_header r = true ->
   exists before after,
     l' = l ++ before ++ [avformat_write_header] ++ after /\
     none_of is_landmark before /\ none_of is_landmark after) /\
  (r = SF_RESULT_ENCODER_ERROR_INVALID_INPUT_FORMAT ->
   fmt = SF_SAMPLE_FORMAT_UNKNOWN /\
   exists before,
     l' = l ++ before ++ [avformat_write_header] /\ none_of is_landmark before) /\
  (fmt = SF_SAMPLE_FORMAT_UNKNOWN -> r <> SF_RESULT_SUCCESS).
Proof.
  unfold sf_encoder_init, encoder_stages.
  unfold stage_bind, ffcall, update, unless, return_, stage_ret, peek.
  cbn [fst snd].
  repeat first
    [ rewrite logged_call; cbn [fst snd]
    | match goal with
      | |- context [if ?b then _ else _] => destruct b eqn:?
      | |- context [match codec_sample_fmts ?G ?w with _ => _ end] =>
          destruct (codec_sample_fmts G w)
      end; cbn [fst snd] ].
  all: intros [= <- _ <- <-].
  all: rewrite <- ?app_assoc; cbn [app].
  all: split; [try discriminate; intros _; eexists; split; reflexivity|].
  all: split; [try discriminate; intros _; give_header_split|].
  all: split;
    [ first
        [ discriminate
        | intros _; split;
          [ destruct fmt; try reflexivity; discriminate | give_header_split ] ] | ].
  all: try discriminate.
  all: intros ->; discriminate.
Qed.

(** The input format is checked after the header has been written: when
    [sf_encoder_init] returns
    [SF_RESULT_ENCODER_ERROR_INVALID_INPUT_FORMAT], which it does for the
    unknown format only, [avformat_write_header] was its last engine call;
    and for the unknown format it never succeeds. *)
Theorem input_format_checked_after_header enc0 name onW fmt ch rate e r enc e' log :
  sf_encoder_init (Logged F) (Some enc0) name onW fmt ch rate (e, []) = (r, enc, (e', log)) ->
  (r = SF_RESULT_ENCODER_ERROR_INVALID_INPUT_FORMAT ->
   fmt = SF_SAMPLE_FORMAT_UNKNOWN /\
   exists before,
     log = before ++ [avformat_write_header] /\ none_of is_landmark before) /\
  (fmt = SF_SAMPLE_FORMAT_UNKNOWN -> r <> SF_RESULT_SUCCESS).
Proof.
  intros H. apply encoder_init_log_any in H.
  destruct H as (_ & _ & Hfmt & Hunknown). split; [|exact Hunknown].
  intros Hr. destruct (Hfmt Hr) as (Hf & before & Hl & Hq).
  split; [exact Hf|]. exists before. split; [exact Hl | exact Hq].
Qed.


End EncoderInitLog.

Lemma input_format_checked_after_header_witness :
  fst (fst (sf_encoder_init (Logged RefEnc.engine) (Some sf_encoder_create) "wav"
              RefEnc.sink_write SF_SAMPLE_FORMAT_UNKNOWN 2 44100 (RefEnc.fresh 1000, [])))
    = SF_RESULT_ENCODER_ERROR_INVALID_INPUT_FORMAT /\
  match sf_encoder_init (Logged RefEnc.engine) (Some sf_encoder_create) "wav"
          RefEnc.sink_write SF_SAMPLE_FORMAT_UNKNOWN 2 44100 (RefEnc.fresh 1000, []) with
  | (r, _, (_, log)) =>
      (r = SF_RESULT_ENCODER_ERROR_INVALID_INPUT_FORMAT ->
       SF_SAMPLE_FORMAT_UNKNOWN = SF_SAMPLE_FORMAT_UNKNOWN /\
       exists before,
         log = before ++ [avformat_write_header] /\ none_of is_landmark before) /\
      (SF_SAMPLE_FORMAT_UNKNOWN = SF_SAMPLE_FORMAT_UNKNOWN -> r <> SF_RESULT_SUCCESS)
  end.
Proof.
  split; [vm_compute; reflexivity|].
  destruct (sf_encoder_init _ _ _ _ _ _ _ _) as [[r enc] [e' log]] eqn:Hinit.
  exact (input_format_checked_after_header RefEnc.engine sf_encoder_create "wav"
           RefEnc.sink_write SF_SAMPLE_FORMAT_UNKNOWN 2 44100 (RefEnc.fresh 1000)
           r enc e' log Hinit).
Defined.


(** ** Seeking *)

Lemma av_rescale_int64 (a b c : Z) : INT64_MIN <= av_rescale a b c <= INT64_MAX.
Proof.
  unfold av_rescale.
  destruct ((c <=? 0) || (b <? 0)) eqn:Hguard;
    [unfold INT64_MIN, INT64_MAX; lia|].
  apply orb_false_elim in Hguard. destruct Hguard as [Hc Hb].
  apply Z.leb_gt in Hc. apply Z.ltb_ge in Hb.
  set (q := (Z.abs (Z.max a (- INT64_MAX)) * b + c / 2) / c).
  assert (Hq : 0 <= q).
  { apply Z.div_pos; [|lia].
    pose proof (Z.abs_nonneg (Z.max a (- INT64_MAX))).
    assert (0 <= c / 2) by (apply Z.div_pos; lia). nia. }
  destruct (INT64_MAX <? q) eqn:Hover;
    [unfold INT64_MIN, INT64_MAX; lia|].
  apply Z.ltb_ge in Hover.
  destruct (a <? 0); unfold INT64_MIN, INT64_MAX in *; lia.
Qed.

Lemma av_rescale_q_int64 (a : Z) (bq cq : AVRational) :
  INT64_MIN <= av_rescale_q a bq cq <= INT64_MAX.
Proof. unfold av_rescale_q. apply av_rescale_int64. Qed.

Section SeekLog.
Context {U E : Type} (G : FFmpegDecoder U E).

Lemma logged_base_call c e (l : list (Call U + DecoderCall)) :
  call (base (LoggedDecoder G)) c (e, l)
  = (fst (call (base G) c e), (snd (call (base G) c e), l ++ [inl c])).
Proof. simpl. destruct (call (base G) c e); reflexivity. Qed.

Lemma logged_decoder_call c e (l : list (Call U + DecoderCall)) :
  decoder_call (LoggedDecoder G) c (e, l)
  = (fst (decoder_call G c e), (snd (decoder_call G c e), l ++ [inr c])).
Proof. simpl. destruct (decoder_call G c e); reflexivity. Qed.

Lemma dropped_sends_nothing (k : nat) :
  forallb (fun c => negb (@is_send_packet U c)) (dropped k) = true.
Proof. induction k as [|k IH]; [reflexivity | exact IH]. Qed.

Lemma skip_packets_log d fuel : forall e l e' l',
  skip_packets (LoggedDecoder G) fuel d (e, l) = Some (e', l') ->
  exists k last,
    l' = l ++ dropped k ++ last /\
    (last = [] /\ (1 <= k)%nat \/ last = [inr pkt_read_frame]).
Proof.
  induction fuel as [|fuel IH]; intros e l e' l'; [discriminate|].
  cbn [skip_packets]. rewrite logged_decoder_call.
  destruct (negb (0 <=? fst (decoder_call G pkt_read_frame e))).
  { intros [= <- <-]. exists 0%nat, [inr pkt_read_frame].
    split; [reflexivity | right; reflexivity]. }
  cbn [pkt_stream_index LoggedDecoder fst snd].
  destruct (pkt_stream_index G _ =? stream_index d).
  { rewrite logged_decoder_call. cbn [fst snd]. intros [= <- <-].
    exists 1%nat, []. split; [rewrite <- !app_assoc; reflexivity | left; split; [reflexivity | lia]]. }
  rewrite logged_decoder_call. cbn [fst snd].
  intros H. apply IH in H. destruct H as (k & last & -> & Hlast).
  exists (S k), last. split; [rewrite <- !app_assoc; reflexivity|].
  destruct Hlast as [[-> Hk] | ->]; [left; split; [reflexivity | lia] | right; reflexivity].
Qed.

(** Over any engine, a seek that reports success has handed nothing to the
    codec: after the flush, the reset of the resampler and the seek in the
    container, at the timestamp of the frame in the stream's time base as
    [av_rescale_q] gives it, an [int64_t], it has read packets into a packet of its own and unreferenced every one of
    them, the first packet of the selected stream included, on which it
    stops.  It reports success as well when no packet of the stream came:
    then the last call before the release of the packet is a read that
    failed. *)
Theorem seek_drops_the_packets_it_reads fuel d frameIndex e e' log :
  sf_decoder_seek_to_pcm_frame (LoggedDecoder G) fuel (Some d) frameIndex (e, [])
    = Some (SF_RESULT_SUCCESS, (e', log)) ->
  exists stream k last,
    nth_error (streams (base G) e) (Z.to_nat (stream_index d)) = Some stream /\
    log = [inr avcodec_flush_buffers; inl swr_init;
           inr (av_seek_frame (stream_index d)
                  (av_rescale_q frameIndex
                     {| num := 1; den := codecpar_sample_rate stream |}
                     (time_base stream)));
           inr pkt_alloc]
          ++ dropped k ++ last ++ [inr pkt_free] /\
    (last = [] /\ (1 <= k)%nat \/ last = [inr pkt_read_frame]) /\
    forallb (fun c => negb (is_send_packet c)) log = true /\
    INT64_MIN <= av_rescale_q frameIndex
                   {| num := 1; den := codecpar_sample_rate stream |}
                   (time_base stream) <= INT64_MAX.
Proof.
  unfold sf_decoder_seek_to_pcm_frame.
  destruct (negb (format_ctx d) || (stream_index d <? 0)); [discriminate|].
  cbn [streams base LoggedDecoder fst].
  destruct (nth_error (streams (base G) e) (Z.to_nat (stream_index d))) as [stream|];
    [|discriminate].
  rewrite logged_decoder_call. cbn [fst snd].
  rewrite logged_base_call. cbn [fst snd].
  rewrite logged_decoder_call. cbn [fst snd].
  destruct (fst (decoder_call G (av_seek_frame _ _) _) <? 0); [discriminate|].
  rewrite logged_decoder_call. cbn [fst snd].
  destruct (skip_packets (LoggedDecoder G) fuel d _) as [[e5 l5]|] eqn:Hskip;
    [|discriminate].
  apply skip_packets_log in Hskip. destruct Hskip as (k & last & -> & Hlast).
  rewrite logged_decoder_call. cbn [fst snd]. intros [= <- <-].
  exists stream, k, last. split; [reflexivity|].
  split; [cbn [app]; rewrite <- !app_assoc; reflexivity|].
  split; [exact Hlast|].
  split; [|apply av_rescale_q_int64].
  cbn [app forallb is_send_packet negb andb].
  rewrite !forallb_app, dropped_sends_nothing.
  destruct Hlast as [[-> _] | ->]; reflexivity.
Qed.

(** Over any engine, a seek that fails has already emptied the codec and
    reset the resampler: these two calls come before the seek in the
    container, and their results are not looked at.  The seek in the
    container was asked for the timestamp [av_rescale_q] gives, an
    [int64_t]. *)
Theorem failed_seek_has_flushed fuel d frameIndex e e' log :
  sf_decoder_seek_to_pcm_frame (LoggedDecoder G) fuel (Some d) frameIndex (e, [])
    = Some (SF_RESULT_DECODER_ERROR_SEEK_FAILED, (e', log)) ->
  exists stream,
    nth_error (streams (base G) e) (Z.to_nat (stream_index d)) = Some stream /\
    log = [inr avcodec_flush_buffers; inl swr_init;
           inr (av_seek_frame (stream_index d)
                  (av_rescale_q frameIndex
                     {| num := 1; den := codecpar_sample_rate stream |}
                     (time_base stream)))] /\
    INT64_MIN <= av_rescale_q frameIndex
                   {| num := 1; den := codecpar_sample_rate stream |}
                   (time_base stream) <= INT64_MAX.
Proof.
  unfold sf_decoder_seek_to_pcm_frame.
  destruct (negb (format_ctx d) || (stream_index d <? 0)); [discriminate|].
  cbn [streams base LoggedDecoder fst].
  destruct (nth_error (streams (base G) e) (Z.to_nat (stream_index d))) as [stream|];
    [|discriminate].
  rewrite logged_decoder_call. cbn [fst snd].
  rewrite logged_base_call. cbn [fst snd].
  rewrite logged_decoder_call. cbn [fst snd].
  destruct (fst (decoder_call G (av_seek_frame _ _) _) <? 0).
  - intros [= <- <-]. exists stream.
    split; [reflexivity|]. split; [reflexivity | apply av_rescale_q_int64].
  - rewrite logged_decoder_call. cbn [fst snd].
    destruct (skip_packets (LoggedDecoder G) fuel d _) as [[e5 l5]|]; discriminate.
Qed.

End SeekLog.

Lemma seek_drops_the_packets_it_reads_witness :
  exists stream k last,
    nth_error (streams (base RefSeek.engine) RefSeek.three_packets)
      (Z.to_nat (stream_index RefDec.stereo16)) = Some stream /\
    [inr avcodec_flush_buffers; inl (@swr_init unit); inr (av_seek_frame 0 0); inr pkt_alloc;
     inr pkt_read_frame; inr pkt_unref; inr pkt_free]
    = [inr avcodec_flush_buffers; inl (@swr_init unit);
       inr (av_seek_frame (stream_index RefDec.stereo16)
              (av_rescale_q 0 {| num := 1; den := codecpar_sample_rate stream |}
                 (time_base stream)));
       inr pkt_alloc]
      ++ dropped k ++ last ++ [inr pkt_free] /\
    (last = [] /\ (1 <= k)%nat \/ last = [inr pkt_read_frame]) /\
    forallb (fun c : Call unit + DecoderCall => negb (is_send_packet c))
      [inr avcodec_flush_buffers; inl (@swr_init unit); inr (av_seek_frame 0 0); inr pkt_alloc;
       inr pkt_read_frame; inr pkt_unref; inr pkt_free] = true /\
    INT64_MIN <= av_rescale_q 0 {| num := 1; den := codecpar_sample_rate stream |}
                   (time_base stream) <= INT64_MAX.
Proof.
  apply (seek_drops_the_packets_it_reads RefSeek.engine 10 RefDec.stereo16 0
           RefSeek.three_packets
           {| RefSeek.dec :=
                RefDec.opened RefDec.wav_media [RefDec.Audio 1 7; RefDec.Audio 0 4];
              RefSeek.file := [RefDec.Audio 0 3; RefDec.Audio 1 7; RefDec.Audio 0 4];
              RefSeek.pkt := None |}).
  vm_compute. reflexivity.
Defined.

Lemma failed_seek_has_flushed_witness :
  exists stream,
    nth_error (streams (base RefSeek.engine) RefSeek.three_packets)
      (Z.to_nat (stream_index RefDec.stereo16)) = Some stream /\
    [inr avcodec_flush_buffers; inl (@swr_init unit); inr (av_seek_frame 0 (-1))]
    = [inr avcodec_flush_buffers; inl (@swr_init unit);
       inr (av_seek_frame (stream_index RefDec.stereo16)
              (av_rescale_q (-1) {| num := 1; den := codecpar_sample_rate stream |}
                 (time_base stream)))] /\
    INT64_MIN <= av_rescale_q (-1) {| num := 1; den := codecpar_sample_rate stream |}
                   (time_base stream) <= INT64_MAX.
Proof.
  apply (failed_seek_has_flushed RefSeek.engine 10 RefDec.stereo16 (-1)
           RefSeek.three_packets RefSeek.three_packets).
  vm_compute. reflexivity.
Defined.

(** ** Seeking on the reference engine *)

Lemma av_rescale_q_same_base (a rate : Z) :
  0 <= a <= INT64_MAX -> 0 < rate ->
  av_rescale_q a {| num := 1; den := rate |} {| num := 1; den := rate |} = a.
Proof.
  intros Ha Hr. unfold av_rescale_q, av_rescale. cbn [num den].
  replace (1 * rate) with rate by lia.
  replace (rate <=? 0) with false by (symmetry; apply Z.leb_gt; lia).
  replace (rate <? 0) with false by (symmetry; apply Z.ltb_ge; lia).
  replace (a <? 0) with false by (symmetry; apply Z.ltb_ge; lia).
  cbn [orb].
  replace (Z.max a (- INT64_MAX)) with a by (unfold INT64_MAX in *; lia).
  rewrite Z.abs_eq by lia.
  rewrite Z.div_add_l by lia.
  rewrite (Z.div_small (rate / 2) rate)
    by (split; [apply Z.div_pos; lia | apply Z.div_lt; lia]).
  replace (INT64_MAX <? a + 0) with false by (symmetry; apply Z.ltb_ge; lia).
  lia.
Qed.

Lemma from_frame_sound (stream : Z) (l : list RefDec.Packet) : forall ts : Z,
  forallb RefDec.sound_packet l = true ->
  forallb RefDec.sound_packet (RefSeek.from_frame stream ts l) = true.
Proof.
  induction l as [|q l IH]; intros ts Hs; [reflexivity|].
  cbn [RefSeek.from_frame]. cbn [forallb] in Hs.
  apply andb_prop in Hs. destruct Hs as [Hq Hl].
  destruct (RefDec.frames_in stream q <=? ts); [apply IH, Hl|].
  cbn [forallb]. rewrite Hq, Hl. reflexivity.
Qed.

Lemma from_frame_length (stream : Z) (l : list RefDec.Packet) : forall ts : Z,
  (List.length (RefSeek.from_frame stream ts l) <= List.length l)%nat.
Proof.
  induction l as [|q l IH]; intros ts; [cbn; lia|].
  cbn [RefSeek.from_frame].
  destruct (RefDec.frames_in stream q <=? ts);
    [specialize (IH (ts - RefDec.frames_in stream q)); cbn [List.length]; lia | lia].
Qed.

Lemma after_first_sound (stream : Z) (l : list RefDec.Packet) :
  forallb RefDec.sound_packet l = true ->
  forallb RefDec.sound_packet (RefSeek.after_first stream l) = true.
Proof.
  induction l as [|q l IH]; intros Hs; [reflexivity|].
  cbn [RefSeek.after_first]. cbn [forallb] in Hs.
  apply andb_prop in Hs. destruct Hs as [Hq Hl].
  destruct (RefDec.stream_of q =? stream); [exact Hl | apply IH, Hl].
Qed.

Lemma after_first_length (stream : Z) (l : list RefDec.Packet) :
  (List.length (RefSeek.after_first stream l) <= List.length l)%nat.
Proof.
  induction l as [|q l IH]; [cbn; lia|].
  cbn [RefSeek.after_first].
  destruct (RefDec.stream_of q =? stream); cbn [List.length]; lia.
Qed.

Lemma skip_packets_ref (d : SF_Decoder) : forall (l : list RefDec.Packet) (fuel : nat)
    (st : RefSeek.State),
  RefDec.container (RefSeek.dec st) = l ->
  forallb RefDec.sound_packet l = true ->
  (List.length l < fuel)%nat ->
  exists st',
    skip_packets RefSeek.engine fuel d st = Some st' /\
    RefDec.container (RefSeek.dec st') = RefSeek.after_first (stream_index d) l /\
    RefDec.decoded (RefSeek.dec st') = RefDec.decoded (RefSeek.dec st) /\
    RefDec.end_of_input (RefSeek.dec st') = RefDec.end_of_input (RefSeek.dec st) /\
    RefDec.buffered (RefSeek.dec st') = RefDec.buffered (RefSeek.dec st).
Proof.
  induction l as [|p rest IH]; intros fuel st Hc Hs Hfuel;
    (destruct fuel as [|fuel]; [cbn in Hfuel; lia|]).
  - exists st. cbn [skip_packets decoder_call RefSeek.engine RefSeek.decoder_handle].
    rewrite Hc. cbn. rewrite ?Hc. repeat split; reflexivity.
  - destruct p as [s0 n| | |]; try discriminate Hs.
    cbn [forallb RefDec.sound_packet andb] in Hs.
    cbn [skip_packets decoder_call RefSeek.engine RefSeek.decoder_handle].
    rewrite Hc.
    cbn [negb Z.leb Z.compare pkt_stream_index RefSeek.engine RefSeek.pkt
         RefDec.stream_of RefSeek.after_first snd RefSeek.with_pkt RefSeek.dec
         RefSeek.file].
    destruct (s0 =? stream_index d).
    + eexists. split; [reflexivity|]. cbn. repeat split; reflexivity.
    + destruct (IH fuel
                  {| RefSeek.dec :=
                       {| RefDec.media := RefDec.media (RefSeek.dec st);
                          RefDec.container := rest;
                          RefDec.packet := RefDec.packet (RefSeek.dec st);
                          RefDec.decoded := RefDec.decoded (RefSeek.dec st);
                          RefDec.end_of_input := RefDec.end_of_input (RefSeek.dec st);
                          RefDec.frame := RefDec.frame (RefSeek.dec st);
                          RefDec.buffered := RefDec.buffered (RefSeek.dec st) |};
                     RefSeek.file := RefSeek.file st; RefSeek.pkt := None |}
                  eq_refl Hs ltac:(cbn in Hfuel; lia))
        as (st' & Hrun & Hcont & Hdec & Heoi & Hbuf).
      exists st'. split; [exact Hrun|]. repeat split; assumption.
Qed.

Lemma seek_on_reference (d : SF_Decoder) (frameIndex : Z)
    (st : RefSeek.State) (stream : AVStream) (fuel : nat) :
  format_ctx d = true -> 0 <= stream_index d ->
  nth_error (RefDec.media_streams (RefDec.media (RefSeek.dec st)))
    (Z.to_nat (stream_index d)) = Some stream ->
  time_base stream = {| num := 1; den := codecpar_sample_rate stream |} ->
  0 < codecpar_sample_rate stream ->
  0 <= frameIndex <= INT64_MAX ->
  forallb RefDec.sound_packet (RefSeek.file st) = true ->
  (List.length (RefSeek.file st) < fuel)%nat ->
  exists st',
    sf_decoder_seek_to_pcm_frame RefSeek.engine fuel (Some d) frameIndex st
      = Some (SF_RESULT_SUCCESS, st') /\
    RefDec.container (RefSeek.dec st')
      = RefSeek.after_first (stream_index d)
          (RefSeek.from_frame (stream_index d) frameIndex (RefSeek.file st)) /\
    RefDec.decoded (RefSeek.dec st') = [] /\
    RefDec.end_of_input (RefSeek.dec st') = false /\
    RefDec.buffered (RefSeek.dec st') = 0.
Proof.
  intros Hfc Hsi Hstream Htb Hrate Hidx Hsound Hfuel.
  unfold sf_decoder_seek_to_pcm_frame.
  rewrite Hfc. replace (stream_index d <? 0) with false by (symmetry; apply Z.ltb_ge; lia).
  cbn [negb orb streams base RefSeek.engine RefDec.engine].
  rewrite Hstream, Htb, av_rescale_q_same_base by assumption.
  cbn [decoder_call call base RefSeek.engine RefSeek.decoder_handle RefSeek.handle
       RefSeek.with_dec RefSeek.with_pkt RefSeek.dec RefSeek.file RefSeek.pkt fst snd
       RefDec.media RefDec.container RefDec.packet RefDec.decoded RefDec.end_of_input
       RefDec.frame RefDec.buffered].
  replace (frameIndex <? 0) with false by (symmetry; apply Z.ltb_ge; lia).
  cbn [fst snd Z.ltb Z.compare RefSeek.with_dec RefSeek.with_pkt RefSeek.dec RefSeek.file
       RefSeek.pkt RefDec.media RefDec.container RefDec.packet RefDec.decoded
       RefDec.end_of_input RefDec.frame RefDec.buffered].
  match goal with
  | |- context [skip_packets RefSeek.engine fuel d ?s] =>
      destruct (skip_packets_ref d
                  (RefSeek.from_frame (stream_index d) frameIndex (RefSeek.file st))
                  fuel s eq_refl)
        as (st' & Hrun & Hcont & Hdec & Heoi & Hbuf)
  end.
  - apply from_frame_sound, Hsound.
  - eapply Nat.le_lt_trans; [apply from_frame_length | exact Hfuel].
  - rewrite Hrun. eexists. split; [reflexivity|].
    cbn [decoder_call RefSeek.engine RefSeek.decoder_handle RefSeek.with_pkt RefSeek.dec snd].
    repeat split; assumption.
Qed.

(** ** The streams left to the demuxer *)

Section Discard.
Context {U E : Type} (F : FFmpeg U E).

Lemma discard_fold_log {A : Type} (L : FFmpeg U (E * list A)) (inj : Call U -> A)
    (selected : Z) :
  (forall c e l, call L c (e, l) = (fst (call F c e), (snd (call F c e), l ++ [inj c]))) ->
  forall (idxs : list nat) (e : E) (l : list A),
  fold_left
    (fun w i => if Z.of_nat i =? selected then w
                else snd (call L (set_discard_all (Z.of_nat i)) w))
    idxs (e, l)
  = (fold_left
       (fun e i => if Z.of_nat i =? selected then e
                   else snd (call F (set_discard_all (Z.of_nat i)) e))
       idxs e,
     l ++ map (fun i => inj (set_discard_all i))
            (filter (fun i => negb (i =? selected)) (map Z.of_nat idxs))).
Proof.
  intros HL.
  induction idxs as [|i idxs IH]; intros e l.
  - cbn. rewrite app_nil_r. reflexivity.
  - cbn [fold_left map filter].
    destruct (Z.of_nat i =? selected); cbn [negb].
    + apply IH.
    + rewrite HL. cbn [snd]. rewrite IH. cbn [map].
      rewrite <- app_assoc. reflexivity.
Qed.

Lemma discard_other_streams_log (selected : Z) (e : E) (l : list (Call U)) :
  discard_other_streams _ _ (Logged F) selected (e, l)
  = (discard_other_streams _ _ F selected e,
     l ++ map set_discard_all (other_streams (List.length (streams F e)) selected)).
Proof.
  unfold discard_other_streams, other_streams.
  apply (discard_fold_log (Logged F) (fun c => c)). apply logged_call.
Qed.

Lemma filter_discards (l : list Z) :
  filter is_set_discard_all (map (@set_discard_all U) l) = map set_discard_all l.
Proof. induction l as [|k l IH]; [reflexivity|]. cbn. rewrite IH. reflexivity. Qed.

Lemma other_streams_spec (n : nat) (selected i : Z) :
  In i (other_streams n selected) <-> 0 <= i < Z.of_nat n /\ i <> selected.
Proof.
  unfold other_streams. rewrite filter_In, in_map_iff. split.
  - intros [(k & <- & Hk) Hne]. apply in_seq in Hk.
    split; [lia|]. apply Z.eqb_neq. destruct (Z.of_nat k =? selected); [discriminate | reflexivity].
  - intros [Hi Hne]. split.
    + exists (Z.to_nat i). split; [lia|]. apply in_seq. lia.
    + apply Z.eqb_neq in Hne. rewrite Hne. reflexivity.
Qed.

(** Over any engine, a successful [sf_decoder_init] has marked for discard
    every stream of the file but the one it selected, and never that one:
    the decoder's stream index is the answer of [av_find_best_stream], and
    with [n] the number of streams the file has after that call, the streams
    marked are the indices below [n] other than the decoder's stream index,
    each marked once, in order. *)
Theorem init_discards_the_other_streams (d : SF_Decoder) (target : SFSampleFormat)
    (e : E) (dec : SF_Decoder) (info : option DecoderInfo) (e' : E)
    (log : list (Call U)) :
  sf_decoder_init (Logged F) (Some d) target (e, [])
    = (SF_RESULT_SUCCESS, Some dec, info, (e', log)) ->
  let n := List.length (streams F (snd (stream_selection F e))) in
  stream_index dec = fst (stream_selection F e) /\
  0 <= stream_index dec /\
  filter is_set_discard_all log
    = map set_discard_all (other_streams n (stream_index dec)) /\
  forall i : Z,
    In (set_discard_all i) log <-> 0 <= i < Z.of_nat n /\ i <> stream_index dec.
Proof.
  unfold stream_selection. cbn [fold_left].
  unfold sf_decoder_init, decoder_stages.
  unfold stage_bind, ffcall, update, unless, return_, stage_ret, peek.
  cbn [fst snd].
  repeat first
    [ rewrite logged_call; cbn [fst snd]
    | rewrite discard_other_streams_log; cbn [fst snd]
    | match goal with
      | |- context [if ?b then _ else _] => destruct b eqn:?
      end; cbn [fst snd] ].
  all: try discriminate.
  all: intros [= <- _ <- <-].
  all: cbn [stream_index].
  all: split; [reflexivity|].
  all: split;
    [ match goal with
      | H : (?x <? 0) = false |- 0 <= ?x => apply Z.ltb_ge; exact H
      end|].
  all: rewrite <- ?app_assoc; cbn [app].
  all: split;
    [ cbn [filter is_set_discard_all]; rewrite filter_app, filter_discards;
      cbn [filter is_set_discard_all]; apply app_nil_r
    | intros i; rewrite <- other_streams_spec;
      cbn [In]; rewrite in_app_iff, in_map_iff; cbn [In]; split;
      [ intros H;
        repeat match goal with
               | H : _ \/ _ |- _ => destruct H as [H|H]
               end;
        try discriminate H; try (exfalso; exact H);
        destruct H as (k & [= ->] & Hk); exact Hk
      | intros H; do 10 right; left; exists i; split; [reflexivity | exact H] ] ].
Qed.

End Discard.

Lemma init_discards_the_other_streams_witness :
  match sf_decoder_init (Logged RefDec.engine) (Some sf_decoder_create)
          SF_SAMPLE_FORMAT_S16 (three_streams, []) with
  | (SF_RESULT_SUCCESS, Some dec, _, (_, log)) =>
      let n := List.length (streams RefDec.engine
                              (snd (stream_selection RefDec.engine three_streams))) in
      stream_index dec = fst (stream_selection RefDec.engine three_streams) /\
      0 <= stream_index dec /\
      filter is_set_discard_all log
        = map set_discard_all (other_streams n (stream_index dec)) /\
      forall i : Z,
        In (set_discard_all i) log <-> 0 <= i < Z.of_nat n /\ i <> stream_index dec
  | _ => False
  end.
Proof.
  assert (Hr : fst (fst (fst (sf_decoder_init (Logged RefDec.engine)
                                (Some sf_decoder_create) SF_SAMPLE_FORMAT_S16
                                (three_streams, []))))
               = SF_RESULT_SUCCESS) by (vm_compute; reflexivity).
  assert (Hd : snd (fst (fst (sf_decoder_init (Logged RefDec.engine)
                                (Some sf_decoder_create) SF_SAMPLE_FORMAT_S16
                                (three_streams, []))))
               <> None) by (vm_compute; discriminate).
  destruct (sf_decoder_init _ _ _ _) as [[[r dec] info] [e' log]] eqn:Hinit.
  cbn [fst snd] in Hr, Hd. subst r.
  destruct dec as [dec|]; [|exfalso; apply Hd; reflexivity].
  exact (init_discards_the_other_streams RefDec.engine sf_decoder_create
           SF_SAMPLE_FORMAT_S16 three_streams dec info e' log Hinit).
Defined.

(** ** Releasing a decoder whose initialisation failed *)

Section DecoderFree.
Context {U E : Type} (G : FFmpegDecoder U E).

Lemma logged_format_pb (e : E) (l : list (Call U + DecoderCall)) :
  format_pb (base (LoggedDecoder G)) (e, l) = format_pb (base G) e.
Proof. reflexivity. Qed.

Lemma discard_other_streams_decoder_log (selected : Z) (e : E)
    (l : list (Call U + DecoderCall)) :
  discard_other_streams _ _ (base (LoggedDecoder G)) selected (e, l)
  = (discard_other_streams _ _ (base G) selected e,
     l ++ map (fun i => inl (set_discard_all i))
            (other_streams (List.length (streams (base G) e)) selected)).
Proof.
  unfold discard_other_streams, other_streams.
  apply (discard_fold_log (base G) (base (LoggedDecoder G)) inl).
  apply logged_base_call.
Qed.

(** Over any engine, when [sf_decoder_init] fails for want of memory after
    [avformat_alloc_context] gave it a format context, its last call has
    freed that context, and the decoder it leaves still points to it: the
    [sf_decoder_free] that follows looks into the freed context for its I/O
    context and releases the context a second time, with
    [avformat_close_input], no context having been allocated in between. *)
Theorem failed_init_context_released_twice (d : SF_Decoder) (target : SFSampleFormat)
    (e : E) (d' : SF_Decoder) (info : option DecoderInfo) (e' : E)
    (log : list (Call U + DecoderCall)) :
  sf_decoder_init (base (LoggedDecoder G)) (Some d) target (e, [])
    = (SF_RESULT_ERROR_ALLOCATION_FAILED, Some d', info, (e', log)) ->
  fst (call (base G) avformat_alloc_context (snd (call (base G) av_log_set_level e)))
    <> 0 ->
  format_ctx d' = true /\
  exists before mid after,
    log = [inl av_log_set_level; inl avformat_alloc_context] ++ before
          ++ [inl avformat_free_context] /\
    ~ In (inl avformat_alloc_context) before /\
    snd (sf_decoder_free (LoggedDecoder G) (Some d') (e', log))
      = log ++ [inl avcodec_free_context] ++ mid ++ [inr avformat_close_input] ++ after /\
    (mid = [] \/ mid = [inl av_freep_buffer; inl avio_context_free]) /\
    ~ In (inl avformat_alloc_context) after.
Proof.
  unfold sf_decoder_init, decoder_stages.
  unfold stage_bind, ffcall, update, unless, return_, stage_ret, peek.
  cbn [fst snd].
  repeat first
    [ rewrite logged_base_call; cbn [fst snd]
    | rewrite discard_other_streams_decoder_log; cbn [fst snd]
    | match goal with
      | |- context [if ?b then _ else _] => destruct b eqn:?
      end; cbn [fst snd] ].
  all: try discriminate.
  all: intros [= <- <- <- <-] Hne.
  all: try (exfalso;
            match goal with
            | H : (_ =? 0) = true |- _ => apply Z.eqb_eq in H; exact (Hne H)
            end).
  all: split; [reflexivity|].
  all: unfold sf_decoder_free; cbn [format_ctx negb].
  all: rewrite logged_base_call; cbn [fst snd]; rewrite logged_format_pb.
  all: match goal with
       | |- context [if format_pb (base G) ?x then _ else _] =>
           destruct (format_pb (base G) x)
       end.
  all: repeat first [ rewrite logged_base_call; cbn [fst snd]
                    | rewrite logged_decoder_call; cbn [fst snd] ].
  all: rewrite <- ?app_assoc; cbn [app].
  all: match goal with
       | |- exists before mid after,
              (_ :: _ :: ?l) = _ /\ _ =>
           exists (removelast l)
       end.
  all: first
         [ exists [inl av_freep_buffer; inl avio_context_free]; eexists;
           split; [reflexivity|];
           split; [cbn; intuition discriminate|];
           split; [rewrite <- ?app_assoc; cbn [app]; reflexivity|];
           split; [right; reflexivity | cbn; intuition discriminate]
         | exists []; eexists;
           split; [reflexivity|];
           split; [cbn; intuition discriminate|];
           split; [rewrite <- ?app_assoc; cbn [app]; reflexivity|];
           split; [left; reflexivity | cbn; intuition discriminate] ].
Qed.

End DecoderFree.

(** An engine with memory for the format context and nothing more. *)
Lemma failed_init_context_released_twice_witness :
  let log : list (Call unit + DecoderCall) :=
    [inl av_log_set_level; inl avformat_alloc_context; inl (av_malloc IO_BUFFER_SIZE);
     inl avformat_free_context] in
  let d' := {| format_ctx := true; stream_index := 0;
               target_bytes_per_sample := 0; target_channels := 0 |} in
  format_ctx d' = true /\
  exists before mid after,
    log = [inl av_log_set_level; inl avformat_alloc_context] ++ before
          ++ [inl avformat_free_context] /\
    ~ In (inl avformat_alloc_context) before /\
    snd (sf_decoder_free (LoggedDecoder Scarce.engine) (Some d') (0%nat, log))
      = log ++ [inl avcodec_free_context] ++ mid ++ [inr avformat_close_input] ++ after /\
    (mid = [] \/ mid = [inl av_freep_buffer; inl avio_context_free]) /\
    ~ In (inl avformat_alloc_context) after.
Proof.
  intros log d'.
  apply (failed_init_context_released_twice Scarce.engine sf_decoder_create
           SF_SAMPLE_FORMAT_S16 1%nat d' None 0%nat log).
  - vm_compute. reflexivity.
  - vm_compute. discriminate.
Defined.

(** ** From the frames written to the bytes in the sink *)

Section Conservation.
Import RefEnc.

Lemma adapter_whole (n : Z) (u : Sink) :
  0 <= n <= INT_MAX -> n <= room u ->
  write_packet_callback sink_write n u = (n, took n u).
Proof.
  intros Hn Hroom. unfold write_packet_callback, sink_write, to_size_t, took, whole.
  assert (H64 : 2147483647 < 2 ^ 64) by reflexivity.
  rewrite Z.mod_small by (unfold INT_MAX in Hn; lia).
  replace (Z.max 0 (Z.min n (room u))) with n by lia.
  rewrite Z.ltb_irrefl, to_int_id by (unfold INT_MAX in *; lia).
  reflexivity.
Qed.

Ltac run_enc :=
  cbn [call engine handle emit held ready finishing out_packet writer sink
       packet_of app fst snd nb_samples pts at_rest].

Lemma receive_packets_ref (fuel : nat) (f' h : option AVFrame) (fin : bool) (p : Z)
    (u : Sink) :
  0 <= owed h <= INT_MAX -> owed h <= room u ->
  receive_packets engine (S (S fuel))
    {| held := f'; ready := packet_of h; finishing := fin; out_packet := p;
       writer := Some (write_packet_callback sink_write); sink := u |}
  = Some (0, {| held := f'; ready := []; finishing := fin;
                out_packet := match h with Some g => 4 * nb_samples g | None => p end;
                writer := Some (write_packet_callback sink_write);
                sink := match h with
                        | Some g => took (4 * nb_samples g) u
                        | None => u
                        end |}).
Proof.
  intros Hfits Hroom.
  assert (Hstop : forall k p' u',
    receive_packets engine (S k)
      {| held := f'; ready := []; finishing := fin; out_packet := p';
         writer := Some (write_packet_callback sink_write); sink := u' |}
    = Some (0, {| held := f'; ready := []; finishing := fin; out_packet := p';
                  writer := Some (write_packet_callback sink_write); sink := u' |})).
  { intros k p' u'. cbn [receive_packets]. run_enc.
    destruct fin; [rewrite Z.eqb_refl, orb_true_r | rewrite Z.eqb_refl]; reflexivity. }
  destruct h as [g|]; [|apply Hstop].
  cbn [owed] in Hfits, Hroom.
  remember (S fuel) as fuel1.
  cbn [receive_packets]. run_enc.
  replace (0 =? AVERROR EAGAIN) with false by reflexivity.
  replace (0 =? AVERROR_EOF) with false by reflexivity.
  cbn [orb Z.ltb Z.compare].
  rewrite adapter_whole by assumption.
  replace (4 * nb_samples g <? 0) with false by (symmetry; apply Z.ltb_ge; lia).
  cbn [fst snd Z.ltb Z.compare]. subst fuel1. apply Hstop.
Qed.

Lemma write_at_rest (fuel : nat) (enc : SF_Encoder Sink) (n c : Z)
    (h : option AVFrame) (p : Z) (u : Sink) :
  0 < n <= INT_MAX -> 0 <= owed h <= INT_MAX -> owed h <= room u ->
  sf_encoder_write_pcm_frames engine (S (S fuel)) (Some enc) true n (Some c)
    (at_rest h p u)
  = Some {| write_result := SF_RESULT_SUCCESS;
            write_encoder := Some (advance_pts enc n);
            out_frames_written := Some n;
            write_engine :=
              at_rest (Some {| pts := next_pts enc; nb_samples := n |})
                (match h with Some g => 4 * nb_samples g | None => p end)
                (match h with Some g => took (4 * nb_samples g) u | None => u end) |}.
Proof.
  intros Hn Hfits Hroom. unfold sf_encoder_write_pcm_frames.
  replace (n <=? 0) with false by (symmetry; apply Z.leb_gt; lia).
  rewrite to_int_id by (unfold INT_MAX in *; lia).
  run_enc.
  replace (n <=? 0) with false by (symmetry; apply Z.leb_gt; lia).
  cbn [Z.ltb Z.compare fst snd].
  unfold encode_and_write. run_enc. cbn [Z.ltb Z.compare].
  rewrite receive_packets_ref by assumption.
  run_enc. cbn [Z.ltb Z.compare]. reflexivity.
Qed.

Lemma bytes_of_nonneg (ns : list Z) :
  Forall (fun n => 0 < n /\ 4 * n <= INT_MAX) ns -> 0 <= bytes_of ns.
Proof.
  induction 1 as [|n ns [Hn _] _ IH]; cbn [bytes_of fold_right]; [lia|].
  fold (bytes_of ns). lia.
Qed.

Lemma write_calls_at_rest (fuel : nat) : forall (ns : list Z) (enc : SF_Encoder Sink)
    (h : option AVFrame) (p : Z) (u : Sink),
  Forall (fun n => 0 < n /\ 4 * n <= INT_MAX) ns ->
  0 <= owed h <= INT_MAX -> owed h + bytes_of ns <= room u ->
  exists enc' h' p' u',
    write_calls engine (S (S fuel)) (map frames ns) (Some enc) (at_rest h p u)
      = Some (repeat SF_RESULT_SUCCESS (List.length ns), Some enc', at_rest h' p' u') /\
    0 <= owed h' <= INT_MAX /\
    room u' - owed h' = room u - owed h - bytes_of ns /\
    requests u' ++ map whole (packet_of h')
      = requests u ++ map whole (packet_of h) ++ map (fun n => whole (4 * n)) ns.
Proof.
  induction ns as [|n ns IH]; intros enc h p u Hns Hfits Hroom.
  - exists enc, h, p, u. cbn [map write_calls List.length repeat bytes_of fold_right].
    split; [reflexivity|]. split; [assumption|]. split; [lia|].
    rewrite app_nil_r. reflexivity.
  - inversion Hns as [|n0 ns0 [Hn Hn4] Hrest]; subst.
    pose proof (bytes_of_nonneg ns Hrest) as Hnn.
    cbn [bytes_of fold_right] in Hroom. fold (bytes_of ns) in Hroom.
    cbn [map write_calls frames wc_frames_in wc_frame_count wc_out].
    rewrite write_at_rest by (unfold INT_MAX in *; lia).
    cbn [write_encoder write_engine write_result].
    destruct (IH (advance_pts enc n) (Some {| pts := next_pts enc; nb_samples := n |})
                (match h with Some g => 4 * nb_samples g | None => p end)
                (match h with Some g => took (4 * nb_samples g) u | None => u end)
                Hrest)
      as (enc' & h' & p' & u' & Hrun & Hfits' & Hroom' & Hreq).
    + cbn [owed nb_samples]. lia.
    + cbn [owed nb_samples]. destruct h as [g|]; cbn [owed took room] in *; lia.
    + exists enc', h', p', u'. rewrite Hrun.
      split; [reflexivity|]. split; [assumption|].
      split.
      * rewrite Hroom'. cbn [owed nb_samples bytes_of fold_right]. fold (bytes_of ns).
        destruct h as [g|]; cbn [owed took room]; lia.
      * rewrite Hreq. cbn [packet_of map nb_samples app].
        destruct h as [g|]; cbn [took requests packet_of map app whole];
          rewrite <- ?app_assoc; reflexivity.
Qed.

Lemma free_at_rest (fuel : nat) (enc : SF_Encoder Sink) (h : option AVFrame) (p : Z)
    (u : Sink) :
  0 <= owed h <= INT_MAX -> owed h + TRAILER_SIZE <= room u ->
  exists e',
    sf_encoder_free engine (S (S fuel)) (Some enc) (at_rest h p u) = Some e' /\
    requests (sink e')
      = requests u ++ map whole (packet_of h) ++ [whole TRAILER_SIZE].
Proof.
  intros Hfits Hroom. unfold TRAILER_SIZE in Hroom.
  unfold sf_encoder_free, encode_and_write. run_enc. cbn [Z.ltb Z.compare].
  rewrite receive_packets_ref by (try assumption; lia).
  eexists. split; [reflexivity|].
  unfold release_encoder. run_enc.
  rewrite adapter_whole;
    [| unfold TRAILER_SIZE, INT_MAX; lia
     | unfold TRAILER_SIZE; destruct h as [g|]; cbn [owed took room] in *; lia ].
  cbn [Z.ltb Z.compare TRAILER_SIZE fst snd].
  destruct (enc_format_ctx enc); cbn [format_pb engine writer];
    run_enc; cbn [took requests];
    destruct h as [g|]; cbn [took requests packet_of map app whole];
    rewrite <- ?app_assoc; reflexivity.
Qed.

Lemma init_at_rest (name : string) (fmt : SFSampleFormat) (ch rate R : Z) :
  fmt <> SF_SAMPLE_FORMAT_UNKNOWN -> HEADER_SIZE <= R ->
  sf_encoder_init engine (Some sf_encoder_create) name sink_write fmt ch rate (fresh R)
  = (SF_RESULT_SUCCESS,
     Some {| enc_format_ctx := true; onWrite := Some sink_write; next_pts := 0;
             input_format := fmt |},
     at_rest None 0 (took HEADER_SIZE {| room := R; requests := [] |})).
Proof.
  intros Hfmt HR. unfold HEADER_SIZE in HR.
  unfold sf_encoder_init, encoder_stages.
  unfold stage_bind, ffcall, update, unless, return_, stage_ret, peek, fresh.
  cbn [call engine handle emit held ready finishing out_packet writer sink
       packet_of app fst snd nb_samples pts at_rest
       Z.eqb negb codec_sample_fmts codec_sample_fmt oformat_globalheader Z.ltb
       Z.compare enc_format_ctx onWrite next_pts input_format sf_encoder_create].
  rewrite adapter_whole;
    [| unfold HEADER_SIZE, INT_MAX; lia | unfold HEADER_SIZE; cbn [room]; lia ].
  cbn [Z.ltb Z.compare HEADER_SIZE fst snd].
  destruct fmt; try (exfalso; apply Hfmt; reflexivity); reflexivity.
Qed.

End Conservation.

(** On the reference engine, for a known input format, writes of positive
    frame counts whose packets fit an [int], and a sink with room for all
    of it: every call of the encoder's life returns success, and by the time
    [sf_encoder_free] returns the sink has taken, whole and in order, the
    header, one packet for each frame written, and the trailer.  The frame
    the codec was holding back is delivered by the flush. *)
Theorem every_frame_reaches_the_sink (name : string) (fmt : SFSampleFormat)
    (ch rate : Z) (ns : list Z) (R : Z) (fuel : nat) :
  fmt <> SF_SAMPLE_FORMAT_UNKNOWN ->
  Forall (fun n => 0 < n /\ 4 * n <= INT_MAX) ns ->
  RefEnc.HEADER_SIZE + bytes_of ns + RefEnc.TRAILER_SIZE <= R ->
  (2 <= fuel)%nat ->
  RefEnc.after_session
    (encoder_session RefEnc.engine fuel name RefEnc.sink_write fmt ch rate
       (map RefEnc.frames ns) (RefEnc.fresh R))
  = Some (repeat SF_RESULT_SUCCESS (S (List.length ns)),
          [whole RefEnc.HEADER_SIZE] ++ map (fun n => whole (4 * n)) ns
          ++ [whole RefEnc.TRAILER_SIZE]).
Proof.
  intros Hfmt Hns HR Hfuel.
  destruct fuel as [|[|fuel]]; try lia.
  pose proof (bytes_of_nonneg ns Hns) as Hnn.
  unfold encoder_session.
  rewrite init_at_rest by (try assumption; unfold RefEnc.HEADER_SIZE, RefEnc.TRAILER_SIZE in *; lia).
  destruct (write_calls_at_rest fuel ns
              {| enc_format_ctx := true; onWrite := Some RefEnc.sink_write;
                 next_pts := 0; input_format := fmt |}
              None 0
              (took RefEnc.HEADER_SIZE {| RefEnc.room := R; RefEnc.requests := [] |}) Hns)
    as (enc' & h' & p' & u' & Hrun & Hfits & Hroom & Hreq).
  { cbn [owed]. unfold INT_MAX. lia. }
  { cbn [owed took RefEnc.room]. unfold RefEnc.TRAILER_SIZE in HR. lia. }
  rewrite Hrun.
  destruct (free_at_rest fuel enc' h' p' u' Hfits) as (e' & Hfree & Hfinal).
  { cbn [owed took RefEnc.room] in Hroom. lia. }
  rewrite Hfree. cbn [RefEnc.after_session]. rewrite Hfinal.
  rewrite app_assoc, Hreq. cbn [took RefEnc.requests RefEnc.packet_of map app].
  reflexivity.
Qed.

Lemma every_frame_reaches_the_sink_witness :
  RefEnc.after_session
    (encoder_session RefEnc.engine 10 "wav" RefEnc.sink_write SF_SAMPLE_FORMAT_S16 2 44100
       (map RefEnc.frames [4; 6]) (RefEnc.fresh 1000))
  = Some (repeat SF_RESULT_SUCCESS (S (List.length [4; 6])),
          [whole RefEnc.HEADER_SIZE] ++ map (fun n => whole (4 * n)) [4; 6]
          ++ [whole RefEnc.TRAILER_SIZE]).
Proof.
  apply (every_frame_reaches_the_sink "wav" SF_SAMPLE_FORMAT_S16 2 44100 [4; 6] 1000 10).
  - discriminate.
  - repeat constructor; vm_compute; discriminate.
  - vm_compute. discriminate.
  - lia.
Defined.

(** ** The translator, there and back *)

(** Translating a PCM format to the engine's and back gives the format
    itself, except for the 24-bit format, which comes back as the 32-bit
    one; the unknown format stays unknown.  Translating an engine format to
    a PCM format never gives the 24-bit one, and when it gives a known
    format, translating that back gives an engine format of the same sample
    size. *)
Theorem sample_format_round_trip :
  (forall f : SFSampleFormat,
     from_ffmpeg_sample_format (to_ffmpeg_sample_format f)
     = match f with SF_SAMPLE_FORMAT_S24 => SF_SAMPLE_FORMAT_S32 | _ => f end) /\
  (forall a : AVSampleFormat,
     from_ffmpeg_sample_format a <> SF_SAMPLE_FORMAT_S24 /\
     (from_ffmpeg_sample_format a = SF_SAMPLE_FORMAT_UNKNOWN \/
      av_get_bytes_per_sample (to_ffmpeg_sample_format (from_ffmpeg_sample_format a))
      = av_get_bytes_per_sample a)).
Proof.
  split.
  - intros f. destruct f; reflexivity.
  - intros a. destruct a; (split; [discriminate|]);
      first [left; reflexivity | right; reflexivity].
Qed.

(** ** The read and seek adapters *)

(** For a request that fits an [int] and a callback that reads no more than
    it was asked for: the read adapter asks the callback for exactly the
    buffer's size, passes on the callback's state, and returns the number of
    bytes read when there are some and [AVERROR_EOF] when there are none; it
    never returns zero, and nothing but [AVERROR_EOF] below zero, so that a
    read that failed cannot be told from the end of the input.  The seek
    adapter refuses the size query without consulting the callback and hands
    every other request to it unchanged. *)
Theorem io_adapters_contract {U : Type} (onRead : sf_read_callback U)
    (onSeek : sf_seek_callback U) (buf_size offset whence : Z) (u : U) :
  0 <= buf_size <= INT_MAX ->
  0 <= fst (onRead u buf_size) <= buf_size ->
  snd (read_packet_callback onRead buf_size u) = snd (onRead u buf_size) /\
  fst (read_packet_callback onRead buf_size u)
    = (if fst (onRead u buf_size) =? 0 then AVERROR_EOF else fst (onRead u buf_size)) /\
  fst (read_packet_callback onRead buf_size u) <> 0 /\
  (fst (read_packet_callback onRead buf_size u) < 0 ->
   fst (read_packet_callback onRead buf_size u) = AVERROR_EOF) /\
  seek_callback_wrapper onSeek offset AVSEEK_SIZE u = (-1, u) /\
  (whence <> AVSEEK_SIZE ->
   seek_callback_wrapper onSeek offset whence u = onSeek u offset whence).
Proof.
  intros Hsize Hread.
  unfold read_packet_callback, seek_callback_wrapper, to_size_t.
  rewrite Z.mod_small by (unfold INT_MAX in Hsize; lia).
  destruct (onRead u buf_size) as [n u1]. cbn [fst snd] in *.
  destruct (n =? 0) eqn:Hn; cbn [fst snd].
  - repeat split; try reflexivity; try discriminate.
    intros Hw. apply Z.eqb_neq in Hw. rewrite Hw. reflexivity.
  - apply Z.eqb_neq in Hn.
    rewrite to_int_id by (unfold INT_MAX in *; lia).
    repeat split; try reflexivity; try lia.
    intros Hw. apply Z.eqb_neq in Hw. rewrite Hw. reflexivity.
Qed.

(** A callback over a file of ten bytes, asked for four. *)
Lemma io_adapters_contract_witness :
  let onRead : sf_read_callback Z := fun left n => (Z.min n left, left - Z.min n left) in
  let onSeek : sf_seek_callback Z := fun left offset _ => (offset, 10 - offset) in
  snd (read_packet_callback onRead 4 10) = snd (onRead 10 4) /\
  fst (read_packet_callback onRead 4 10)
    = (if fst (onRead 10 4) =? 0 then AVERROR_EOF else fst (onRead 10 4)) /\
  fst (read_packet_callback onRead 4 10) <> 0 /\
  (fst (read_packet_callback onRead 4 10) < 0 ->
   fst (read_packet_callback onRead 4 10) = AVERROR_EOF) /\
  seek_callback_wrapper onSeek 0 AVSEEK_SIZE 10 = (-1, 10) /\
  (0 <> AVSEEK_SIZE -> seek_callback_wrapper onSeek 0 0 10 = onSeek 10 0 0).
Proof.
  intros onRead onSeek.
  apply (io_adapters_contract onRead onSeek 4 0 0 10).
  - vm_compute. split; discriminate.
  - vm_compute. split; discriminate.
Defined.

(** ** Reading after a seek, on the reference engine *)

Section ReadInFile.

Variable f : list RefDec.Packet.
Variable p : option RefDec.Packet.

Lemma call_in_file (c : Call unit) (e : RefDec.State) :
  match c with swr_init => False | _ => True end ->
  call (base RefSeek.engine) c {| RefSeek.dec := e; RefSeek.file := f; RefSeek.pkt := p |}
  = (fst (RefDec.handle c e),
     {| RefSeek.dec := snd (RefDec.handle c e); RefSeek.file := f; RefSeek.pkt := p |}).
Proof.
  intros Hc.
  destruct c; try contradiction;
    cbn [call base RefSeek.engine RefSeek.handle RefSeek.dec RefSeek.with_dec
         RefSeek.file RefSeek.pkt];
    match goal with
    | |- context [RefDec.handle ?c ?e] => destruct (RefDec.handle c e); reflexivity
    end.
Qed.

Lemma resample_in_file d frameCount in_count (s : ReadState RefDec.State) :
  resample (base RefSeek.engine) d frameCount in_count (in_file f p s)
  = (fst (resample RefDec.engine d frameCount in_count s),
     in_file f p (snd (resample RefDec.engine d frameCount in_count s))).
Proof.
  unfold resample. cbn [rs_engine in_file frames_read out_ptr draining written].
  rewrite call_in_file by exact I.
  cbn [call RefDec.engine].
  destruct (RefDec.handle _ (rs_engine s)) as [out e1]. cbn [fst snd].
  destruct (0 <? out); reflexivity.
Qed.

Lemma drain_in_file d frameCount : forall (fuel : nat) (s : ReadState RefDec.State),
  drain_resampler (base RefSeek.engine) fuel d frameCount (in_file f p s)
  = option_map (in_file f p) (drain_resampler RefDec.engine fuel d frameCount s).
Proof.
  induction fuel as [|fuel IH]; intros s; [reflexivity|].
  cbn [drain_resampler]. rewrite resample_in_file.
  destruct (resample RefDec.engine d frameCount None s) as [flushed s1].
  cbn [fst snd in_file frames_read].
  destruct ((0 <? flushed) && (frames_read s1 <? frameCount)); [apply IH | reflexivity].
Qed.

Ltac by_sim IH :=
  match goal with
  | |- _ = option_map _ (read_loop RefDec.engine _ _ _ ?s') => exact (IH s')
  end.

Lemma read_loop_in_file d frameCount : forall (fuel : nat) (s : ReadState RefDec.State),
  read_loop (base RefSeek.engine) fuel d frameCount (in_file f p s)
  = option_map (fun rs => (fst rs, in_file f p (snd rs)))
      (read_loop RefDec.engine fuel d frameCount s).
Proof.
  induction fuel as [|fuel IH]; intros s; [reflexivity|].
  cbn [read_loop].
  cbn [in_file frames_read rs_engine draining].
  destruct (negb (frames_read s <? frameCount)); [reflexivity|].
  rewrite call_in_file by exact I. cbn [call RefDec.engine].
  destruct (RefDec.handle avcodec_receive_frame (rs_engine s)) as [ret e1].
  cbn [fst snd].
  destruct (ret =? 0).
  { change (with_engine (in_file f p s)
              {| RefSeek.dec := e1; RefSeek.file := f; RefSeek.pkt := p |})
      with (in_file f p (with_engine s e1)).
    cbn [frame_nb_samples base RefSeek.engine RefSeek.dec].
    rewrite resample_in_file.
    destruct (resample RefDec.engine d frameCount _ (with_engine s e1)) as [out s2].
    cbn [fst snd]. cbn [in_file rs_engine].
    rewrite call_in_file by exact I. cbn [call RefDec.engine fst snd].
    by_sim IH. }
  destruct (ret =? AVERROR_EOF).
  { change (with_engine (in_file f p s)
              {| RefSeek.dec := e1; RefSeek.file := f; RefSeek.pkt := p |})
      with (in_file f p (with_engine s e1)).
    rewrite drain_in_file.
    destruct (drain_resampler RefDec.engine fuel d frameCount (with_engine s e1));
      reflexivity. }
  destruct (negb (ret =? AVERROR EAGAIN)); [reflexivity|].
  destruct (draining s); [reflexivity|].
  rewrite call_in_file by exact I. cbn [call RefDec.engine fst snd].
  rewrite call_in_file by exact I. cbn [call RefDec.engine fst snd].
  destruct (RefDec.handle av_read_frame _) as [read_ret e3]. cbn [fst snd].
  destruct (read_ret =? 0).
  { cbn [packet_stream_index base RefSeek.engine RefSeek.dec].
    destruct (packet_stream_index RefDec.engine e3 =? stream_index d).
    - rewrite call_in_file by exact I. cbn [call RefDec.engine fst snd].
      destruct (RefDec.handle (avcodec_send_packet true) e3) as [sent e4].
      cbn [fst snd].
      rewrite call_in_file by exact I. cbn [call RefDec.engine fst snd].
      destruct (sent <? 0); [reflexivity | by_sim IH].
    - rewrite call_in_file by exact I. cbn [call RefDec.engine fst snd].
      by_sim IH. }
  destruct (read_ret =? AVERROR_EOF); [|reflexivity].
  rewrite call_in_file by exact I. cbn [call RefDec.engine fst snd].
  by_sim IH.
Qed.

End ReadInFile.

(** On the reference engine, for a file whose packets can all be read and a
    stream whose time base is one frame: a seek to a frame, a non-negative
    [int64_t], succeeds, and the
    read that follows returns success with the smaller of the request and
    the frames of the stream that come after the first packet of the stream
    at or after the one that holds the frame.  The packet sought is read by
    the seek and never decoded: its frames, the frame sought among them, are
    not delivered. *)
Theorem seek_then_read_misses_the_packet_sought (d : SF_Decoder)
    (frameIndex frameCount cell : Z) (st : RefSeek.State) (stream : AVStream)
    (fuel : nat) :
  format_ctx d = true -> 0 <= stream_index d ->
  nth_error (RefDec.media_streams (RefDec.media (RefSeek.dec st)))
    (Z.to_nat (stream_index d)) = Some stream ->
  time_base stream = {| num := 1; den := codecpar_sample_rate stream |} ->
  0 < codecpar_sample_rate stream ->
  0 <= frameIndex <= INT64_MAX ->
  forallb RefDec.sound_packet (RefSeek.file st) = true ->
  0 < frameCount <= INT_MAX ->
  (2 * List.length (RefSeek.file st) + 4 <= fuel)%nat ->
  exists (st' : RefSeek.State) (o : ReadOutcome RefSeek.State),
    sf_decoder_seek_to_pcm_frame RefSeek.engine fuel (Some d) frameIndex st
      = Some (SF_RESULT_SUCCESS, st') /\
    sf_decoder_read_pcm_frames (base RefSeek.engine) fuel (Some d) true frameCount
      (Some cell) st' = Some o /\
    read_result o = SF_RESULT_SUCCESS /\
    out_frames_read o
      = Some (Z.min frameCount
                (frames_of (stream_index d)
                   (RefSeek.after_first (stream_index d)
                      (RefSeek.from_frame (stream_index d) frameIndex
                         (RefSeek.file st))))).
Proof.
  intros Hfc Hsi Hstream Htb Hrate Hidx Hsound [Hpos Hint] Hfuel.
  destruct (seek_on_reference d frameIndex st stream fuel Hfc Hsi Hstream Htb Hrate
              Hidx Hsound ltac:(lia))
    as (st' & Hseek & Hcont & Hdec & Heoi & Hbuf).
  destruct st' as [dec' f' p']. cbn [RefSeek.dec] in Hcont, Hdec, Heoi, Hbuf.
  destruct dec' as [m c pk q eoi frm buf]. cbn in Hcont, Hdec, Heoi, Hbuf. subst.
  set (rest := RefSeek.after_first (stream_index d)
                 (RefSeek.from_frame (stream_index d) frameIndex (RefSeek.file st))).
  set (dec' := {| RefDec.media := m; RefDec.container := rest; RefDec.packet := pk;
                  RefDec.decoded := []; RefDec.end_of_input := false;
                  RefDec.frame := frm; RefDec.buffered := 0 |}).
  assert (Hlen : (List.length rest <= List.length (RefSeek.file st))%nat).
  { unfold rest. eapply Nat.le_trans; [apply after_first_length | apply from_frame_length]. }
  destruct (read_delivers d frameCount Hint (RefDec.steps_to_end dec') (RefDec.entry dec')
              fuel)
    as (s' & Hl & Hf & _).
  - apply Nat.le_refl.
  - unfold RefDec.steps_to_end, dec'. cbn [RefDec.container RefDec.decoded
      RefDec.end_of_input List.length]. lia.
  - unfold RefDec.sound, RefDec.entry, dec'.
    cbn [rs_engine RefDec.container RefDec.decoded RefDec.end_of_input RefDec.buffered
         forallb].
    repeat split; try reflexivity; try lia; try discriminate.
    unfold rest. apply after_first_sound, from_frame_sound, Hsound.
  - cbn [RefDec.entry frames_read]. lia.
  - cbn [RefDec.entry draining]. discriminate.
  - exists {| RefSeek.dec := dec'; RefSeek.file := f'; RefSeek.pkt := p' |}.
    eexists. split; [exact Hseek|].
    unfold sf_decoder_read_pcm_frames.
    replace (frameCount <=? 0) with false by (symmetry; apply Z.leb_gt; lia).
    change {| rs_engine := {| RefSeek.dec := dec'; RefSeek.file := f'; RefSeek.pkt := p' |};
              out_ptr := 0; frames_read := 0; draining := false; written := [] |}
      with (in_file f' p' (RefDec.entry dec')).
    rewrite read_loop_in_file, Hl. cbn [option_map fst snd].
    split; [reflexivity|]. cbn [read_result out_frames_read].
    split; [reflexivity|]. f_equal. cbn [in_file frames_read].
    rewrite Hf. unfold RefDec.remaining, RefDec.entry, dec', frames_of.
    cbn [rs_engine frames_read RefDec.container RefDec.decoded RefDec.buffered fold_right].
    f_equal. lia.
Qed.

(** A file of seven frames of the stream: after a seek to frame 0, a read of
    a hundred frames returns four. *)
Lemma seek_then_read_misses_the_packet_sought_witness :
  exists (st' : RefSeek.State) (o : ReadOutcome RefSeek.State),
    sf_decoder_seek_to_pcm_frame RefSeek.engine 10 (Some RefDec.stereo16) 0
      RefSeek.three_packets = Some (SF_RESULT_SUCCESS, st') /\
    sf_decoder_read_pcm_frames (base RefSeek.engine) 10 (Some RefDec.stereo16) true 100
      (Some 0) st' = Some o /\
    read_result o = SF_RESULT_SUCCESS /\
    out_frames_read o
      = Some (Z.min 100
                (frames_of (stream_index RefDec.stereo16)
                   (RefSeek.after_first (stream_index RefDec.stereo16)
                      (RefSeek.from_frame (stream_index RefDec.stereo16) 0
                         (RefSeek.file RefSeek.three_packets))))).
Proof.
  apply (seek_then_read_misses_the_packet_sought RefDec.stereo16 0 100 0
           RefSeek.three_packets
           {| duration := AV_NOPTS_VALUE; time_base := {| num := 1; den := 44100 |};
              codecpar_sample_rate := 44100 |} 10).
  - reflexivity.
  - vm_compute. discriminate.
  - reflexivity.
  - reflexivity.
  - reflexivity.
  - unfold INT64_MAX; lia.
  - reflexivity.
  - vm_compute. split; [reflexivity | discriminate].
  - vm_compute. lia.
Defined.
